(** * Cedar Sells: tiered property listings, CRM sync and lead creation

    A shallow embedding of the server-side code of the repository:

    - [lib/database.ts] ([PropertyDatabase]) over the [properties] table of
      [supabase/schema.sql];
    - [lib/sync-salesforce.ts] ([SalesforceSync]) and the external upsert
      endpoint [api/properties-db/upsert];
    - [lib/salesforce.ts] ([transformSalesforceTransaction]) and the property
      detail endpoint with its public-tier redaction;
    - the listing endpoints [api/properties] and [api/properties-db], and
      the draft of the listing that asks the Salesforce client first;
    - the Clerk webhook receiver [api/webhooks/clerk];
    - the client of Salesforce and the client of Cloudinary, the handlers of
      the Salesforce OAuth flow, the explorers of the Salesforce schema and
      the sync endpoint [api/sync/salesforce].

    Handlers are written in a small state-and-exception monad over a [World]
    that holds what the external services answer, the database table and the
    trace of external calls made so far; the client of Salesforce has its
    own state, the token it holds and the HTTP requests it has sent. *)

From Stdlib Require Import List String Ascii Bool Arith ZArith QArith Lia.
From Stdlib Require Import Sorted DecimalString.
Import ListNotations.

Local Close Scope Q_scope.
Local Open Scope string_scope.
Local Open Scope list_scope.

(* ================================================================== *)
(** * JavaScript values used by the code *)
(* ================================================================== *)

Module Js.

(** A JavaScript number.  Comparisons, truthiness and copying are used by
    the code below, and one sum of two whole numbers, so a finite double is
    represented by the rational it denotes (both zeros denote [0]). *)
Inductive JsNumber : Type :=
| JsNaN
| JsInf (negative : bool)
| JsFin (q : Q).

Definition zero : JsNumber := JsFin 0%Q.
Definition of_Z (z : Z) : JsNumber := JsFin (inject_Z z).

(** [ToBoolean] on numbers: [NaN] and zero are falsy. *)
Definition num_truthy (n : JsNumber) : bool :=
  match n with
  | JsNaN => false
  | JsInf _ => true
  | JsFin q => negb (Qeq_bool q 0%Q)
  end.

(** [n || d] on numbers. *)
Definition num_or (n d : JsNumber) : JsNumber :=
  if num_truthy n then n else d.

(** [a >= b]. *)
Definition num_ge (a b : JsNumber) : bool :=
  match a, b with
  | JsNaN, _ | _, JsNaN => false
  | JsInf false, _ => true
  | _, JsInf true => true
  | JsInf true, _ => false
  | JsFin _, JsInf false => false
  | JsFin x, JsFin y => Qle_bool y x
  end.

(** [a < b]. *)
Definition num_lt (a b : JsNumber) : bool :=
  match a, b with
  | JsNaN, _ | _, JsNaN => false
  | JsInf true, JsInf true => false
  | JsInf true, _ => true
  | _, JsInf true => false
  | JsInf false, _ => false
  | JsFin _, JsInf false => true
  | JsFin x, JsFin y => negb (Qle_bool y x)
  end.

(** [a + b] on numbers met as whole numbers.  The sum of two finite
    numbers is taken exactly; a double rounds it beyond [2 ^ 53], further
    than any index of an array. *)
Definition num_add (a b : JsNumber) : JsNumber :=
  match a, b with
  | JsNaN, _ | _, JsNaN => JsNaN
  | JsInf x, JsInf y => if Bool.eqb x y then JsInf x else JsNaN
  | JsInf x, JsFin _ | JsFin _, JsInf x => JsInf x
  | JsFin x, JsFin y => JsFin (x + y)%Q
  end.

(** The place in an array of length [len] that [slice] reads an argument
    as: [NaN] is 0, a fraction is cut off, a negative number counts from
    the end, and the place stays within the array. *)
Definition relative_index (n : JsNumber) (len : nat) : nat :=
  match n with
  | JsNaN => 0
  | JsInf true => 0
  | JsInf false => len
  | JsFin q =>
      let k := Z.quot (Qnum q) (Zpos (Qden q)) in
      if Z.ltb k 0 then Z.to_nat (Z.max (Z.of_nat len + k) 0)
      else Nat.min (Z.to_nat k) len
  end.

(** [xs.slice(start, end)]. *)
Definition slice {A} (start stop : JsNumber) (xs : list A) : list A :=
  let from := relative_index start (List.length xs) in
  let to := relative_index stop (List.length xs) in
  firstn (to - from) (skipn from xs).

(** Scalar values found in the fields of a CRM record or of a JSON body. *)
Inductive JsValue : Type :=
| JsUndefined
| JsNull
| JsBool (b : bool)
| JsNum (n : JsNumber)
| JsStr (s : string).

Definition str_truthy (s : string) : bool := negb (s =? "").

Definition truthy (v : JsValue) : bool :=
  match v with
  | JsUndefined | JsNull => false
  | JsBool b => b
  | JsNum n => num_truthy n
  | JsStr s => str_truthy s
  end.

(** [v || d] for an optional string [v] ([None] is [undefined] or [null])
    and a string default. *)
Definition str_or (v : option string) (d : string) : string :=
  match v with
  | Some s => if str_truthy s then s else d
  | None => d
  end.

(** [v || undefined] for an optional string. *)
Definition str_or_undefined (v : option string) : option string :=
  match v with
  | Some s => if str_truthy s then Some s else None
  | None => None
  end.

(** [v || d] for an optional number. *)
Definition optnum_or (v : option JsNumber) (d : JsNumber) : JsNumber :=
  match v with
  | Some n => num_or n d
  | None => d
  end.

(** Truthiness of an optional string. *)
Definition opt_truthy (v : option string) : bool :=
  match v with
  | Some s => str_truthy s
  | None => false
  end.

(** ** Strings

    A [string] is read as a sequence of code units below 256; on those the
    functions below are the ECMAScript ones. *)

Definition is_upper (c : ascii) : bool :=
  let n := nat_of_ascii c in
  (Nat.leb 65 n && Nat.leb n 90) ||
  (Nat.leb 192 n && Nat.leb n 222 && negb (Nat.eqb n 215)).

Definition lower_char (c : ascii) : ascii :=
  if is_upper c then ascii_of_nat (nat_of_ascii c + 32) else c.

Fixpoint toLowerCase (s : string) : string :=
  match s with
  | EmptyString => EmptyString
  | String c r => String (lower_char c) (toLowerCase r)
  end.

(** White space and line terminators: TAB, LF, VT, FF, CR, SP, NBSP. *)
Definition is_space (c : ascii) : bool :=
  let n := nat_of_ascii c in
  (Nat.leb 9 n && Nat.leb n 13) || Nat.eqb n 32 || Nat.eqb n 160.

Fixpoint trimStart (s : string) : string :=
  match s with
  | EmptyString => EmptyString
  | String c r => if is_space c then trimStart r else s
  end.

Fixpoint trimEnd (s : string) : string :=
  match s with
  | EmptyString => EmptyString
  | String c r =>
      match trimEnd r with
      | EmptyString => if is_space c then EmptyString else String c EmptyString
      | r' => String c r'
      end
  end.

Definition trim (s : string) : string := trimEnd (trimStart s).

(** [s.split(sep)] for a separator of one character: never empty,
    [''.split(',')] is [['']]. *)
Fixpoint split (sep : ascii) (s : string) : list string :=
  match s with
  | EmptyString => [EmptyString]
  | String c r =>
      if Ascii.eqb c sep then EmptyString :: split sep r
      else match split sep r with
           | h :: t => String c h :: t
           | [] => [String c EmptyString]
           end
  end.

Definition split_comma : string -> list string := split ","%char.

(** [xs.join(sep)]. *)
Definition join (sep : string) (xs : list string) : string :=
  String.concat sep xs.

(** [parseFloat(v)].  On a number it is the number itself (printing a
    double and reading it back gives the same value); [undefined], [null]
    and booleans print as words that do not start a number, and the empty
    string holds none.  Reading the decimal prefix of a string and rounding
    it to a double is the builtin's work, taken as [strToNumber]. *)
Definition parseFloat (strToNumber : string -> JsNumber) (v : JsValue)
  : JsNumber :=
  match v with
  | JsNum n => n
  | JsStr s => if str_truthy s then strToNumber s else JsNaN
  | JsUndefined | JsNull | JsBool _ => JsNaN
  end.

End Js.
Import Js.

(* ================================================================== *)
(** * [types/property.ts] *)
(* ================================================================== *)

Module Types.

(** [AccessTier], the tier of a viewer as the handlers compute it. *)
Inductive AccessTier : Type := public | registered | vip.

Record PropertyImage : Type := {
  img_id : string;
  url : string;
  altText : option string;
  order : nat
}.

Record FlipMetrics : Type := {
  arv : JsNumber;
  rehabEstimate : JsNumber;
  spread : JsNumber;
  roi : JsNumber
}.

Record RentalMetrics : Type := {
  grossYield : JsNumber;
  capRate : JsNumber;
  monthlyRent : option JsNumber
}.

Record Address : Type := {
  street : string;
  city : string;
  state : string;
  zipCode : string;
  parish : string
}.

(** [interface Property]; an optional field is [None] when [undefined]. *)
Record Property : Type := {
  id : string;
  title : string;
  description : string;
  address : Address;
  bedrooms : JsNumber;
  bathrooms : JsNumber;
  squareFeet : JsNumber;
  lotSize : option JsNumber;
  yearBuilt : option JsNumber;
  propertyType : string;
  dealType : string;
  market : string;
  listPrice : JsNumber;
  purchasePrice : option JsNumber;
  status : string;
  accessTier : string;
  isOffMarket : bool;
  images : list PropertyImage;
  thumbnailUrl : string;
  flipMetrics : option FlipMetrics;
  rentalMetrics : option RentalMetrics;
  createdDate : string;
  updatedDate : string;
  ownerId : string;
  tags : option (list string);
  notes : option string;
  showingInstructions : option string
}.

(** [interface SalesforceTransaction]. *)
Record SalesforceTransaction : Type := {
  Id : string;
  Name : string;
  Description__c : option string;
  Street_Address__c : string;
  City__c : string;
  State__c : string;
  Zip_Code__c : string;
  Parish__c : string;
  Bedrooms__c : JsNumber;
  Bathrooms__c : JsNumber;
  Square_Feet__c : JsNumber;
  Lot_Size__c : option JsNumber;
  Year_Built__c : option JsNumber;
  Property_Type__c : string;
  Deal_Type__c : string;
  Market__c : string;
  List_Price__c : JsNumber;
  Purchase_Price__c : option JsNumber;
  Status__c : string;
  Access_Tier__c : string;
  Is_Off_Market__c : option bool;
  ARV__c : option JsNumber;
  Rehab_Estimate__c : option JsNumber;
  Spread__c : option JsNumber;
  ROI__c : option JsNumber;
  Gross_Yield__c : option JsNumber;
  Cap_Rate__c : option JsNumber;
  Monthly_Rent__c : option JsNumber;
  CreatedDate : string;
  LastModifiedDate : string;
  OwnerId : string;
  Tags__c : option string;
  Notes__c : option string;
  Showing_Instructions__c : option string
}.

(** [lib/salesforce.ts]: [transformSalesforceTransaction]. *)
Definition transformSalesforceTransaction
    (transaction : SalesforceTransaction) (images : list PropertyImage)
  : Property :=
  {| id := Id transaction;
     title := Name transaction;
     description := str_or (Description__c transaction) "";
     address :=
       {| street := Street_Address__c transaction;
          city := City__c transaction;
          state := State__c transaction;
          zipCode := Zip_Code__c transaction;
          parish := Parish__c transaction |};
     bedrooms := Bedrooms__c transaction;
     bathrooms := Bathrooms__c transaction;
     squareFeet := Square_Feet__c transaction;
     lotSize := Lot_Size__c transaction;
     yearBuilt := Year_Built__c transaction;
     propertyType := Property_Type__c transaction;
     dealType := Deal_Type__c transaction;
     market := Market__c transaction;
     listPrice := List_Price__c transaction;
     purchasePrice := Purchase_Price__c transaction;
     status := Status__c transaction;
     accessTier := Access_Tier__c transaction;
     isOffMarket :=
       match Is_Off_Market__c transaction with
       | Some b => b || false
       | None => false
       end;
     images := images;
     thumbnailUrl :=
       match images with
       | first :: _ => url first
       | [] => "/placeholder-house.jpg"
       end;
     flipMetrics :=
       if Deal_Type__c transaction =? "Fix & Flip" then
         Some {| arv := optnum_or (ARV__c transaction) zero;
                 rehabEstimate := optnum_or (Rehab_Estimate__c transaction) zero;
                 spread := optnum_or (Spread__c transaction) zero;
                 roi := optnum_or (ROI__c transaction) zero |}
       else None;
     rentalMetrics :=
       if Deal_Type__c transaction =? "Rental" then
         Some {| grossYield := optnum_or (Gross_Yield__c transaction) zero;
                 capRate := optnum_or (Cap_Rate__c transaction) zero;
                 monthlyRent := Monthly_Rent__c transaction |}
       else None;
     createdDate := CreatedDate transaction;
     updatedDate := LastModifiedDate transaction;
     ownerId := OwnerId transaction;
     tags :=
       match Tags__c transaction with
       | Some t => if str_truthy t then Some (map trim (split_comma t)) else None
       | None => None
       end;
     notes := Notes__c transaction;
     showingInstructions := Showing_Instructions__c transaction |}.

End Types.

(* ================================================================== *)
(** * [supabase/schema.sql]: the [properties] table *)
(* ================================================================== *)

Module Schema.

(** The columns of [properties] other than [id], holding the values the
    code writes.  Values are stored as given: conversions of the column
    types (rounding of decimals, normalisation of timestamps) are not
    modelled.  Timestamps are ISO-8601 texts in UTC, whose alphabetical
    order is the chronological one. *)
Record Columns : Type := {
  name : string;
  address : string;
  city : string;
  state : string;
  zip_code : string;
  price : JsNumber;
  bedrooms : JsNumber;
  bathrooms : JsNumber;
  square_footage : JsNumber;
  lot_size : JsNumber;
  year_built : JsNumber;
  property_type : string;
  description : string;
  status : string;
  images : list string;
  tier : string;
  salesforce_id : option string;
  created_at : string;
  updated_at : string;
  last_synced_at : string;
  lead_source : option string;
  investment_path : option string;
  actual_profit : option JsNumber;
  projected_profit : option JsNumber;
  sales_date : option string;
  salesforce_status : option string
}.

(** A row: [id UUID DEFAULT gen_random_uuid() PRIMARY KEY] and the rest. *)
Record Row : Type := {
  id : string;
  cols : Columns
}.

Definition Table : Type := list Row.

Definition set_updated_at (t : string) (c : Columns) : Columns :=
  {| name := name c; address := address c; city := city c;
     state := state c; zip_code := zip_code c; price := price c;
     bedrooms := bedrooms c; bathrooms := bathrooms c;
     square_footage := square_footage c; lot_size := lot_size c;
     year_built := year_built c; property_type := property_type c;
     description := description c; status := status c;
     images := images c; tier := tier c;
     salesforce_id := salesforce_id c; created_at := created_at c;
     updated_at := t;
     last_synced_at := last_synced_at c; lead_source := lead_source c;
     investment_path := investment_path c;
     actual_profit := actual_profit c;
     projected_profit := projected_profit c;
     sales_date := sales_date c;
     salesforce_status := salesforce_status c |}.

(** What PostgREST reports when a request fails. *)
Record PostgrestError : Type := {
  code : string;
  message : string
}.

(** The [{ data, error }] pair of a supabase-js call. *)
Record Reply (A : Type) : Type := {
  data : option A;
  error : option PostgrestError
}.
Arguments data {A} _.
Arguments error {A} _.

Definition reply_data {A} (a : A) : Reply A :=
  {| data := Some a; error := None |}.
Definition reply_error {A} (e : PostgrestError) : Reply A :=
  {| data := None; error := Some e |}.

(** ** The read query of [getProperties] *)

(** [.eq('tier', t)] or [.in('tier', ts)]. *)
Inductive TierFilter : Type :=
| TierEq (t : string)
| TierIn (ts : list string).

Definition mem_string (s : string) (l : list string) : bool :=
  existsb (String.eqb s) l.

Definition tier_matches (f : TierFilter) (r : Row) : bool :=
  match f with
  | TierEq t => tier (cols r) =? t
  | TierIn ts => mem_string (tier (cols r)) ts
  end.

(** [.eq('status', 'Active')] and
    [.or('investment_path.neq.Contract Cancelled/Lost,investment_path.is.null')]. *)
Definition listed (r : Row) : bool :=
  (status (cols r) =? "Active") &&
  match investment_path (cols r) with
  | None => true
  | Some p => negb (p =? "Contract Cancelled/Lost")
  end.

(** [.order('updated_at', { ascending: false })], by insertion; rows with
    equal [updated_at] keep their order in the table. *)
Fixpoint insert_desc (r : Row) (l : list Row) : list Row :=
  match l with
  | [] => [r]
  | x :: xs =>
      if String.leb (updated_at (cols x)) (updated_at (cols r))
      then r :: l
      else x :: insert_desc r xs
  end.

Definition order_desc (l : list Row) : list Row :=
  fold_right insert_desc [] l.

(** The argument of [.limit(n)]: a row count, or a number that is none
    (negative, fractional, [NaN]), which the database rejects. *)
Inductive Limit : Type :=
| Count (n : nat)
| NotACount.

Definition bad_limit : PostgrestError :=
  {| code := "22P02"; message := "invalid input syntax for type bigint" |}.

(** The rows the query of [getProperties] selects; a cap the server may put
    on the number of rows is not modelled. *)
Definition select_properties (f : TierFilter) (limit : Limit) (t : Table)
  : Reply (list Row) :=
  match limit with
  | NotACount => reply_error bad_limit
  | Count n =>
      reply_data
        (firstn n (order_desc (filter (fun r => listed r && tier_matches f r) t)))
  end.

(** ** [upsert(rows, { onConflict: 'salesforce_id', ignoreDuplicates: false })]

    One [INSERT ... ON CONFLICT (salesforce_id) DO UPDATE] statement: every
    column of the payload is written; [id] is not in the payload, so an
    inserted row draws a fresh one and an updated row keeps its own.  The
    statement is atomic. *)

Definition opt_string_eqb (a b : option string) : bool :=
  match a, b with
  | Some x, Some y => x =? y
  | _, _ => false
  end.

Definition same_key (c : Columns) (r : Row) : bool :=
  opt_string_eqb (salesforce_id (cols r)) (salesforce_id c).

(** [CREATE TRIGGER update_properties_updated_at BEFORE UPDATE]:
    [NEW.updated_at = NOW()]. *)
Definition update_updated_at_column (now : string) (new : Columns) : Columns :=
  set_updated_at now new.

(** One proposed row: the conflicting row is updated in place, or the
    proposed row is appended. *)
Definition upsert_one (now : string) (fresh : string) (t : Table) (c : Columns)
  : Table :=
  if existsb (same_key c) t then
    map (fun r => if same_key c r
                  then {| id := id r; cols := update_updated_at_column now c |}
                  else r) t
  else t ++ [{| id := fresh; cols := c |}].

(** The proposed rows in order; the [i]-th draws [uuid i] as default. *)
Fixpoint upsert_rows (now : string) (uuid : nat -> string) (i : nat)
    (t : Table) (cs : list Columns) : Table :=
  match cs with
  | [] => t
  | c :: rest => upsert_rows now uuid (S i) (upsert_one now (uuid i) t c) rest
  end.

(** [salesforce_id TEXT UNIQUE NOT NULL]. *)
Definition not_null_ok (c : Columns) : bool :=
  match salesforce_id c with Some _ => true | None => false end.

(** [tier TEXT CHECK (tier IN ('public', 'registered', 'vip'))]. *)
Definition tier_check (c : Columns) : bool :=
  mem_string (tier c) ["public"; "registered"; "vip"].

Fixpoint distinct (l : list string) : bool :=
  match l with
  | [] => true
  | x :: xs => negb (mem_string x xs) && distinct xs
  end.

Definition keys_of (cs : list Columns) : list string :=
  flat_map (fun c => match salesforce_id c with
                     | Some k => [k]
                     | None => []
                     end) cs.

Definition not_null_violation : PostgrestError :=
  {| code := "23502";
     message := "null value in column salesforce_id violates not-null constraint" |}.
Definition check_violation : PostgrestError :=
  {| code := "23514";
     message := "new row for relation properties violates check constraint properties_tier_check" |}.
Definition cardinality_violation : PostgrestError :=
  {| code := "21000";
     message := "ON CONFLICT DO UPDATE command cannot affect row a second time" |}.
Definition unique_violation : PostgrestError :=
  {| code := "23505";
     message := "duplicate key value violates unique constraint properties_pkey" |}.

(** The statement: the new table, or the error that aborted it.  A payload
    with two rows of one [salesforce_id] is refused, whether the row was
    there or proposed by the same statement. *)
Definition upsert_properties (now : string) (uuid : nat -> string)
    (t : Table) (cs : list Columns) : Table + PostgrestError :=
  if negb (forallb not_null_ok cs) then inr not_null_violation
  else if negb (forallb tier_check cs) then inr check_violation
  else if negb (distinct (keys_of cs)) then inr cardinality_violation
  else
    let t' := upsert_rows now uuid 0 t cs in
    if distinct (map id t') then inl t' else inr unique_violation.

End Schema.

(* ================================================================== *)
(** * Records exchanged with the database layer and the services *)
(* ================================================================== *)

Module Database.

(** [lib/database.ts]: [interface Property].  [salesforceId] is optional
    here because the upsert endpoint can leave it [undefined]. *)
Record Property : Type := {
  id : option string;
  name : string;
  address : string;
  city : string;
  state : string;
  zipCode : string;
  price : JsNumber;
  bedrooms : JsNumber;
  bathrooms : JsNumber;
  squareFootage : JsNumber;
  lotSize : JsNumber;
  yearBuilt : JsNumber;
  propertyType : string;
  description : string;
  status : string;
  images : list string;
  tier : string;
  salesforceId : option string;
  createdAt : string;
  updatedAt : string;
  lastSyncedAt : string;
  leadSource : option string;
  investmentPath : option string;
  actualProfit : option JsNumber;
  projectedProfit : option JsNumber;
  salesDate : option string;
  salesforceStatus : option string
}.

End Database.

Module Crm.

(** A record of the [Property__c] query of the sync utility, typed by the
    fields Salesforce returns: texts and picklists as strings or [null],
    numbers as any scalar. *)
Record PropertyRecord : Type := {
  Id : string;
  Name : option string;
  Address__c : option string;
  City__c : option string;
  State__c : option string;
  Zip_Code__c : option string;
  Price__c : JsValue;
  Bedrooms__c : JsValue;
  Bathrooms__c : JsValue;
  Square_Footage__c : JsValue;
  Lot_Size__c : JsValue;
  Year_Built__c : JsValue;
  Property_Type__c : option string;
  Description__c : option string;
  Status__c : option string;
  Image_URLs__c : option string;
  Tier__c : option string;
  CreatedDate : string;
  LastModifiedDate : string
}.

(** The answer of [salesforceClient.query]. *)
Record QueryResult : Type := {
  totalSize : nat;
  records : option (list PropertyRecord)
}.

(** The payload of [createLead]. *)
Record SalesforceLeadPayload : Type := {
  FirstName : string;
  LastName : string;
  Email : string;
  Phone : option string;
  Company : option string;
  LeadSource : string;
  Status : string;
  Investor_Type__c : option string;
  Interests__c : option string;
  Website_User_ID__c : string
}.

(** The answer of [createLead]. *)
Record LeadResponse : Type := {
  lead_id : string;
  success : bool;
  errors : list string
}.

(** A record of the [Left_Main__Transactions__c] query of the listing
    endpoints, with the fields they read. *)
Record TransactionRecord : Type := {
  tr_Id : string;
  tr_Name : option string;
  Left_Main__Street_Address__c : option string;
  Left_Main__City__c : option string;
  Left_Main__State__c : option string;
  Left_Main__Zipcode__c : option string;
  Left_Main__Dispo_Status__c : option string;
  tr_CreatedDate : option string;
  tr_LastModifiedDate : option string;
  tr_OwnerId : option string
}.

(** The JSON body of a successful query over REST. *)
Record QueryData : Type := {
  qd_totalSize : nat;
  qd_records : option (list TransactionRecord);
  done : bool;
  nextRecordsUrl : option string
}.

End Crm.

Module Clerk.

Record EmailAddress : Type := {
  email_address : string;
  email_primary : bool
}.

Record PhoneNumber : Type := {
  phone_number : string;
  phone_primary : bool
}.

(** The entries of [public_metadata] the handler reads; [interests] is
    [Some] when it is an array. *)
Record PublicMetadata : Type := {
  company : option string;
  investorType : option string;
  interests : option (list string)
}.

Record ClerkUser : Type := {
  id : string;
  email_addresses : option (list EmailAddress);
  first_name : option string;
  last_name : option string;
  phone_numbers : option (list PhoneNumber);
  public_metadata : option PublicMetadata
}.

Record ClerkWebhookEvent : Type := {
  type : string;
  data : ClerkUser
}.

Record SvixHeaders : Type := {
  svix_id : option string;
  svix_timestamp : option string;
  svix_signature : option string
}.

End Clerk.

(* ================================================================== *)
(** * The world outside the code, and the handler monad *)
(* ================================================================== *)

(** A thrown value: an [Error] with its message, or another object (the
    error object of the database client, taken not to be an [Error]). *)
Inductive Exn : Type :=
| JsError (message : string)
| Thrown (e : Schema.PostgrestError).

(** [error instanceof Error ? error.message : 'Unknown error']. *)
Definition message_of (e : Exn) : string :=
  match e with
  | JsError m => m
  | Thrown _ => "Unknown error"
  end.

Inductive Result (A : Type) : Type :=
| Ok (a : A)
| Throw (e : Exn).
Arguments Ok {A} _.
Arguments Throw {A} _.

(** What [fetch] of the Salesforce query yields in the listing endpoint. *)
Inductive FetchOutcome : Type :=
| FetchRejects (e : Exn)
| FetchNotOk (text : string)
| FetchOkNoJson (e : Exn)
| FetchOk (body : Crm.QueryData).

(** A call to a service outside the process: an awaited method of a
    client, or a [fetch] of the handler's own.  A method of the Salesforce
    client of [lib/salesforce.ts] sends up to two HTTP requests, a token
    request and the request of the method; every other call is one HTTP
    request.  [http_requests] below tells the requests of a call. *)
Inductive Call : Type :=
| SalesforceGetTransaction (id : string)
| SalesforceQueryTransactions (dealTypes markets : list string)
    (limit offset : JsNumber)
| SalesforceFetchQuery
| SalesforceFetch (url : string) (form : list (string * string))
| SalesforceCreateLead (lead : Crm.SalesforceLeadPayload)
| SalesforceAuthenticate (username password : string)
| SalesforceQuery
| CloudinaryGetPropertyImages (id : string)
| SupabaseSelectProperties (f : Schema.TierFilter) (limit : Schema.Limit)
| SupabaseSelectSyncStatus
| SupabaseUpsertProperties (rows : list Schema.Columns)
| SupabaseUpsertSyncStatus.

(** Builtins of the language whose results are taken as given. *)
Record Builtins : Type := {
  (** [parseFloat] on a string *)
  strToNumber : string -> JsNumber;
  (** [parseInt] *)
  parseInt : JsValue -> JsNumber;
  (** [JSON.parse] of a text expected to hold an array of strings; [None]
      when it throws *)
  jsonParseStrings : string -> option (list string);
  (** [new Date(s).toISOString()]; [None] when the date is invalid *)
  dateToISOString : string -> option string;
  (** [encodeURIComponent] *)
  encodeURIComponent : string -> string;
  (** [`${n}`] for a number *)
  numberToString : JsNumber -> string
}.

Record World : Type := {
  builtins : Builtins;
  (** [process.env] *)
  SYNC_API_KEY : option string;
  CLERK_WEBHOOK_SECRET : option string;
  SALESFORCE_USERNAME : option string;
  SALESFORCE_PASSWORD : option string;
  SALESFORCE_SECURITY_TOKEN : option string;
  supabase_configured : bool;
  supabase_admin_configured : bool;
  (** [new Date().toISOString()] *)
  js_now : string;
  (** Clerk: the [userId] of [auth()], and the verification of a webhook
      by svix, given the secret, the body and the headers: [Throw] when
      [new Webhook(secret)] throws, [Ok None] when [verify] throws *)
  clerk_auth : Result (option string);
  svix_verify : string -> string -> Clerk.SvixHeaders ->
                Result (option Clerk.ClerkWebhookEvent);
  (** Salesforce: what the methods of the client answer.  The sync utility
      calls [authenticateWithCredentials] and [query]; their answers are
      what a client that declared these methods would be given (the class
      of [lib/salesforce.ts] declares neither, see
      [client_call]). *)
  sf_getTransaction : string -> Result Types.SalesforceTransaction;
  sf_createLead : Crm.SalesforceLeadPayload -> Result Crm.LeadResponse;
  sf_authenticateWithCredentials : string -> string -> Result unit;
  sf_query : Result Crm.QueryResult;
  sf_fetch : FetchOutcome;
  (** Cloudinary: [getPropertyImages] catches its own failures *)
  cloudinary_images : string -> list Types.PropertyImage;
  (** the database: the error it answers a request on the [properties]
      table with and the one it answers a request on the [sync_status]
      table with, its clock, the identifiers [gen_random_uuid()] yields,
      and its tables *)
  db_failure : option Schema.PostgrestError;
  sync_status_failure : option Schema.PostgrestError;
  db_now : string;
  db_uuid : nat -> string;
  properties_table : Schema.Table;
  sync_status : option string;
  (** the external calls made so far, oldest first *)
  trace : list Call
}.

Definition with_trace (tr : list Call) (w : World) : World :=
  {| builtins := builtins w; SYNC_API_KEY := SYNC_API_KEY w;
     CLERK_WEBHOOK_SECRET := CLERK_WEBHOOK_SECRET w;
     SALESFORCE_USERNAME := SALESFORCE_USERNAME w;
     SALESFORCE_PASSWORD := SALESFORCE_PASSWORD w;
     SALESFORCE_SECURITY_TOKEN := SALESFORCE_SECURITY_TOKEN w;
     supabase_configured := supabase_configured w;
     supabase_admin_configured := supabase_admin_configured w;
     js_now := js_now w; clerk_auth := clerk_auth w;
     svix_verify := svix_verify w;
     sf_getTransaction := sf_getTransaction w;
     sf_createLead := sf_createLead w;
     sf_authenticateWithCredentials := sf_authenticateWithCredentials w;
     sf_query := sf_query w; sf_fetch := sf_fetch w;
     cloudinary_images := cloudinary_images w;
     db_failure := db_failure w;
     sync_status_failure := sync_status_failure w;
     db_now := db_now w; db_uuid := db_uuid w;
     properties_table := properties_table w; sync_status := sync_status w;
     trace := tr |}.

Definition with_properties (t : Schema.Table) (w : World) : World :=
  {| builtins := builtins w; SYNC_API_KEY := SYNC_API_KEY w;
     CLERK_WEBHOOK_SECRET := CLERK_WEBHOOK_SECRET w;
     SALESFORCE_USERNAME := SALESFORCE_USERNAME w;
     SALESFORCE_PASSWORD := SALESFORCE_PASSWORD w;
     SALESFORCE_SECURITY_TOKEN := SALESFORCE_SECURITY_TOKEN w;
     supabase_configured := supabase_configured w;
     supabase_admin_configured := supabase_admin_configured w;
     js_now := js_now w; clerk_auth := clerk_auth w;
     svix_verify := svix_verify w;
     sf_getTransaction := sf_getTransaction w;
     sf_createLead := sf_createLead w;
     sf_authenticateWithCredentials := sf_authenticateWithCredentials w;
     sf_query := sf_query w; sf_fetch := sf_fetch w;
     cloudinary_images := cloudinary_images w;
     db_failure := db_failure w;
     sync_status_failure := sync_status_failure w;
     db_now := db_now w; db_uuid := db_uuid w;
     properties_table := t; sync_status := sync_status w;
     trace := trace w |}.

Definition with_sync_status (s : option string) (w : World) : World :=
  {| builtins := builtins w; SYNC_API_KEY := SYNC_API_KEY w;
     CLERK_WEBHOOK_SECRET := CLERK_WEBHOOK_SECRET w;
     SALESFORCE_USERNAME := SALESFORCE_USERNAME w;
     SALESFORCE_PASSWORD := SALESFORCE_PASSWORD w;
     SALESFORCE_SECURITY_TOKEN := SALESFORCE_SECURITY_TOKEN w;
     supabase_configured := supabase_configured w;
     supabase_admin_configured := supabase_admin_configured w;
     js_now := js_now w; clerk_auth := clerk_auth w;
     svix_verify := svix_verify w;
     sf_getTransaction := sf_getTransaction w;
     sf_createLead := sf_createLead w;
     sf_authenticateWithCredentials := sf_authenticateWithCredentials w;
     sf_query := sf_query w; sf_fetch := sf_fetch w;
     cloudinary_images := cloudinary_images w;
     db_failure := db_failure w;
     sync_status_failure := sync_status_failure w;
     db_now := db_now w; db_uuid := db_uuid w;
     properties_table := properties_table w; sync_status := s;
     trace := trace w |}.

(** The database some time later: its clock and its identifier generator
    have moved on. *)
Definition with_db_clock (now : string) (uuid : nat -> string) (w : World)
  : World :=
  {| builtins := builtins w; SYNC_API_KEY := SYNC_API_KEY w;
     CLERK_WEBHOOK_SECRET := CLERK_WEBHOOK_SECRET w;
     SALESFORCE_USERNAME := SALESFORCE_USERNAME w;
     SALESFORCE_PASSWORD := SALESFORCE_PASSWORD w;
     SALESFORCE_SECURITY_TOKEN := SALESFORCE_SECURITY_TOKEN w;
     supabase_configured := supabase_configured w;
     supabase_admin_configured := supabase_admin_configured w;
     js_now := js_now w; clerk_auth := clerk_auth w;
     svix_verify := svix_verify w;
     sf_getTransaction := sf_getTransaction w;
     sf_createLead := sf_createLead w;
     sf_authenticateWithCredentials := sf_authenticateWithCredentials w;
     sf_query := sf_query w; sf_fetch := sf_fetch w;
     cloudinary_images := cloudinary_images w;
     db_failure := db_failure w;
     sync_status_failure := sync_status_failure w;
     db_now := now; db_uuid := uuid;
     properties_table := properties_table w; sync_status := sync_status w;
     trace := trace w |}.

(** Computations that read and change the world and may throw. *)
Definition M (A : Type) : Type := World -> Result A * World.

Definition ret {A} (a : A) : M A := fun w => (Ok a, w).

Definition bind {A B} (m : M A) (k : A -> M B) : M B :=
  fun w =>
    match m w with
    | (Ok a, w') => k a w'
    | (Throw e, w') => (Throw e, w')
    end.

Definition throw {A} (e : Exn) : M A := fun w => (Throw e, w).

(** [try { m } catch (e) { h e }]. *)
Definition try_catch {A} (m : M A) (h : Exn -> M A) : M A :=
  fun w =>
    match m w with
    | (Ok a, w') => (Ok a, w')
    | (Throw e, w') => h e w'
    end.

Definition ask {A} (f : World -> A) : M A := fun w => (Ok (f w), w).

Definition lift_result {A} (r : Result A) : M A := fun w => (r, w).

(** Record an external call. *)
Definition call (c : Call) : M unit :=
  fun w => (Ok tt, with_trace (trace w ++ [c]) w).

Declare Scope monad_scope.
Delimit Scope monad_scope with monad.
Notation "x <- m ;; k" := (bind m (fun x => k))
  (at level 61, m at next level, right associativity) : monad_scope.
Notation "m ;; k" := (bind m (fun _ => k))
  (at level 61, right associativity) : monad_scope.
Local Open Scope monad_scope.

(* ================================================================== *)
(** * [lib/database.ts]: [PropertyDatabase] *)
(* ================================================================== *)

Module PropertyDatabase.

(** [getSupabase()]: the client, or the error of a missing configuration. *)
Definition getSupabase : M unit :=
  fun w =>
    if supabase_configured w then (Ok tt, w)
    else (Throw (JsError "Supabase environment variables not configured"), w).

Definition getSupabaseAdmin : M unit :=
  fun w =>
    if supabase_admin_configured w then (Ok tt, w)
    else (Throw (JsError "Supabase admin environment variables not configured"), w).

(** The row of the table as the object the caller receives. *)
Definition row_to_property (row : Schema.Row) : Database.Property :=
  let c := Schema.cols row in
  {| Database.id := Some (Schema.id row);
     Database.name := Schema.name c;
     Database.address := Schema.address c;
     Database.city := Schema.city c;
     Database.state := Schema.state c;
     Database.zipCode := Schema.zip_code c;
     Database.price := Schema.price c;
     Database.bedrooms := Schema.bedrooms c;
     Database.bathrooms := Schema.bathrooms c;
     Database.squareFootage := Schema.square_footage c;
     Database.lotSize := Schema.lot_size c;
     Database.yearBuilt := Schema.year_built c;
     Database.propertyType := Schema.property_type c;
     Database.description := Schema.description c;
     Database.status := Schema.status c;
     Database.images := Schema.images c;
     Database.tier := Schema.tier c;
     Database.salesforceId := Schema.salesforce_id c;
     Database.createdAt := Schema.created_at c;
     Database.updatedAt := Schema.updated_at c;
     Database.lastSyncedAt := Schema.last_synced_at c;
     Database.leadSource := Schema.lead_source c;
     Database.investmentPath := Schema.investment_path c;
     Database.actualProfit := Schema.actual_profit c;
     Database.projectedProfit := Schema.projected_profit c;
     Database.salesDate := Schema.sales_date c;
     Database.salesforceStatus := Schema.salesforce_status c |}.

(** The payload row written for a property ([id] is left to the database). *)
Definition property_to_columns (prop : Database.Property) : Schema.Columns :=
  {| Schema.name := Database.name prop;
     Schema.address := Database.address prop;
     Schema.city := Database.city prop;
     Schema.state := Database.state prop;
     Schema.zip_code := Database.zipCode prop;
     Schema.price := Database.price prop;
     Schema.bedrooms := Database.bedrooms prop;
     Schema.bathrooms := Database.bathrooms prop;
     Schema.square_footage := Database.squareFootage prop;
     Schema.lot_size := Database.lotSize prop;
     Schema.year_built := Database.yearBuilt prop;
     Schema.property_type := Database.propertyType prop;
     Schema.description := Database.description prop;
     Schema.status := Database.status prop;
     Schema.images := Database.images prop;
     Schema.tier := Database.tier prop;
     Schema.salesforce_id := Database.salesforceId prop;
     Schema.created_at := Database.createdAt prop;
     Schema.updated_at := Database.updatedAt prop;
     Schema.last_synced_at := Database.lastSyncedAt prop;
     Schema.lead_source := Database.leadSource prop;
     Schema.investment_path := Database.investmentPath prop;
     Schema.actual_profit := Database.actualProfit prop;
     Schema.projected_profit := Database.projectedProfit prop;
     Schema.sales_date := Database.salesDate prop;
     Schema.salesforce_status := Database.salesforceStatus prop |}.

(** The tier filter [getProperties] adds to its query. *)
Definition tier_filter (tier : option string) : Schema.TierFilter :=
  match tier with
  | Some t =>
      if str_truthy t && negb (t =? "public") then
        Schema.TierIn (if t =? "vip"
                       then ["public"; "registered"; "vip"]
                       else ["public"; "registered"])
      else Schema.TierEq "public"
  | None => Schema.TierEq "public"
  end.

(** [await query.limit(limit)]. *)
Definition run_select (f : Schema.TierFilter) (limit : Schema.Limit)
  : M (Schema.Reply (list Schema.Row)) :=
  call (SupabaseSelectProperties f limit) ;;
  failure <- ask db_failure ;;
  table <- ask properties_table ;;
  ret (match failure with
       | Some e => Schema.reply_error e
       | None => Schema.select_properties f limit table
       end).

(** [static async getProperties(tier?: string, limit: number = 50)]. *)
Definition getProperties (tier : option string) (limit : option Schema.Limit)
  : M (list Database.Property) :=
  let limit := match limit with Some l => l | None => Schema.Count 50 end in
  getSupabase ;;
  reply <- run_select (tier_filter tier) limit ;;
  match Schema.error reply with
  | Some _ => ret []
  | None =>
      ret (map row_to_property
             (match Schema.data reply with Some rows => rows | None => [] end))
  end.

(** [static async syncProperties(properties: Property[])]. *)
Definition syncProperties (properties : list Database.Property) : M unit :=
  let dbProperties := map property_to_columns properties in
  getSupabaseAdmin ;;
  call (SupabaseUpsertProperties dbProperties) ;;
  failure <- ask db_failure ;;
  match failure with
  | Some e => throw (Thrown e)
  | None =>
      fun w =>
        match Schema.upsert_properties (db_now w) (db_uuid w)
                (properties_table w) dbProperties with
        | inl t => (Ok tt, with_properties t w)
        | inr e => (Throw (Thrown e), w)
        end
  end.

(** [static async getLastSyncTime()]: [.single()] reports [PGRST116] when
    the table has no row. *)
Definition getLastSyncTime : M (option string) :=
  getSupabase ;;
  call SupabaseSelectSyncStatus ;;
  failure <- ask sync_status_failure ;;
  status <- ask sync_status ;;
  ret (match failure with
       | Some _ => None
       | None => str_or_undefined status
       end).

(** [static async updateSyncStatus()]: an error is logged, not thrown. *)
Definition updateSyncStatus : M unit :=
  getSupabaseAdmin ;;
  call SupabaseUpsertSyncStatus ;;
  failure <- ask sync_status_failure ;;
  match failure with
  | Some _ => ret tt
  | None => fun w => (Ok tt, with_sync_status (Some (js_now w)) w)
  end.

End PropertyDatabase.

(* ================================================================== *)
(** * Calls of the Salesforce client *)
(* ================================================================== *)

(** The methods [class SalesforceClient] of [lib/salesforce.ts] declares. *)
Definition SalesforceClient_methods : list string :=
  ["authenticate"; "ensureAuthenticated"; "makeRequest"; "queryTransactions";
   "getTransaction"; "createLead"; "updateLead"].

(** The message of the [TypeError] of a call of [callee], which is
    [undefined]. *)
Definition not_a_function (callee : string) : string :=
  (callee ++ " is not a function")%string.

(** [receiver.name(...)] on an instance of the class runs the method [m]
    when the class declares [name]; otherwise the member is [undefined],
    and calling it throws a [TypeError] before anything is sent. *)
Definition client_call {A} (receiver name : string) (m : M A) : M A :=
  if existsb (String.eqb name) SalesforceClient_methods then m
  else throw (JsError (not_a_function (receiver ++ "." ++ name))).

(* ================================================================== *)
(** * [lib/sync-salesforce.ts]: [SalesforceSync] *)
(* ================================================================== *)

Module SalesforceSync.

Record SyncResult : Type := {
  success : bool;
  count : nat;
  errors : list string
}.

(** The callback of [transformProperties]: one CRM record to one property;
    [now] is [new Date().toISOString()]. *)
Definition transformProperty (B : Builtins) (now : string)
    (record : Crm.PropertyRecord) : Database.Property :=
  let images :=
    match Crm.Image_URLs__c record with
    | Some s =>
        if str_truthy s then
          match jsonParseStrings B s with
          | Some parsed => parsed
          | None => filter str_truthy (map trim (split_comma s))
          end
        else []
    | None => []
    end in
  let tier :=
    match Crm.Tier__c record with
    | Some t =>
        if str_truthy t then toLowerCase t
        else
          let price :=
            num_or (parseFloat (strToNumber B) (Crm.Price__c record)) zero in
          if num_ge price (of_Z 1000000) then "vip"
          else if num_ge price (of_Z 300000) then "registered"
          else "public"
    | None =>
        let price :=
          num_or (parseFloat (strToNumber B) (Crm.Price__c record)) zero in
        if num_ge price (of_Z 1000000) then "vip"
        else if num_ge price (of_Z 300000) then "registered"
        else "public"
    end in
  {| Database.id := Some (Crm.Id record);
     Database.name := str_or (Crm.Name record) "Unnamed Property";
     Database.address := str_or (Crm.Address__c record) "";
     Database.city := str_or (Crm.City__c record) "";
     Database.state := str_or (Crm.State__c record) "";
     Database.zipCode := str_or (Crm.Zip_Code__c record) "";
     Database.price :=
       num_or (parseFloat (strToNumber B) (Crm.Price__c record)) zero;
     Database.bedrooms := num_or (parseInt B (Crm.Bedrooms__c record)) zero;
     Database.bathrooms :=
       num_or (parseFloat (strToNumber B) (Crm.Bathrooms__c record)) zero;
     Database.squareFootage :=
       num_or (parseInt B (Crm.Square_Footage__c record)) zero;
     Database.lotSize :=
       num_or (parseFloat (strToNumber B) (Crm.Lot_Size__c record)) zero;
     Database.yearBuilt := num_or (parseInt B (Crm.Year_Built__c record)) zero;
     Database.propertyType := str_or (Crm.Property_Type__c record) "Unknown";
     Database.description := str_or (Crm.Description__c record) "";
     Database.status := str_or (Crm.Status__c record) "Active";
     Database.images := images;
     Database.tier := tier;
     Database.salesforceId := Some (Crm.Id record);
     Database.createdAt := Crm.CreatedDate record;
     Database.updatedAt := Crm.LastModifiedDate record;
     Database.lastSyncedAt := now;
     Database.leadSource := None;
     Database.investmentPath := None;
     Database.actualProfit := None;
     Database.projectedProfit := None;
     Database.salesDate := None;
     Database.salesforceStatus := None |}.

(** [private transformProperties(salesforceRecords: any[])]. *)
Definition transformProperties (B : Builtins) (now : string)
    (salesforceRecords : list Crm.PropertyRecord) : list Database.Property :=
  map (transformProperty B now) salesforceRecords.

(** [private async authenticateService()]. *)
Definition authenticateService : M unit :=
  username <- ask SALESFORCE_USERNAME ;;
  password <- ask SALESFORCE_PASSWORD ;;
  token <- ask SALESFORCE_SECURITY_TOKEN ;;
  let securityToken := str_or token "" in
  match username, password with
  | Some u, Some p =>
      if str_truthy u && str_truthy p then
        client_call "this.salesforceClient" "authenticateWithCredentials"
          (call (SalesforceAuthenticate u (p ++ securityToken)) ;;
           answer <- ask (fun w => sf_authenticateWithCredentials w u (p ++ securityToken)) ;;
           lift_result answer)
      else
        throw (JsError "SALESFORCE_USERNAME and SALESFORCE_PASSWORD must be set for sync operations")
  | _, _ =>
      throw (JsError "SALESFORCE_USERNAME and SALESFORCE_PASSWORD must be set for sync operations")
  end.

(** [private async fetchSalesforceProperties()]. *)
Definition fetchSalesforceProperties : M (list Crm.PropertyRecord) :=
  result <- client_call "this.salesforceClient" "query"
              (call SalesforceQuery ;;
               answer <- ask sf_query ;;
               lift_result answer) ;;
  ret (match Crm.records result with Some rs => rs | None => [] end).

(** [async syncProperties()]. *)
Definition syncProperties : M SyncResult :=
  try_catch
    (authenticateService ;;
     salesforceProperties <- fetchSalesforceProperties ;;
     if Nat.eqb (List.length salesforceProperties) 0 then
       ret {| success := true; count := 0;
              errors := ["No properties found in Salesforce"] |}
     else
       B <- ask builtins ;;
       now <- ask js_now ;;
       let transformedProperties := transformProperties B now salesforceProperties in
       PropertyDatabase.syncProperties transformedProperties ;;
       PropertyDatabase.updateSyncStatus ;;
       ret {| success := true; count := List.length transformedProperties;
              errors := [] |})
    (fun error =>
       ret {| success := false; count := 0; errors := [message_of error] |}).

End SalesforceSync.

(* ================================================================== *)
(** * API routes *)
(* ================================================================== *)

(** [NextResponse.json(body, { status })]; the status is 200 when not given. *)
Record Response (B : Type) : Type := {
  status : nat;
  body : B
}.
Arguments status {B} _.
Arguments body {B} _.

Definition json {B} (b : B) (st : nat) : Response B :=
  {| status := st; body := b |}.

(** [s.includes(sub)]. *)
Definition includes (s sub : string) : bool :=
  match String.index 0 sub s with
  | Some _ => true
  | None => false
  end.

(** The number of rows a JavaScript number asks for in [.limit(n)]: a
    whole number from 0 that fits the 64-bit integer of the database. *)
Definition limit_of_number (n : JsNumber) : Schema.Limit :=
  match n with
  | JsFin q =>
      let count := Z.div (Qnum q) (Zpos (Qden q)) in
      if Z.leb 0 (Qnum q) && Z.eqb (Z.modulo (Qnum q) (Zpos (Qden q))) 0
         && Z.ltb count (2 ^ 63)
      then Schema.Count (Z.to_nat count)
      else Schema.NotACount
  | _ => Schema.NotACount
  end.

(** ** [api/properties-db/upsert]: [POST] *)

Module UpsertRoute.

(** The [images] entry of a posted property. *)
Inductive ImagesField : Type :=
| ImagesArray (urls : list string)
| ImagesString (s : string)
| ImagesOther.

(** A posted property, typed by the documented body format: texts as
    strings, numbers as any scalar; [None] is a missing entry. *)
Record Input : Type := {
  name : option string;
  address : option string;
  city : option string;
  state : option string;
  zip_code : option string;
  zipCode : option string;
  price : JsValue;
  bedrooms : JsValue;
  bathrooms : JsValue;
  square_footage : JsValue;
  squareFootage : JsValue;
  lot_size : JsValue;
  lotSize : JsValue;
  year_built : JsValue;
  yearBuilt : JsValue;
  property_type : option string;
  propertyType : option string;
  description : option string;
  status : option string;
  images : ImagesField;
  tier : option string;
  salesforce_id : option string;
  id : option string;
  created_at : option string;
  created_date : option string;
  createdAt : option string;
  updated_at : option string;
  last_modified_date : option string;
  updatedAt : option string;
  lead_source : option string;
  investment_path : option string;
  actual_profit : JsValue;
  projected_profit : JsValue;
  sales_date : option string;
  salesforce_status : option string
}.

(** The parsed body: one property or an array of them. *)
Inductive Body : Type :=
| Single (prop : Input)
| Many (props : list Input).

Record Request : Type := {
  authorization : option string;
  (** [await request.json()]; [None] when the body is no JSON *)
  request_json : option Body
}.

Inductive Answer : Type :=
| Unauthorized
| Upserted (count : nat) (timestamp : string)
| Failed (error : string).

(** [a || b] on scalars. *)
Definition val_or (a b : JsValue) : JsValue := if truthy a then a else b.

(** The callback of [properties.map]. *)
Definition transformInput (B : Builtins) (now : string) (prop : Input)
  : Database.Property :=
  let tier0 := str_or (tier prop) "public" in
  let tier :=
    if negb (opt_truthy (tier prop)) && truthy (price prop) then
      let price := num_or (parseFloat (strToNumber B) (price prop)) zero in
      if num_ge price (of_Z 1000000) then "vip"
      else if num_ge price (of_Z 300000) then "registered"
      else "public"
    else tier0 in
  {| Database.id := None;
     Database.name := str_or (name prop) "Unnamed Property";
     Database.address := str_or (address prop) "";
     Database.city := str_or (city prop) "";
     Database.state := str_or (state prop) "";
     Database.zipCode := str_or (zip_code prop) (str_or (zipCode prop) "");
     Database.price := num_or (parseFloat (strToNumber B) (price prop)) zero;
     Database.bedrooms := num_or (parseInt B (bedrooms prop)) zero;
     Database.bathrooms :=
       num_or (parseFloat (strToNumber B) (bathrooms prop)) zero;
     Database.squareFootage :=
       num_or (parseInt B (val_or (square_footage prop) (squareFootage prop))) zero;
     Database.lotSize :=
       num_or (parseFloat (strToNumber B) (val_or (lot_size prop) (lotSize prop))) zero;
     Database.yearBuilt :=
       num_or (parseInt B (val_or (year_built prop) (yearBuilt prop))) zero;
     Database.propertyType :=
       str_or (property_type prop) (str_or (propertyType prop) "Unknown");
     Database.description := str_or (description prop) "";
     Database.status := str_or (status prop) "Active";
     Database.images :=
       match images prop with
       | ImagesArray urls => urls
       | ImagesString s => filter str_truthy (map trim (split_comma s))
       | ImagesOther => []
       end;
     Database.tier := tier;
     Database.salesforceId :=
       if opt_truthy (salesforce_id prop) then salesforce_id prop else id prop;
     Database.createdAt :=
       str_or (created_at prop)
         (str_or (created_date prop) (str_or (createdAt prop) now));
     Database.updatedAt :=
       str_or (updated_at prop)
         (str_or (last_modified_date prop) (str_or (updatedAt prop) now));
     Database.lastSyncedAt := now;
     Database.leadSource := str_or_undefined (lead_source prop);
     Database.investmentPath := str_or_undefined (investment_path prop);
     Database.actualProfit :=
       if truthy (actual_profit prop)
       then Some (parseFloat (strToNumber B) (actual_profit prop)) else None;
     Database.projectedProfit :=
       if truthy (projected_profit prop)
       then Some (parseFloat (strToNumber B) (projected_profit prop)) else None;
     Database.salesDate := str_or_undefined (sales_date prop);
     Database.salesforceStatus := str_or_undefined (salesforce_status prop) |}.

(** [apiKey && authHeader !== `Bearer ${apiKey}`]. *)
Definition refused (apiKey authHeader : option string) : bool :=
  match apiKey with
  | Some k =>
      str_truthy k &&
      match authHeader with
      | Some h => negb (h =? "Bearer " ++ k)
      | None => true
      end
  | None => false
  end.

Definition POST (request : Request) : M (Response Answer) :=
  try_catch
    (apiKey <- ask SYNC_API_KEY ;;
     if refused apiKey (authorization request) then ret (json Unauthorized 401)
     else
       match request_json request with
       | None => throw (JsError "Unexpected token in JSON")
       | Some body =>
           let properties :=
             match body with
             | Many props => props
             | Single prop => [prop]
             end in
           B <- ask builtins ;;
           now <- ask js_now ;;
           let transformedProperties := map (transformInput B now) properties in
           PropertyDatabase.syncProperties transformedProperties ;;
           PropertyDatabase.updateSyncStatus ;;
           ret (json (Upserted (List.length transformedProperties) now) 200)
       end)
    (fun error => ret (json (Failed (message_of error)) 500)).

End UpsertRoute.

(** ** [api/sync/salesforce]: [POST] *)

Module SyncRoute.

Inductive Answer : Type :=
| Unauthorized
| Synced (count : nat) (timestamp : string)
| SyncFailed (errors : list string)
| InternalError (error : string).

Definition POST (authorization : option string) : M (Response Answer) :=
  try_catch
    (apiKey <- ask SYNC_API_KEY ;;
     if UpsertRoute.refused apiKey authorization then ret (json Unauthorized 401)
     else
       result <- SalesforceSync.syncProperties ;;
       now <- ask js_now ;;
       if SalesforceSync.success result then
         ret (json (Synced (SalesforceSync.count result) now) 200)
       else
         ret (json (SyncFailed (SalesforceSync.errors result)) 500))
    (fun error => ret (json (InternalError (message_of error)) 500)).

End SyncRoute.

(** ** [api/properties-db]: [GET] *)

Module PropertiesDbRoute.

Record Request : Type := {
  (** [searchParams.get('limit')] and [searchParams.get('tier')] *)
  limit_param : option string;
  tier_param : option string
}.

Inductive Answer : Type :=
| Listing (properties : list Database.Property) (totalCount : nat)
    (hasMore : bool) (tier : string) (lastSyncedAt : option string)
| Failure (details : string).

(** The more restrictive of the user's tier and the requested tier. *)
Definition effectiveTier (userTier tier : string) : string :=
  if userTier =? "vip" then tier
  else if (userTier =? "registered") && negb (tier =? "vip") then tier
  else "public".

(** The user's tier: a failing [auth()] is caught and leaves ['public']. *)
Definition userTier_of (w : World) : string :=
  match clerk_auth w with
  | Ok (Some userId) => if str_truthy userId then "registered" else "public"
  | Ok None => "public"
  | Throw _ => "public"
  end.

Definition GET (request : Request) : M (Response Answer) :=
  try_catch
    (B <- ask builtins ;;
     let limit := parseInt B (JsStr (str_or (limit_param request) "20")) in
     let tier := str_or (tier_param request) "public" in
     userTier <- ask userTier_of ;;
     let effectiveTier := effectiveTier userTier tier in
     properties <- PropertyDatabase.getProperties (Some effectiveTier)
                     (Some (limit_of_number limit)) ;;
     lastSync <- PropertyDatabase.getLastSyncTime ;;
     let transformedProperties := properties in
     ret (json (Listing transformedProperties
                  (List.length transformedProperties)
                  (match limit_of_number limit with
                   | Schema.Count n => Nat.eqb (List.length transformedProperties) n
                   | Schema.NotACount => false
                   end)
                  effectiveTier lastSync) 200))
    (fun error => ret (json (Failure (message_of error)) 500)).

End PropertiesDbRoute.

(** ** [api/properties]: [GET], the listing served from Salesforce *)

Module PropertiesRoute.

Record ListingImage : Type := {
  image_id : string;
  image_url : string;
  alt : string;
  image_order : nat
}.

Record ListingFlipMetrics : Type := {
  flip_purchasePrice : JsNumber;
  estimatedRehabCost : JsNumber;
  afterRepairValue : JsNumber;
  flip_spread : JsNumber;
  estimatedTimeline : JsNumber
}.

Record ListingRentalMetrics : Type := {
  rental_monthlyRent : JsNumber;
  annualRent : JsNumber;
  rental_capRate : JsNumber;
  cashFlow : JsNumber;
  insurance : JsNumber;
  taxes : JsNumber;
  maintenance : JsNumber
}.

(** The object [transformSalesforceRecord] builds. *)
Record Listing : Type := {
  id : string;
  title : string;
  dealType : string;
  market : string;
  listPrice : JsNumber;
  address : Types.Address;
  bedrooms : JsNumber;
  bathrooms : JsNumber;
  squareFeet : JsNumber;
  lotSize : JsNumber;
  yearBuilt : JsNumber;
  description : string;
  images : list ListingImage;
  flipMetrics : option ListingFlipMetrics;
  rentalMetrics : option ListingRentalMetrics;
  isActive : bool;
  isOffMarket : bool;
  accessTier : string;
  postedDate : string;
  updatedDate : string
}.

Definition lookup (m : list (string * string)) (k : string) : option string :=
  match find (fun kv => fst kv =? k) m with
  | Some kv => Some (snd kv)
  | None => None
  end.

Definition getParishFromCity (city : string) : string :=
  let cityParishMap :=
    [("lafayette", "Lafayette"); ("baton rouge", "East Baton Rouge");
     ("new orleans", "Orleans"); ("shreveport", "Caddo");
     ("lake charles", "Calcasieu"); ("monroe", "Ouachita");
     ("alexandria", "Rapides")] in
  str_or (lookup cityParishMap (toLowerCase city)) "Lafayette".

Definition getMarketFromCity (city : string) : string :=
  let cityMarketMap :=
    [("lafayette", "lafayette"); ("baton rouge", "baton-rouge");
     ("new orleans", "new-orleans"); ("shreveport", "shreveport");
     ("lake charles", "lake-charles"); ("monroe", "monroe");
     ("alexandria", "alexandria")] in
  str_or (lookup cityMarketMap (toLowerCase city)) "lafayette".

(** [iso.split('T')[0]]. *)
Definition day_of (iso : string) : string := hd "" (split "T"%char iso).

(** [transformSalesforceRecord]; it throws on a date that is none. *)
Definition transformSalesforceRecord (B : Builtins) (now : string)
    (record : Crm.TransactionRecord) : Result Listing :=
  let dealType := "Wholesale" in
  let street := str_or (Crm.Left_Main__Street_Address__c record) "Address Not Available" in
  let city := str_or (Crm.Left_Main__City__c record) "City Not Available" in
  let state := str_or (Crm.Left_Main__State__c record) "LA" in
  let zipCode := str_or (Crm.Left_Main__Zipcode__c record) "" in
  let date_of (d : option string) : option string :=
    match d with
    | Some s =>
        if str_truthy s then option_map day_of (dateToISOString B s)
        else Some (day_of now)
    | None => Some (day_of now)
    end in
  match date_of (Crm.tr_CreatedDate record),
        date_of (Crm.tr_LastModifiedDate record) with
  | Some posted, Some updated =>
      Ok {| id := Crm.tr_Id record;
            title := str_or (Crm.tr_Name record) (street ++ ", " ++ city);
            dealType := dealType;
            market := getMarketFromCity city;
            listPrice := of_Z 0;
            address :=
              {| Types.street := street; Types.city := city;
                 Types.state := state; Types.zipCode := zipCode;
                 Types.parish := getParishFromCity city |};
            bedrooms := of_Z 3;
            bathrooms := of_Z 2;
            squareFeet := of_Z 1200;
            lotSize := JsFin (1 # 4);
            yearBuilt := of_Z 1990;
            description :=
              "Investment property in " ++ city ++ ". " ++
              (if opt_truthy (Crm.Left_Main__Dispo_Status__c record)
               then "Status: " ++ str_or (Crm.Left_Main__Dispo_Status__c record) ""
               else "");
            images :=
              [{| image_id := Crm.tr_Id record ++ "-1";
                  image_url := "https://images.unsplash.com/photo-1568605114967-8130f3a36994?w=800";
                  alt := "Property photo";
                  image_order := 1 |}];
            flipMetrics :=
              if dealType =? "flip" then
                Some {| flip_purchasePrice := of_Z 50000;
                        estimatedRehabCost := of_Z 15000;
                        afterRepairValue := of_Z 95000;
                        flip_spread := of_Z 5000;
                        estimatedTimeline := of_Z 90 |}
              else None;
            rentalMetrics :=
              if dealType =? "rental" then
                Some {| rental_monthlyRent := of_Z 1200;
                        annualRent := of_Z 14400;
                        rental_capRate := JsFin (17 # 2);
                        cashFlow := of_Z 400;
                        insurance := of_Z 100;
                        taxes := of_Z 200;
                        maintenance := of_Z 200 |}
              else None;
            isActive := true;
            isOffMarket :=
              match Crm.Left_Main__Dispo_Status__c record with
              | Some s => s =? "Closed/Won"
              | None => false
              end;
            accessTier := "registered";
            postedDate := posted;
            updatedDate := updated |}
  | _, _ => Throw (JsError "Invalid time value")
  end.

(** [records.map(transformSalesforceRecord)]: the first throw aborts. *)
Fixpoint transformAll (B : Builtins) (now : string)
    (records : list Crm.TransactionRecord) : Result (list Listing) :=
  match records with
  | [] => Ok []
  | r :: rest =>
      match transformSalesforceRecord B now r with
      | Throw e => Throw e
      | Ok p =>
          match transformAll B now rest with
          | Throw e => Throw e
          | Ok ps => Ok (p :: ps)
          end
      end
  end.

Record Request : Type := {
  (** [searchParams.get('dealTypes')] *)
  dealTypes_param : option string;
  (** the cookies [sf_access_token] and [sf_instance_url] *)
  sf_access_token : option string;
  sf_instance_url : option string
}.

Inductive Answer : Type :=
| Success (properties : list Listing) (totalCount : nat) (hasMore : bool)
    (note : option string)
| Failure (message : string).

(** The [fetch] of the query and what is read from its response. *)
Definition querySalesforce : M Crm.QueryData :=
  call SalesforceFetchQuery ;;
  outcome <- ask sf_fetch ;;
  match outcome with
  | FetchRejects e => throw e
  | FetchNotOk errorText => throw (JsError ("Salesforce query failed: " ++ errorText))
  | FetchOkNoJson e => throw e
  | FetchOk salesforceData => ret salesforceData
  end.

Definition GET (request : Request) : M (Response Answer) :=
  try_catch
    (userId <- (answer <- ask clerk_auth ;; lift_result answer) ;;
     let dealTypes :=
       match dealTypes_param request with
       | Some s => split_comma s
       | None => []
       end in
     if negb (opt_truthy (sf_access_token request))
        || negb (opt_truthy (sf_instance_url request)) then
       ret (json (Success [] 0 false
                    (Some "Please authenticate with Salesforce to view properties"))
              200)
     else
       try_catch
         (salesforceData <- querySalesforce ;;
          B <- ask builtins ;;
          now <- ask js_now ;;
          match Crm.qd_records salesforceData with
          | None => throw (JsError "Cannot read properties of undefined (reading 'map')")
          | Some records =>
              properties <- lift_result (transformAll B now records) ;;
              let properties :=
                if Nat.ltb 0 (List.length dealTypes)
                then filter (fun property =>
                               Schema.mem_string (dealType property) dealTypes)
                       properties
                else properties in
              ret (json (Success properties (List.length properties)
                           (negb (Crm.done salesforceData)) None) 200)
          end)
         (fun salesforceError =>
            ret (json (Success [] 0 false
                         (Some "Unable to fetch properties from Salesforce"))
                   200)))
    (fun error => ret (json (Failure (message_of error)) 500)).

End PropertiesRoute.

(** ** [api/properties/[id]]: [GET], the property detail *)

Module PropertyDetailRoute.

Inductive Answer : Type :=
| Detail (property : Types.Property)
| Denied (error message : string).

(** The viewer's tier: [isVip] is the constant [false]. *)
Definition accessTier_of (userId : option string) : Types.AccessTier :=
  if opt_truthy userId then
    let isVip := false in
    if isVip then Types.vip else Types.registered
  else Types.public.

Definition is_vip (t : Types.AccessTier) : bool :=
  match t with Types.vip => true | _ => false end.

Definition is_public (t : Types.AccessTier) : bool :=
  match t with Types.public => true | _ => false end.

(** The object literal that replaces [property] for a public viewer. *)
Definition redact (property : Types.Property) : Types.Property :=
  {| Types.id := Types.id property;
     Types.title := Types.title property;
     Types.description := Types.description property;
     Types.address :=
       {| Types.street := "Address available after registration";
          Types.city := Types.city (Types.address property);
          Types.state := Types.state (Types.address property);
          Types.zipCode := Types.zipCode (Types.address property);
          Types.parish := Types.parish (Types.address property) |};
     Types.bedrooms := Types.bedrooms property;
     Types.bathrooms := Types.bathrooms property;
     Types.squareFeet := Types.squareFeet property;
     Types.lotSize := Types.lotSize property;
     Types.yearBuilt := Types.yearBuilt property;
     Types.propertyType := Types.propertyType property;
     Types.dealType := Types.dealType property;
     Types.market := Types.market property;
     Types.listPrice := Types.listPrice property;
     Types.purchasePrice := Types.purchasePrice property;
     Types.status := Types.status property;
     Types.accessTier := Types.accessTier property;
     Types.isOffMarket := Types.isOffMarket property;
     Types.images := Types.images property;
     Types.thumbnailUrl := Types.thumbnailUrl property;
     Types.flipMetrics :=
       match Types.flipMetrics property with
       | Some m =>
           Some {| Types.arv := Types.arv m;
                   Types.rehabEstimate := Types.rehabEstimate m;
                   Types.spread := zero;
                   Types.roi := Types.roi m |}
       | None => None
       end;
     Types.rentalMetrics :=
       match Types.rentalMetrics property with
       | Some m =>
           Some {| Types.grossYield := Types.grossYield m;
                   Types.capRate := Types.capRate m;
                   Types.monthlyRent := None |}
       | None => None
       end;
     Types.createdDate := Types.createdDate property;
     Types.updatedDate := Types.updatedDate property;
     Types.ownerId := Types.ownerId property;
     Types.tags := Types.tags property;
     Types.notes := None;
     Types.showingInstructions := None |}.

(** "Apply access tier filtering". *)
Definition applyAccessTier (accessTier : Types.AccessTier)
    (property : Types.Property) : Types.Property :=
  if is_public accessTier then redact property else property.

Definition GET (propertyId : string) : M (Response Answer) :=
  try_catch
    (userId <- (answer <- ask clerk_auth ;; lift_result answer) ;;
     let accessTier := accessTier_of userId in
     call (SalesforceGetTransaction propertyId) ;;
     transaction <- (answer <- ask (fun w => sf_getTransaction w propertyId) ;;
                     lift_result answer) ;;
     if (Types.Access_Tier__c transaction =? "vip") && negb (is_vip accessTier) then
       ret (json (Denied "Access denied"
                    "This property is only available to VIP members") 403)
     else if (Types.Access_Tier__c transaction =? "registered")
             && is_public accessTier then
       ret (json (Denied "Registration required"
                    "Please register to view property details") 401)
     else
       call (CloudinaryGetPropertyImages propertyId) ;;
       images <- ask (fun w => cloudinary_images w propertyId) ;;
       let property := Types.transformSalesforceTransaction transaction images in
       let property := applyAccessTier accessTier property in
       ret (json (Detail property) 200))
    (fun error =>
       match error with
       | JsError message =>
           if includes message "NOT_FOUND" then
             ret (json (Denied "Property not found"
                          "The requested property does not exist or has been removed")
                    404)
           else ret (json (Denied "Failed to fetch property" message) 500)
       | Thrown _ =>
           ret (json (Denied "Failed to fetch property" "Unknown error") 500)
       end).

End PropertyDetailRoute.

(** ** [api/webhooks/clerk]: [POST] *)

Module ClerkWebhook.

Record Request : Type := {
  headers : Clerk.SvixHeaders;
  (** [await req.text()] *)
  text : string
}.

Inductive Answer : Type :=
| Error (error : string)
| LeadCreated (salesforceLeadId : string)
| LeadFailed (details : list string)
| LeadThrew (message : string)
| Acknowledged (message : string).

(** [user.email_addresses?.find(email => email.primary)?.email_address]. *)
Definition primaryEmail_of (user : Clerk.ClerkUser) : option string :=
  match Clerk.email_addresses user with
  | Some emails =>
      option_map Clerk.email_address (find Clerk.email_primary emails)
  | None => None
  end.

(** [user.phone_numbers?.find(phone => phone.primary)?.phone_number]. *)
Definition primaryPhone_of (user : Clerk.ClerkUser) : option string :=
  match Clerk.phone_numbers user with
  | Some phones =>
      option_map Clerk.phone_number (find Clerk.phone_primary phones)
  | None => None
  end.

(** The lead prepared for a user with primary email [primaryEmail]. *)
Definition leadData_of (user : Clerk.ClerkUser) (primaryEmail : string)
  : Crm.SalesforceLeadPayload :=
  {| Crm.FirstName := str_or (Clerk.first_name user) "Unknown";
     Crm.LastName := str_or (Clerk.last_name user) "Investor";
     Crm.Email := primaryEmail;
     Crm.Phone := primaryPhone_of user;
     Crm.Company :=
       match Clerk.public_metadata user with
       | Some m => str_or_undefined (Clerk.company m)
       | None => None
       end;
     Crm.LeadSource := "Website Registration";
     Crm.Status := "New";
     Crm.Investor_Type__c :=
       match Clerk.public_metadata user with
       | Some m => str_or_undefined (Clerk.investorType m)
       | None => None
       end;
     Crm.Interests__c :=
       match Clerk.public_metadata user with
       | Some m => option_map (join ";") (Clerk.interests m)
       | None => None
       end;
     Crm.Website_User_ID__c := Clerk.id user |}.

Definition POST (req : Request) : M (Response Answer) :=
  try_catch
    (WEBHOOK_SECRET <- ask CLERK_WEBHOOK_SECRET ;;
     if negb (opt_truthy WEBHOOK_SECRET) then
       ret (json (Error "Webhook secret not configured") 500)
     else
       let svixId := Clerk.svix_id (headers req) in
       let svixTimestamp := Clerk.svix_timestamp (headers req) in
       let svixSignature := Clerk.svix_signature (headers req) in
       if negb (opt_truthy svixId) || negb (opt_truthy svixTimestamp)
          || negb (opt_truthy svixSignature) then
         ret (json (Error "Missing required headers") 400)
       else
         let body := text req in
         verified <- (answer <- ask (fun w => svix_verify w (str_or WEBHOOK_SECRET "")
                                                 body (headers req)) ;;
                      lift_result answer) ;;
         match verified with
         | None => ret (json (Error "Invalid webhook signature") 400)
         | Some evt =>
             if Clerk.type evt =? "user.created" then
               let user := Clerk.data evt in
               let primaryEmail := primaryEmail_of user in
               match primaryEmail with
               | Some email =>
                   if str_truthy email then
                     let leadData := leadData_of user email in
                     try_catch
                       (call (SalesforceCreateLead leadData) ;;
                        salesforceResponse <-
                          (answer <- ask (fun w => sf_createLead w leadData) ;;
                           lift_result answer) ;;
                        if Crm.success salesforceResponse then
                          ret (json (LeadCreated (Crm.lead_id salesforceResponse)) 200)
                        else
                          ret (json (LeadFailed (Crm.errors salesforceResponse)) 500))
                       (fun salesforceError =>
                          ret (json (LeadThrew (message_of salesforceError)) 500))
                   else ret (json (Error "No primary email found") 400)
               | None => ret (json (Error "No primary email found") 400)
               end
             else if Clerk.type evt =? "user.updated" then
               ret (json (Acknowledged "User update processed") 200)
             else
               ret (json (Acknowledged "Webhook received") 200)
         end)
    (fun error => ret (json (Error "Internal server error") 500)).

End ClerkWebhook.

(* ================================================================== *)
(** * Vocabulary of the statements *)
(* ================================================================== *)

(** The value a computation returns from a world, and the world it leaves. *)
Definition outcome {A} (m : M A) (w : World) : Result A := fst (m w).
Definition after {A} (m : M A) (w : World) : World := snd (m w).

(** The list a computation returns; nothing when it throws. *)
Definition returned {A} (m : M (list A)) (w : World) : list A :=
  match outcome m w with
  | Ok l => l
  | Throw _ => []
  end.

(** The response of a handler, when it does not throw. *)
Definition response {B} (m : M (Response B)) (w : World) : option (Response B) :=
  match outcome m w with
  | Ok r => Some r
  | Throw _ => None
  end.

(** The external calls a computation makes from a world, in order. *)
Definition calls_of {A} (m : M A) (w : World) : list Call :=
  skipn (List.length (trace w)) (trace (after m w)).

(** The HTTP requests a call may cost: two for a method of the client of
    [lib/salesforce.ts], which may ask for a token first, one for any
    other call. *)
Definition cost (c : Call) : nat :=
  match c with
  | SalesforceGetTransaction _ | SalesforceCreateLead _
  | SalesforceQueryTransactions _ _ _ _ => 2
  | _ => 1
  end.

Definition total_cost (cs : list Call) : nat := list_sum (map cost cs).

(** A computation extends the trace by calls that cost at most [n]
    requests. *)
Definition emits {A} (m : M A) (n : nat) : Prop :=
  forall w, exists cs,
    trace (after m w) = trace w ++ cs /\ total_cost cs <= n.

(** The three tiers of the schema. *)
Definition tier_enum : list string := ["public"; "registered"; "vip"].

(** A returned property is one of the stored rows and its tier is among
    [allowed]. *)
Definition served_from (w : World) (allowed : list string)
    (p : Database.Property) : Prop :=
  In (Database.tier p) allowed /\
  exists row, In row (properties_table w) /\
              p = PropertyDatabase.row_to_property row.

(** The limit of a call of [getProperties], 50 when none is given, is a row
    count that is not below the number of stored rows. *)
Definition covers (limit : option Schema.Limit) (t : Schema.Table) : Prop :=
  match limit with
  | None => List.length t <= 50
  | Some (Schema.Count n) => List.length t <= n
  | Some Schema.NotACount => False
  end.

(** The request carries a session: [auth()] yields a user. *)
Definition signed_in (w : World) : Prop :=
  exists userId, clerk_auth w = Ok (Some userId) /\ userId <> "".

(** The tier filters of the select calls in a list of calls. *)
Definition select_filters (cs : list Call) : list Schema.TierFilter :=
  flat_map (fun c => match c with
                     | SupabaseSelectProperties f _ => [f]
                     | _ => []
                     end) cs.

(** The Salesforce query of the listing endpoint failed: the request was
    rejected, answered with an error status, or answered with no JSON. *)
Definition query_failed (o : FetchOutcome) : Prop :=
  match o with
  | FetchRejects _ | FetchNotOk _ | FetchOkNoJson _ => True
  | FetchOk _ => False
  end.

(** The request of the listing endpoint carries both Salesforce cookies. *)
Definition has_tokens (r : PropertiesRoute.Request) : bool :=
  opt_truthy (PropertiesRoute.sf_access_token r)
  && opt_truthy (PropertiesRoute.sf_instance_url r).

(** ** The field mapping of [transformSalesforceTransaction], in words

    [p] maps the fields of [transaction] and [images], every field of the
    property being told: identity, title, address, numeric attributes,
    type, deal type, market, status, access tier, dates, owner, notes and
    showing instructions are copied; the description is the CRM text, or the
    empty text when there is none; [isOffMarket] is the CRM flag, [false]
    when there is none; the images are [images]; [flipMetrics] is defined
    exactly for the deal type ['Fix & Flip'] and [rentalMetrics] exactly for
    ['Rental'], their values defaulting to 0; the thumbnail is the url of
    the first image or the placeholder.  The monthly rent is [monthly] of
    the CRM value and the tags are [tags_of] the CRM text. *)
Definition field_mapping
    (monthly : option JsNumber -> option JsNumber)
    (tags_of : option string -> option (list string))
    (transaction : Types.SalesforceTransaction)
    (images : list Types.PropertyImage) (p : Types.Property) : Prop :=
  Types.id p = Types.Id transaction /\
  Types.title p = Types.Name transaction /\
  Types.description p
  = match Types.Description__c transaction with
    | Some text => text
    | None => ""
    end /\
  Types.street (Types.address p) = Types.Street_Address__c transaction /\
  Types.city (Types.address p) = Types.City__c transaction /\
  Types.state (Types.address p) = Types.State__c transaction /\
  Types.zipCode (Types.address p) = Types.Zip_Code__c transaction /\
  Types.parish (Types.address p) = Types.Parish__c transaction /\
  Types.bedrooms p = Types.Bedrooms__c transaction /\
  Types.bathrooms p = Types.Bathrooms__c transaction /\
  Types.squareFeet p = Types.Square_Feet__c transaction /\
  Types.lotSize p = Types.Lot_Size__c transaction /\
  Types.yearBuilt p = Types.Year_Built__c transaction /\
  Types.propertyType p = Types.Property_Type__c transaction /\
  Types.dealType p = Types.Deal_Type__c transaction /\
  Types.market p = Types.Market__c transaction /\
  Types.listPrice p = Types.List_Price__c transaction /\
  Types.purchasePrice p = Types.Purchase_Price__c transaction /\
  Types.status p = Types.Status__c transaction /\
  Types.accessTier p = Types.Access_Tier__c transaction /\
  Types.isOffMarket p
  = match Types.Is_Off_Market__c transaction with
    | Some flag => flag
    | None => false
    end /\
  Types.images p = images /\
  Types.thumbnailUrl p =
    match images with
    | first :: _ => Types.url first
    | [] => "/placeholder-house.jpg"
    end /\
  (Types.flipMetrics p <> None <-> Types.Deal_Type__c transaction = "Fix & Flip") /\
  (Types.rentalMetrics p <> None <-> Types.Deal_Type__c transaction = "Rental") /\
  (forall m, Types.flipMetrics p = Some m ->
     Types.arv m = optnum_or (Types.ARV__c transaction) zero /\
     Types.rehabEstimate m = optnum_or (Types.Rehab_Estimate__c transaction) zero /\
     Types.spread m = optnum_or (Types.Spread__c transaction) zero /\
     Types.roi m = optnum_or (Types.ROI__c transaction) zero) /\
  (forall m, Types.rentalMetrics p = Some m ->
     Types.grossYield m = optnum_or (Types.Gross_Yield__c transaction) zero /\
     Types.capRate m = optnum_or (Types.Cap_Rate__c transaction) zero /\
     Types.monthlyRent m = monthly (Types.Monthly_Rent__c transaction)) /\
  Types.createdDate p = Types.CreatedDate transaction /\
  Types.updatedDate p = Types.LastModifiedDate transaction /\
  Types.ownerId p = Types.OwnerId transaction /\
  Types.tags p = tags_of (Types.Tags__c transaction) /\
  Types.notes p = Types.Notes__c transaction /\
  Types.showingInstructions p = Types.Showing_Instructions__c transaction.

(** The mapping as the specification words it: every missing metric value
    defaults to 0, and the tags are split whenever the CRM text is there. *)
Definition field_mapping_as_specified :=
  field_mapping
    (fun rent => Some (optnum_or rent zero))
    (option_map (fun text => map trim (split_comma text))).

(** The mapping of the code: the monthly rent is copied as it is, and an
    empty tag text gives no tags. *)
Definition field_mapping_of_code :=
  field_mapping
    (fun rent => rent)
    (fun tags => if opt_truthy tags
                 then option_map (fun text => map trim (split_comma text)) tags
                 else None).

(** ** The public view of a property, in words

    [p] is [q] with the street replaced, the showing instructions and notes
    removed, the spread of the flip metrics set to 0 and the monthly rent of
    the rental metrics removed; every other field is the one of [q]. *)
Definition redacted_view (q p : Types.Property) : Prop :=
  Types.street (Types.address p) = "Address available after registration" /\
  Types.showingInstructions p = None /\
  Types.notes p = None /\
  match Types.flipMetrics q, Types.flipMetrics p with
  | None, None => True
  | Some mq, Some mp =>
      Types.spread mp = zero /\ Types.arv mp = Types.arv mq /\
      Types.rehabEstimate mp = Types.rehabEstimate mq /\
      Types.roi mp = Types.roi mq
  | _, _ => False
  end /\
  match Types.rentalMetrics q, Types.rentalMetrics p with
  | None, None => True
  | Some mq, Some mp =>
      Types.monthlyRent mp = None /\
      Types.grossYield mp = Types.grossYield mq /\
      Types.capRate mp = Types.capRate mq
  | _, _ => False
  end /\
  Types.city (Types.address p) = Types.city (Types.address q) /\
  Types.state (Types.address p) = Types.state (Types.address q) /\
  Types.zipCode (Types.address p) = Types.zipCode (Types.address q) /\
  Types.parish (Types.address p) = Types.parish (Types.address q) /\
  Types.id p = Types.id q /\
  Types.title p = Types.title q /\
  Types.description p = Types.description q /\
  Types.bedrooms p = Types.bedrooms q /\
  Types.bathrooms p = Types.bathrooms q /\
  Types.squareFeet p = Types.squareFeet q /\
  Types.lotSize p = Types.lotSize q /\
  Types.yearBuilt p = Types.yearBuilt q /\
  Types.propertyType p = Types.propertyType q /\
  Types.dealType p = Types.dealType q /\
  Types.market p = Types.market q /\
  Types.listPrice p = Types.listPrice q /\
  Types.purchasePrice p = Types.purchasePrice q /\
  Types.status p = Types.status q /\
  Types.accessTier p = Types.accessTier q /\
  Types.isOffMarket p = Types.isOffMarket q /\
  Types.images p = Types.images q /\
  Types.thumbnailUrl p = Types.thumbnailUrl q /\
  Types.createdDate p = Types.createdDate q /\
  Types.updatedDate p = Types.updatedDate q /\
  Types.ownerId p = Types.ownerId q /\
  Types.tags p = Types.tags q.

(** ** The webhook, in words *)

(** [a] is the address of the first entry flagged primary. *)
Inductive primary_email : list Clerk.EmailAddress -> string -> Prop :=
| primary_here (e : Clerk.EmailAddress) (rest : list Clerk.EmailAddress) :
    Clerk.email_primary e = true ->
    primary_email (e :: rest) (Clerk.email_address e)
| primary_later (e : Clerk.EmailAddress) (rest : list Clerk.EmailAddress)
    (a : string) :
    Clerk.email_primary e = false ->
    primary_email rest a ->
    primary_email (e :: rest) a.


(** The secret is configured and the three svix headers are there. *)
Definition checkable (w : World) (req : ClerkWebhook.Request) : Prop :=
  opt_truthy (CLERK_WEBHOOK_SECRET w) = true /\
  opt_truthy (Clerk.svix_id (ClerkWebhook.headers req)) = true /\
  opt_truthy (Clerk.svix_timestamp (ClerkWebhook.headers req)) = true /\
  opt_truthy (Clerk.svix_signature (ClerkWebhook.headers req)) = true.

(** What verifying the signature of the request yields. *)
Definition verification (w : World) (req : ClerkWebhook.Request)
  : Result (option Clerk.ClerkWebhookEvent) :=
  svix_verify w (str_or (CLERK_WEBHOOK_SECRET w) "")
    (ClerkWebhook.text req) (ClerkWebhook.headers req).



(** ** Tier by price, in words

    A price of at least 1000000 gives ['vip'], one of at least 300000 and
    below 1000000 gives ['registered'], one below 300000 gives ['public']. *)
Definition tier_by_price (price : JsNumber) (tier : string) : Prop :=
  (num_ge price (of_Z 1000000) = true -> tier = "vip") /\
  (num_ge price (of_Z 300000) = true -> num_lt price (of_Z 1000000) = true ->
     tier = "registered") /\
  (num_lt price (of_Z 300000) = true -> tier = "public").

(** ** The store, in words *)

(** The rows of a table stored under a CRM identifier. *)
Definition rows_with (key : string) (t : Schema.Table) : list Schema.Row :=
  filter (fun r => Schema.opt_string_eqb
                     (Schema.salesforce_id (Schema.cols r)) (Some key)) t.

(** The table holds at most one record per [salesforce_id]. *)
Definition one_row_per_key (t : Schema.Table) : Prop :=
  forall key, List.length (rows_with key t) <= 1.

(** Every row of the table has a tier of the enum. *)
Definition tiers_in_enum (t : Schema.Table) : Prop :=
  Forall (fun r => In (Schema.tier (Schema.cols r)) tier_enum) t.

(** The table with [updated_at] set to [now] in the rows stored under the
    identifier of one of the payload rows [cs], and nothing else changed. *)
Definition touched (now : string) (cs : list Schema.Columns) (t : Schema.Table)
  : Schema.Table :=
  map (fun r =>
         if existsb (fun c => Schema.same_key c r) cs
         then {| Schema.id := Schema.id r;
                 Schema.cols := Schema.set_updated_at now (Schema.cols r) |}
         else r) t.

(** A row holds the values of a payload row, but for [updated_at]. *)
Definition agrees (c : Schema.Columns) (r : Schema.Row) : Prop :=
  forall t, Schema.set_updated_at t (Schema.cols r) = Schema.set_updated_at t c.

(** Every payload row finds its row in the table, which agrees with it. *)
Definition settled (t : Schema.Table) (cs : list Schema.Columns) : Prop :=
  forall c, In c cs ->
    existsb (Schema.same_key c) t = true /\
    forall r, In r t -> Schema.same_key c r = true -> agrees c r.

(** A computation keeps a property of the [properties] table. *)
Definition keeps_table {A} (P : Schema.Table -> Prop) (m : M A) : Prop :=
  forall w, P (properties_table w) -> P (properties_table (after m w)).

(** ** Sample data *)

(** The value of a text of decimal digits. *)
Fixpoint digits_value (acc : Z) (s : string) : option Z :=
  match s with
  | EmptyString => Some acc
  | String c r =>
      let n := nat_of_ascii c in
      if Nat.leb 48 n && Nat.leb n 57
      then digits_value (10 * acc + Z.of_nat (n - 48)) r
      else None
  end.

(** Builtins that read texts of decimal digits only. *)
Definition read_digits (s : string) : JsNumber :=
  match s with
  | EmptyString => JsNaN
  | _ => match digits_value 0 s with
         | Some z => of_Z z
         | None => JsNaN
         end
  end.

Definition sample_builtins : Builtins :=
  {| strToNumber := read_digits;
     parseInt := fun v => match v with
                          | JsNum n => n
                          | JsStr s => read_digits s
                          | _ => JsNaN
                          end;
     jsonParseStrings := fun _ => None;
     dateToISOString := fun s => Some s;
     encodeURIComponent := fun s => s;
     numberToString :=
       fun n => match n with
                | JsFin q =>
                    if Z.eqb (Zpos (Qden q)) 1 && Z.leb 0 (Qnum q)
                    then NilEmpty.string_of_uint (N.to_uint (Z.to_N (Qnum q)))
                    else "NaN"
                | _ => "NaN"
                end |}.

Definition sample_property (key tier updated : string) (price : Z)
  : Database.Property :=
  {| Database.id := None;
     Database.name := "Cedar bungalow";
     Database.address := "12 Oak St";
     Database.city := "Lafayette";
     Database.state := "LA";
     Database.zipCode := "70501";
     Database.price := of_Z price;
     Database.bedrooms := of_Z 3;
     Database.bathrooms := of_Z 2;
     Database.squareFootage := of_Z 1400;
     Database.lotSize := of_Z 1;
     Database.yearBuilt := of_Z 1990;
     Database.propertyType := "Single Family";
     Database.description := "";
     Database.status := "Active";
     Database.images := [];
     Database.tier := tier;
     Database.salesforceId := Some key;
     Database.createdAt := "2024-01-01T00:00:00.000Z";
     Database.updatedAt := updated;
     Database.lastSyncedAt := "2024-03-01T00:00:00.000Z";
     Database.leadSource := None;
     Database.investmentPath := None;
     Database.actualProfit := None;
     Database.projectedProfit := None;
     Database.salesDate := None;
     Database.salesforceStatus := None |}.

Definition sample_row (id key tier updated : string) (price : Z) : Schema.Row :=
  {| Schema.id := id;
     Schema.cols :=
       PropertyDatabase.property_to_columns (sample_property key tier updated price) |}.

Definition sample_table : Schema.Table :=
  [ sample_row "u1" "a01" "public" "2024-01-01T00:00:00.000Z" 150000;
    sample_row "u2" "a02" "registered" "2024-01-03T00:00:00.000Z" 450000;
    sample_row "u3" "a03" "vip" "2024-01-02T00:00:00.000Z" 2000000 ].

Definition sample_transaction (dealType : string) (tier : string)
    (tags : option string) : Types.SalesforceTransaction :=
  {| Types.Id := "a01";
     Types.Name := "Cedar bungalow";
     Types.Description__c := None;
     Types.Street_Address__c := "12 Oak St";
     Types.City__c := "Lafayette";
     Types.State__c := "LA";
     Types.Zip_Code__c := "70501";
     Types.Parish__c := "Lafayette";
     Types.Bedrooms__c := of_Z 3;
     Types.Bathrooms__c := of_Z 2;
     Types.Square_Feet__c := of_Z 1400;
     Types.Lot_Size__c := None;
     Types.Year_Built__c := Some (of_Z 1990);
     Types.Property_Type__c := "Single Family";
     Types.Deal_Type__c := dealType;
     Types.Market__c := "Lafayette";
     Types.List_Price__c := of_Z 150000;
     Types.Purchase_Price__c := None;
     Types.Status__c := "Available";
     Types.Access_Tier__c := tier;
     Types.Is_Off_Market__c := None;
     Types.ARV__c := Some (of_Z 210000);
     Types.Rehab_Estimate__c := None;
     Types.Spread__c := Some (of_Z 25000);
     Types.ROI__c := None;
     Types.Gross_Yield__c := Some (of_Z 9);
     Types.Cap_Rate__c := None;
     Types.Monthly_Rent__c := None;
     Types.CreatedDate := "2024-01-01T00:00:00.000Z";
     Types.LastModifiedDate := "2024-01-05T00:00:00.000Z";
     Types.OwnerId := "005";
     Types.Tags__c := tags;
     Types.Notes__c := Some "seller motivated";
     Types.Showing_Instructions__c := Some "call first" |}.

Definition sample_image : Types.PropertyImage :=
  {| Types.img_id := "a01/front";
     Types.url := "https://res.cloudinary.com/cedar/image/upload/a01/front";
     Types.altText := Some "Property a01 - Image 1";
     Types.order := 1 |}.

Definition sample_user (emails : list Clerk.EmailAddress) : Clerk.ClerkUser :=
  {| Clerk.id := "user_1";
     Clerk.email_addresses := Some emails;
     Clerk.first_name := Some "Ada";
     Clerk.last_name := None;
     Clerk.phone_numbers := None;
     Clerk.public_metadata := None |}.

Definition sample_headers : Clerk.SvixHeaders :=
  {| Clerk.svix_id := Some "msg_1";
     Clerk.svix_timestamp := Some "1700000000";
     Clerk.svix_signature := Some "v1,abc" |}.

Definition signup_event (emails : list Clerk.EmailAddress)
  : Clerk.ClerkWebhookEvent :=
  {| Clerk.type := "user.created"; Clerk.data := sample_user emails |}.

Definition sample_request : ClerkWebhook.Request :=
  {| ClerkWebhook.headers := sample_headers; ClerkWebhook.text := "{}" |}.

Definition sample_record (id : string) (tier : option string) (price : JsValue)
  : Crm.PropertyRecord :=
  {| Crm.Id := id;
     Crm.Name := Some "Cedar bungalow";
     Crm.Address__c := Some "12 Oak St";
     Crm.City__c := Some "Lafayette";
     Crm.State__c := Some "LA";
     Crm.Zip_Code__c := None;
     Crm.Price__c := price;
     Crm.Bedrooms__c := JsNum (of_Z 3);
     Crm.Bathrooms__c := JsNull;
     Crm.Square_Footage__c := JsNull;
     Crm.Lot_Size__c := JsNull;
     Crm.Year_Built__c := JsNull;
     Crm.Property_Type__c := None;
     Crm.Description__c := None;
     Crm.Status__c := Some "Active";
     Crm.Image_URLs__c := Some "https://img/1.jpg, https://img/2.jpg";
     Crm.Tier__c := tier;
     Crm.CreatedDate := "2024-01-01T00:00:00.000Z";
     Crm.LastModifiedDate := "2024-01-05T00:00:00.000Z" |}.

Definition sample_input (key : option string) (tier : option string)
    (price : JsValue) : UpsertRoute.Input :=
  {| UpsertRoute.name := Some "Cedar bungalow";
     UpsertRoute.address := Some "12 Oak St";
     UpsertRoute.city := Some "Lafayette";
     UpsertRoute.state := Some "LA";
     UpsertRoute.zip_code := None;
     UpsertRoute.zipCode := Some "70501";
     UpsertRoute.price := price;
     UpsertRoute.bedrooms := JsStr "3";
     UpsertRoute.bathrooms := JsUndefined;
     UpsertRoute.square_footage := JsUndefined;
     UpsertRoute.squareFootage := JsNum (of_Z 1400);
     UpsertRoute.lot_size := JsUndefined;
     UpsertRoute.lotSize := JsUndefined;
     UpsertRoute.year_built := JsUndefined;
     UpsertRoute.yearBuilt := JsUndefined;
     UpsertRoute.property_type := None;
     UpsertRoute.propertyType := None;
     UpsertRoute.description := None;
     UpsertRoute.status := None;
     UpsertRoute.images := UpsertRoute.ImagesString "https://img/1.jpg,";
     UpsertRoute.tier := tier;
     UpsertRoute.salesforce_id := key;
     UpsertRoute.id := None;
     UpsertRoute.created_at := None;
     UpsertRoute.created_date := None;
     UpsertRoute.createdAt := None;
     UpsertRoute.updated_at := Some "2024-01-05T00:00:00.000Z";
     UpsertRoute.last_modified_date := None;
     UpsertRoute.updatedAt := None;
     UpsertRoute.lead_source := None;
     UpsertRoute.investment_path := None;
     UpsertRoute.actual_profit := JsUndefined;
     UpsertRoute.projected_profit := JsUndefined;
     UpsertRoute.sales_date := None;
     UpsertRoute.salesforce_status := None |}.

(** A world with the given session, database failure, table, answer of the
    Salesforce query and verified webhook event; every service works. *)
Definition world_of (auth : Result (option string))
    (failure : option Schema.PostgrestError) (table : Schema.Table)
    (fetch : FetchOutcome) (event : option Clerk.ClerkWebhookEvent) : World :=
  {| builtins := sample_builtins;
     SYNC_API_KEY := None;
     CLERK_WEBHOOK_SECRET := Some "whsec_1";
     SALESFORCE_USERNAME := Some "sync@cedar";
     SALESFORCE_PASSWORD := Some "pw";
     SALESFORCE_SECURITY_TOKEN := None;
     supabase_configured := true;
     supabase_admin_configured := true;
     js_now := "2024-03-01T00:00:00.000Z";
     clerk_auth := auth;
     svix_verify := fun _ _ _ => Ok event;
     sf_getTransaction :=
       fun id =>
         if id =? "a01" then
           Ok (sample_transaction "Rental" "public" (Some "brick, corner lot"))
         else if id =? "a02" then
           Ok (sample_transaction "Fix & Flip" "registered" None)
         else if id =? "a03" then
           Ok (sample_transaction "Wholesale" "vip" None)
         else Throw (JsError "Salesforce API error: NOT_FOUND");
     sf_createLead :=
       fun _ => Ok {| Crm.lead_id := "00Q1"; Crm.success := true; Crm.errors := [] |};
     sf_authenticateWithCredentials := fun _ _ => Ok tt;
     sf_query := Ok {| Crm.totalSize := 0; Crm.records := Some [] |};
     sf_fetch := fetch;
     cloudinary_images := fun _ => [sample_image];
     db_failure := failure;
     sync_status_failure := failure;
     db_now := "2024-03-02T00:00:00.000Z";
     db_uuid := fun i => ("uuid-" ++ String (ascii_of_nat (48 + i)) "")%string;
     properties_table := table;
     sync_status := Some "2024-02-01T00:00:00.000Z";
     trace := [] |}.

(** The world in which the CRM query of the sync answers [records]. *)
Definition with_crm_records (records : list Crm.PropertyRecord) (w : World)
  : World :=
  {| builtins := builtins w; SYNC_API_KEY := SYNC_API_KEY w;
     CLERK_WEBHOOK_SECRET := CLERK_WEBHOOK_SECRET w;
     SALESFORCE_USERNAME := SALESFORCE_USERNAME w;
     SALESFORCE_PASSWORD := SALESFORCE_PASSWORD w;
     SALESFORCE_SECURITY_TOKEN := SALESFORCE_SECURITY_TOKEN w;
     supabase_configured := supabase_configured w;
     supabase_admin_configured := supabase_admin_configured w;
     js_now := js_now w; clerk_auth := clerk_auth w;
     svix_verify := svix_verify w;
     sf_getTransaction := sf_getTransaction w;
     sf_createLead := sf_createLead w;
     sf_authenticateWithCredentials := sf_authenticateWithCredentials w;
     sf_query := Ok {| Crm.totalSize := List.length records;
                       Crm.records := Some records |};
     sf_fetch := sf_fetch w;
     cloudinary_images := cloudinary_images w;
     db_failure := db_failure w;
     sync_status_failure := sync_status_failure w;
     db_now := db_now w; db_uuid := db_uuid w;
     properties_table := properties_table w; sync_status := sync_status w;
     trace := trace w |}.

(** The world in which the database refuses the requests on the
    [sync_status] table with [failure], or accepts them. *)
Definition with_sync_status_failure (failure : option Schema.PostgrestError)
    (w : World) : World :=
  {| builtins := builtins w; SYNC_API_KEY := SYNC_API_KEY w;
     CLERK_WEBHOOK_SECRET := CLERK_WEBHOOK_SECRET w;
     SALESFORCE_USERNAME := SALESFORCE_USERNAME w;
     SALESFORCE_PASSWORD := SALESFORCE_PASSWORD w;
     SALESFORCE_SECURITY_TOKEN := SALESFORCE_SECURITY_TOKEN w;
     supabase_configured := supabase_configured w;
     supabase_admin_configured := supabase_admin_configured w;
     js_now := js_now w; clerk_auth := clerk_auth w;
     svix_verify := svix_verify w;
     sf_getTransaction := sf_getTransaction w;
     sf_createLead := sf_createLead w;
     sf_authenticateWithCredentials := sf_authenticateWithCredentials w;
     sf_query := sf_query w; sf_fetch := sf_fetch w;
     cloudinary_images := cloudinary_images w;
     db_failure := db_failure w;
     sync_status_failure := failure;
     db_now := db_now w; db_uuid := db_uuid w;
     properties_table := properties_table w; sync_status := sync_status w;
     trace := trace w |}.

Definition sample_world : World :=
  world_of (Ok None) None sample_table (FetchNotOk "INVALID_SESSION_ID") None.

(* ================================================================== *)
(** * Further code of the same files *)
(* ================================================================== *)

(** [`${n}`] for a whole number: its decimal digits. *)
Definition show_nat (n : nat) : string :=
  NilEmpty.string_of_uint (Nat.to_uint n).

(** ** [lib/database.ts]: [getProperty] *)

Module PropertyLookup.

Definition no_single_row : Schema.PostgrestError :=
  {| Schema.code := "PGRST116";
     Schema.message := "JSON object requested, multiple (or no) rows returned" |}.

(** [.select('*').eq('id', id).single()]: the one row with this id, an
    error when the rows with it are none or several. *)
Definition select_single (id : string) (t : Schema.Table)
  : Schema.Reply Schema.Row :=
  match filter (fun r => Schema.id r =? id) t with
  | [r] => Schema.reply_data r
  | _ => Schema.reply_error no_single_row
  end.

(** [static async getProperty(id: string)]: the row as the database holds
    it, [null] on an error.  (The select is not recorded in the trace.) *)
Definition getProperty (id : string) : M (option Schema.Row) :=
  PropertyDatabase.getSupabase ;;
  failure <- ask db_failure ;;
  table <- ask properties_table ;;
  let reply := match failure with
               | Some e => Schema.reply_error e
               | None => select_single id table
               end in
  match Schema.error reply with
  | Some _ => ret None
  | None => ret (Schema.data reply)
  end.

End PropertyLookup.

(** ** [lib/salesforce.ts]: [SalesforceClient]

    The client the detail endpoint and the webhook receiver call.  Its
    methods are modelled over the state of the instance, the clock and the
    requests sent; what the network answers is given. *)

Module SalesforceClient.

(** [interface SalesforceAuthResponse], the fields the client reads. *)
Record SalesforceAuthResponse : Type := {
  access_token : string;
  instance_url : string
}.

(** What a [fetch] and the reading of its response yield: the promise is
    rejected, the response is not [ok] and has this text, its body is no
    JSON, or it holds a value. *)
Inductive Fetched (A : Type) : Type :=
| Rejects (e : Exn)
| NotOk (text : string)
| NoJson (e : Exn)
| Json (a : A).
Arguments Rejects {A} _.
Arguments NotOk {A} _.
Arguments NoJson {A} _.
Arguments Json {A} _.

Inductive Method : Type := GET | POST.

(** A request sent: the form posted to the token endpoint, or a call of the
    REST API with its [Authorization] header and, for a lead, its body. *)
Inductive Request : Type :=
| PostToken (client_id client_secret username password : string)
| Api (method : Method) (url authorization : string)
    (body : option Crm.SalesforceLeadPayload).

(** [process.env], as far as the constructor reads it. *)
Record Env : Type := {
  SALESFORCE_CLIENT_ID : option string;
  SALESFORCE_CLIENT_SECRET : option string;
  SALESFORCE_USERNAME : option string;
  SALESFORCE_PASSWORD : option string;
  SALESFORCE_SECURITY_TOKEN : option string
}.

(** The fields of the instance. *)
Record Client : Type := {
  accessToken : option string;
  instanceUrl : option string;
  tokenExpiry : Z;
  clientId : string;
  clientSecret : string;
  username : string;
  password : string;
  securityToken : string
}.

(** [constructor()]. *)
Definition new (env : Env) : Client :=
  {| accessToken := None;
     instanceUrl := None;
     tokenExpiry := 0;
     clientId := str_or (SALESFORCE_CLIENT_ID env) "";
     clientSecret := str_or (SALESFORCE_CLIENT_SECRET env) "";
     username := str_or (SALESFORCE_USERNAME env) "";
     password := str_or (SALESFORCE_PASSWORD env) "";
     securityToken := str_or (SALESFORCE_SECURITY_TOKEN env) "" |}.

(** The network and the clock: the [n]-th reading of [Date.now()], in
    milliseconds, and the answer to each request. *)
Record Net : Type := {
  date_now : nat -> Z;
  token_answer : Request -> Fetched SalesforceAuthResponse;
  transaction_answer : Request -> Fetched Types.SalesforceTransaction;
  lead_answer : Request -> Fetched Crm.LeadResponse;
  query_answer : Request -> Fetched Crm.QueryData
}.

(** The instance, the number of clock readings made and the requests sent,
    oldest first. *)
Record State : Type := {
  client : Client;
  clock_reads : nat;
  sent : list Request
}.

Definition C (A : Type) : Type := State -> Result A * State.

Definition ret {A} (a : A) : C A := fun s => (Ok a, s).

Definition bind {A B} (m : C A) (k : A -> C B) : C B :=
  fun s =>
    match m s with
    | (Ok a, s') => k a s'
    | (Throw e, s') => (Throw e, s')
    end.

Definition throw {A} (e : Exn) : C A := fun s => (Throw e, s).

Definition try_catch {A} (m : C A) (h : Exn -> C A) : C A :=
  fun s =>
    match m s with
    | (Ok a, s') => (Ok a, s')
    | (Throw e, s') => h e s'
    end.

Definition this : C Client := fun s => (Ok (client s), s).

(** [fetch(...)]: the request leaves. *)
Definition send (r : Request) : C unit :=
  fun s => (Ok tt, {| client := client s; clock_reads := clock_reads s;
                      sent := sent s ++ [r] |}).

(** The three assignments at the end of [authenticate]. *)
Definition store (token url : string) (expiry : Z) : C unit :=
  fun s =>
    (Ok tt,
     {| client :=
          {| accessToken := Some token; instanceUrl := Some url;
             tokenExpiry := expiry;
             clientId := clientId (client s);
             clientSecret := clientSecret (client s);
             username := username (client s);
             password := password (client s);
             securityToken := securityToken (client s) |};
        clock_reads := clock_reads s; sent := sent s |}).

Declare Scope client_scope.
Delimit Scope client_scope with client.
Notation "x <- m ;; k" := (bind m (fun x => k))
  (at level 61, m at next level, right associativity) : client_scope.
Notation "m ;; k" := (bind m (fun _ => k))
  (at level 61, right associativity) : client_scope.
Local Open Scope client_scope.

(** [`${v}`] for a field that is a string or [null]. *)
Definition show (v : option string) : string :=
  match v with
  | Some s => s
  | None => "null"
  end.

(** The filters [queryTransactions] is given; a field left out is
    [None]. *)
Record Filters : Type := {
  dealTypes : option (list string);
  markets : option (list string);
  accessTier : option string;
  isOffMarket : option bool;
  limit : option JsNumber;
  offset : option JsNumber
}.

(** [xs.map(x => `'${x}'`).join(',')]. *)
Definition quoted (xs : list string) : string :=
  join "," (map (fun x => ("'" ++ x ++ "'")%string) xs).

(** The [WHERE] clause of [queryTransactions]. *)
Definition whereClause_of (filters : Filters) : string :=
  let dealTypes := match dealTypes filters with Some l => l | None => [] end in
  let markets := match markets filters with Some l => l | None => [] end in
  ("WHERE Status__c != 'Sold'"
   ++ (if Nat.ltb 0 (List.length dealTypes)
       then " AND Deal_Type__c IN (" ++ quoted dealTypes ++ ")" else "")
   ++ (if Nat.ltb 0 (List.length markets)
       then " AND Market__c IN (" ++ quoted markets ++ ")" else "")
   ++ (if opt_truthy (accessTier filters)
       then " AND Access_Tier__c = '" ++ str_or (accessTier filters) "" ++ "'"
       else "")
   ++ match isOffMarket filters with
      | Some true => " AND Is_Off_Market__c = true"
      | Some false => " AND Is_Off_Market__c = false"
      | None => ""
      end)%string.

(** The text of the query of [queryTransactions]. *)
Definition query_of (B : Builtins) (filters : Filters) : string :=
  let whereClause := whereClause_of filters in
  let limit := match limit filters with Some n => n | None => of_Z 20 end in
  let offset := match offset filters with Some n => n | None => of_Z 0 end in
  ("
      SELECT
        Id, Name, Description__c, Street_Address__c, City__c, State__c,
        Zip_Code__c, Parish__c, Bedrooms__c, Bathrooms__c, Square_Feet__c,
        Lot_Size__c, Year_Built__c, Property_Type__c, Deal_Type__c, Market__c,
        List_Price__c, Purchase_Price__c, Status__c, Access_Tier__c,
        Is_Off_Market__c, ARV__c, Rehab_Estimate__c, Spread__c, ROI__c,
        Gross_Yield__c, Cap_Rate__c, Monthly_Rent__c, CreatedDate,
        LastModifiedDate, OwnerId, Tags__c, Notes__c, Showing_Instructions__c
      FROM Transaction__c
      " ++ whereClause ++ "
      ORDER BY CreatedDate DESC
      LIMIT " ++ numberToString B limit ++ "
      OFFSET " ++ numberToString B offset ++ "
    ")%string.

Definition not_configured : string :=
  "Salesforce credentials not configured. Please set SALESFORCE_CLIENT_ID, SALESFORCE_CLIENT_SECRET, SALESFORCE_USERNAME, and SALESFORCE_PASSWORD environment variables.".

Section Methods.

Variable net : Net.

(** [Date.now()]. *)
Definition now : C Z :=
  fun s => (Ok (date_now net (clock_reads s)),
            {| client := client s; clock_reads := S (clock_reads s);
               sent := sent s |}).

(** [private async authenticate()]: the [catch] logs and throws again. *)
Definition authenticate : C unit :=
  try_catch
    (c <- this ;;
     let request :=
       PostToken (clientId c) (clientSecret c) (username c)
         (password c ++ securityToken c) in
     send request ;;
     match token_answer net request with
     | Rejects e => throw e
     | NotOk error =>
         throw (JsError ("Salesforce authentication failed: " ++ error))
     | NoJson e => throw e
     | Json authData =>
         t <- now ;;
         store (access_token authData) (instance_url authData) (t + 5400000)
     end)
    (fun error => throw error).

(** [private async ensureAuthenticated()]. *)
Definition ensureAuthenticated : C unit :=
  c <- this ;;
  if negb (str_truthy (clientId c)) || negb (str_truthy (clientSecret c))
     || negb (str_truthy (username c)) || negb (str_truthy (password c))
  then throw (JsError not_configured)
  else if negb (opt_truthy (accessToken c)) then authenticate
  else
    t <- now ;;
    if Z.geb t (tokenExpiry c) then authenticate else ret tt.

(** [private async makeRequest<T>(endpoint, options)], for the options the
    methods below pass; [answer] is what the network answers of type [T]. *)
Definition makeRequest {T} (answer : Request -> Fetched T)
    (endpoint : string) (method : Method)
    (body : option Crm.SalesforceLeadPayload) : C T :=
  ensureAuthenticated ;;
  c <- this ;;
  let url :=
    (show (instanceUrl c) ++ "/services/data/v58.0" ++ endpoint)%string in
  let request := Api method url ("Bearer " ++ show (accessToken c)) body in
  send request ;;
  match answer request with
  | Rejects e => throw e
  | NotOk error => throw (JsError ("Salesforce API error: " ++ error))
  | NoJson e => throw e
  | Json a => ret a
  end.

(** [async getTransaction(id: string)]. *)
Definition getTransaction (id : string) : C Types.SalesforceTransaction :=
  let endpoint := ("/sobjects/Transaction__c/" ++ id)%string in
  makeRequest (transaction_answer net) endpoint GET None.

(** [async createLead(leadData)]. *)
Definition createLead (leadData : Crm.SalesforceLeadPayload)
  : C Crm.LeadResponse :=
  let endpoint := "/sobjects/Lead/" in
  makeRequest (lead_answer net) endpoint POST (Some leadData).

(** [async queryTransactions(filters)]. *)
Definition queryTransactions (B : Builtins) (filters : Filters)
  : C Crm.QueryData :=
  let query := query_of B filters in
  makeRequest (query_answer net)
    ("/query/?q=" ++ encodeURIComponent B query)%string GET None.

End Methods.

End SalesforceClient.

(** ** [lib/cloudinary.ts]: [CloudinaryClient]

    The image list of the detail endpoint.  Widths, heights and a numeric
    quality are whole numbers here, printed in decimal. *)

Module CloudinaryClient.

Inductive Quality : Type :=
| quality_auto
| quality_number (n : nat).

Definition show_quality (q : Quality) : string :=
  match q with
  | quality_auto => "auto"
  | quality_number n => show_nat n
  end.

(** The [options] of [generateImageUrl]; [None] is a missing entry. *)
Record Options : Type := {
  width : option nat;
  height : option nat;
  crop : option string;
  quality : option Quality;
  format : option string;
  gravity : option string
}.

(** A number that is there and not 0. *)
Definition size_truthy (n : option nat) : bool :=
  match n with
  | Some (S _) => true
  | _ => false
  end.

Definition default {A} (v : option A) (d : A) : A :=
  match v with
  | Some a => a
  | None => d
  end.

(** [generateImageUrl(publicId, options)], for the cloud [cloudName]. *)
Definition generateImageUrl (cloudName publicId : string) (options : Options)
  : string :=
  let crop := default (crop options) "fill" in
  let quality := default (quality options) quality_auto in
  let format := default (format options) "auto" in
  let gravity := default (gravity options) "center" in
  let transformations :=
    [("q_" ++ show_quality quality)%string; ("f_" ++ format)%string] in
  let transformations :=
    if size_truthy (width options) || size_truthy (height options) then
      let dimensions :=
        join ","
          ((if size_truthy (width options)
            then [("w_" ++ show_nat (default (width options) 0))%string]
            else [])
           ++ (if size_truthy (height options)
               then [("h_" ++ show_nat (default (height options) 0))%string]
               else []))%list in
      (transformations ++ [("c_" ++ crop)%string] ++ [dimensions]
       ++ (if crop =? "fill" then [("g_" ++ gravity)%string] else []))%list
    else transformations in
  let transformStr := join "," transformations in
  ("https://res.cloudinary.com/" ++ cloudName ++ "/image/upload/"
   ++ transformStr ++ "/" ++ publicId)%string.

(** An entry of [data.resources]. *)
Record Resource : Type := {
  public_id : string
}.

(** What the [fetch] of the image list and the reading of its response
    yield: a rejection, a response that is not [ok], a body that is no JSON,
    or a body with its [resources], if it has a list of them. *)
Inductive ImageList : Type :=
| ListRejects
| ListNotOk
| ListNoJson
| ListJson (resources : option (list Resource)).

(** [resources.map((resource, index) => ...)], from [index] on. *)
Fixpoint images_from (cloudName propertyId : string) (index : nat)
    (resources : list Resource) : list Types.PropertyImage :=
  match resources with
  | [] => []
  | resource :: rest =>
      {| Types.img_id := public_id resource;
         Types.url :=
           generateImageUrl cloudName (public_id resource)
             {| width := Some 800; height := Some 600; crop := None;
                quality := None; format := None; gravity := None |};
         Types.altText :=
           Some ("Property " ++ propertyId ++ " - Image "
                 ++ show_nat (index + 1))%string;
         Types.order := index + 1 |}
      :: images_from cloudName propertyId (S index) rest
  end.

(** [async getPropertyImages(propertyId)], given what the network answers. *)
Definition getPropertyImages (cloudName : string) (answer : ImageList)
    (propertyId : string) : list Types.PropertyImage :=
  match answer with
  | ListRejects => []
  | ListNotOk => []
  | ListNoJson => []
  | ListJson (Some resources) => images_from cloudName propertyId 0 resources
  | ListJson None => []
  end.

End CloudinaryClient.

(** ** [lib/sync-salesforce.ts]: [testConnection], and [GET] of
    [api/sync/salesforce] *)

Module SyncProbe.

Record ConnectionTest : Type := {
  success : bool;
  message : string
}.

(** [async testConnection()]; [answer] is what Salesforce would answer to
    the test query. *)
Definition testConnection (answer : Result Crm.QueryResult)
  : M ConnectionTest :=
  try_catch
    (SalesforceSync.authenticateService ;;
     result <- client_call "this.salesforceClient" "query"
                 (call SalesforceQuery ;; lift_result answer) ;;
     ret {| success := true;
            message :=
              ("Connected successfully. Found "
               ++ show_nat (Crm.totalSize result)
               ++ " property records.")%string |})
    (fun error =>
       ret {| success := false;
              message := match error with
                         | JsError m => m
                         | Thrown _ => "Unknown connection error"
                         end |}).

Inductive Answer : Type :=
| Running (salesforceConnection : ConnectionTest) (timestamp : string)
| ProbeError (error : string).

(** [export async function GET(request)]. *)
Definition GET (answer : Result Crm.QueryResult) : M (Response Answer) :=
  try_catch
    (connectionTest <- testConnection answer ;;
     now <- ask js_now ;;
     ret (json (Running connectionTest now) 200))
    (fun error => ret (json (ProbeError (message_of error)) 500)).

End SyncProbe.

(** ** The Salesforce OAuth handlers

    Three handlers start the web server flow and three receive its
    callback: [GET] of [api/auth/salesforce/route.ts] with the callback
    kept beside it, the start with PKCE kept beside the Clerk webhook and
    the callback of [api/auth/salesforce/callback/route.ts], and the start
    and the callback of an earlier draft.  The random texts, the digest and
    the URL parser are the platform's work, taken as given; the JSON of a
    token answer is taken to be an object. *)

Module SalesforceOAuth.

(** [process.env], as far as these handlers read it. *)
Record Env : Type := {
  NODE_ENV : option string;
  SALESFORCE_CLIENT_ID : option string;
  SALESFORCE_CLIENT_SECRET : option string;
  NEXT_PUBLIC_APP_URL : option string
}.

Record Platform : Type := {
  (** the [n]-th [Math.random().toString(36).substring(2, 15)] *)
  random36 : nat -> string;
  (** [generateCodeVerifier()] *)
  codeVerifier : string;
  (** [generateCodeChallenge(verifier)] *)
  codeChallenge : string -> string;
  (** [new URL(reference, request.url)] does not throw *)
  url_resolves : string -> bool
}.

(** The options of [cookies.set]; an option left out is [None]. *)
Record Cookie : Type := {
  cookie_name : string;
  cookie_value : option string;
  httpOnly : bool;
  secure : bool;
  sameSite : option string;
  (** in seconds *)
  maxAge : Z;
  path : option string
}.

Inductive CookieChange : Type :=
| SetCookie (c : Cookie)
| DeleteCookie (name : string).

(** Where a redirect leads: a URL with its query parameters, in order and
    not yet encoded, or a reference resolved against the URL of the
    request. *)
Inductive Location : Type :=
| Absolute (base : string) (params : list (string * string))
| Relative (reference : string).

Inductive Answer : Type :=
| Redirect (location : Location) (cookies : list CookieChange)
| InitFailed.

(** [NextResponse.redirect(url)]: the status is 307. *)
Definition redirect (location : Location) (cookies : list CookieChange)
  : Response Answer :=
  json (Redirect location cookies) 307.

(** A value of [process.env] put into a form or a query: [undefined] is
    written out. *)
Definition written (v : option string) : string :=
  match v with
  | Some s => s
  | None => "undefined"
  end.

Definition isProduction (env : Env) : bool :=
  match NODE_ENV env with
  | Some v => v =? "production"
  | None => false
  end.

Definition callback_of (env : Env) : string :=
  if isProduction env
  then "https://cedar-property-listings.vercel.app/api/auth/salesforce/callback"
  else "http://localhost:3000/api/auth/salesforce/callback".

Definition ngrok_callback : string :=
  "https://216a-76-72-80-29.ngrok-free.app/api/auth/salesforce/callback".

(** *** [api/auth/salesforce/route.ts]: [GET] *)

(** [generateRandomState()]. *)
Definition generateRandomState (P : Platform) : string :=
  (random36 P 0 ++ random36 P 1)%string.

(** [getSalesforceAuthUrl()]. *)
Definition getSalesforceAuthUrl (env : Env) (P : Platform) : Location :=
  let clientId := SALESFORCE_CLIENT_ID env in
  let redirectUri := callback_of env in
  let baseUrl := "https://cedarproperties.my.salesforce.com/services/oauth2/authorize" in
  Absolute baseUrl
    [("response_type", "code");
     ("client_id", str_or clientId "");
     ("redirect_uri", redirectUri);
     ("scope", "api refresh_token");
     ("state", generateRandomState P)].

(** [export async function GET(request)]; [redirect_param] is
    [searchParams.get('redirect')]. *)
Definition authorize (env : Env) (P : Platform) (redirect_param : option string)
  : M (Response Answer) :=
  let redirectUri := str_or redirect_param "/listings" in
  ret (redirect (getSalesforceAuthUrl env P)
         [SetCookie {| cookie_name := "sf_redirect_uri";
                       cookie_value := Some redirectUri;
                       httpOnly := true; secure := isProduction env;
                       sameSite := Some "lax"; maxAge := 600%Z;
                       path := None |}]).

(** *** The start with PKCE: [GET] *)

(** [getSalesforceAuthUrl(codeChallenge)]. *)
Definition getSalesforceAuthUrl_pkce (env : Env) (P : Platform)
    (challenge : string) : Location :=
  let clientId := SALESFORCE_CLIENT_ID env in
  let redirectUri := callback_of env in
  let baseUrl := "https://cedarproperties.my.salesforce.com/services/oauth2/authorize" in
  Absolute baseUrl
    [("response_type", "code");
     ("client_id", str_or clientId "");
     ("redirect_uri", redirectUri);
     ("scope", "full refresh_token");
     ("state", generateRandomState P);
     ("code_challenge", challenge);
     ("code_challenge_method", "S256")].

Definition authorize_pkce (env : Env) (P : Platform)
    (redirect_param : option string) : M (Response Answer) :=
  let redirectUri := str_or redirect_param "/listings" in
  let verifier := codeVerifier P in
  let challenge := codeChallenge P verifier in
  let authUrl := getSalesforceAuthUrl_pkce env P challenge in
  ret (redirect authUrl
         [SetCookie {| cookie_name := "sf_redirect_uri";
                       cookie_value := Some redirectUri;
                       httpOnly := true; secure := isProduction env;
                       sameSite := Some "lax"; maxAge := 600%Z;
                       path := None |};
          SetCookie {| cookie_name := "sf_code_verifier";
                       cookie_value := Some verifier;
                       httpOnly := true; secure := isProduction env;
                       sameSite := Some "lax"; maxAge := 600%Z;
                       path := None |}]).

(** *** The start of the earlier draft: [GET] *)

Definition initiate (env : Env) (P : Platform) : M (Response Answer) :=
  try_catch
    (let callbackUrl := ngrok_callback in
     let verifier := codeVerifier P in
     let challenge := codeChallenge P verifier in
     let state := random36 P 0 in
     let authUrl :=
       Absolute "https://login.salesforce.com/services/oauth2/authorize"
         [("response_type", "code");
          ("client_id", written (SALESFORCE_CLIENT_ID env));
          ("redirect_uri", callbackUrl);
          ("scope", "full refresh_token");
          ("code_challenge", challenge);
          ("code_challenge_method", "S256");
          ("state", state)] in
     ret (redirect authUrl
            [SetCookie {| cookie_name := "pkce_verifier";
                          cookie_value := Some verifier;
                          httpOnly := true; secure := true;
                          sameSite := None; maxAge := 600%Z;
                          path := None |}]))
    (fun error => ret (json InitFailed 500)).

(** *** The callbacks *)

(** What the callback is given: the [code] and [error] parameters of its
    URL and the cookies it reads. *)
Record Callback : Type := {
  code : option string;
  error : option string;
  sf_code_verifier : option string;
  sf_redirect_uri : option string;
  pkce_verifier : option string
}.

(** The JSON of the token endpoint, the fields the callbacks read. *)
Record TokenData : Type := {
  access_token : option string;
  refresh_token : option string;
  instance_url : option string
}.

(** [exchangeCodeForToken(code, codeVerifier)]. *)
Definition exchangeCodeForToken (env : Env)
    (token : SalesforceClient.Fetched TokenData) (code codeVerifier : string)
  : M TokenData :=
  let clientId := SALESFORCE_CLIENT_ID env in
  let clientSecret := SALESFORCE_CLIENT_SECRET env in
  let redirectUri := callback_of env in
  let tokenUrl := "https://cedarproperties.my.salesforce.com/services/oauth2/token" in
  call (SalesforceFetch tokenUrl
          [("grant_type", "authorization_code");
           ("client_id", str_or clientId "");
           ("client_secret", str_or clientSecret "");
           ("redirect_uri", redirectUri);
           ("code", code);
           ("code_verifier", codeVerifier)]) ;;
  match token with
  | SalesforceClient.Rejects e => throw e
  | SalesforceClient.NotOk error =>
      throw (JsError ("Token exchange failed: " ++ error))
  | SalesforceClient.NoJson e => throw e
  | SalesforceClient.Json tokenResponse => ret tokenResponse
  end.

(** The callback kept in [api/auth/salesforce/route.ts]: [GET]. *)
Definition callback (env : Env) (P : Platform)
    (token : SalesforceClient.Fetched TokenData) (request : Callback)
  : M (Response Answer) :=
  if opt_truthy (error request) then
    ret (redirect (Relative "/listings?error=auth_failed") [])
  else
    match str_or_undefined (code request) with
    | None => ret (redirect (Relative "/listings?error=no_code") [])
    | Some code =>
        try_catch
          (match str_or_undefined (sf_code_verifier request) with
           | None => ret (redirect (Relative "/listings?error=no_verifier") [])
           | Some codeVerifier =>
               tokenResponse <- exchangeCodeForToken env token code codeVerifier ;;
               let redirectUri := str_or (sf_redirect_uri request) "/listings" in
               if url_resolves P redirectUri then
                 let tokenCookie name value age :=
                   SetCookie {| cookie_name := name; cookie_value := value;
                                httpOnly := true; secure := isProduction env;
                                sameSite := Some "lax"; maxAge := age;
                                path := None |} in
                 ret (redirect (Relative redirectUri)
                        [tokenCookie "sf_access_token"
                           (access_token tokenResponse) 7200%Z;
                         tokenCookie "sf_refresh_token"
                           (refresh_token tokenResponse) 2592000%Z;
                         tokenCookie "sf_instance_url"
                           (instance_url tokenResponse) 2592000%Z;
                         DeleteCookie "sf_redirect_uri";
                         DeleteCookie "sf_code_verifier"])
               else throw (JsError "Invalid URL")
           end)
          (fun error =>
             ret (redirect (Relative "/listings?error=token_exchange_failed") []))
    end.

(** [tokenData.access_token.substring(0, 20)], for the log: it throws on a
    missing token. *)
Definition log_token (tokenData : TokenData) : M unit :=
  match access_token tokenData with
  | Some _ => ret tt
  | None =>
      throw (JsError "Cannot read properties of undefined (reading 'substring')")
  end.

(** [api/auth/salesforce/callback/route.ts]: [GET]. *)
Definition callback_pkce (env : Env)
    (token : SalesforceClient.Fetched TokenData) (request : Callback)
  : M (Response Answer) :=
  if opt_truthy (error request) then
    ret (redirect (Relative "/listings?error=salesforce_auth_failed") [])
  else
    match str_or_undefined (code request) with
    | None => ret (redirect (Relative "/listings?error=no_auth_code") [])
    | Some code =>
        try_catch
          (match str_or_undefined (pkce_verifier request) with
           | None =>
               ret (redirect (Relative "/listings?error=missing_verifier") [])
           | Some codeVerifier =>
               let tokenUrl := "https://login.salesforce.com/services/oauth2/token" in
               let callbackUrl := ngrok_callback in
               call (SalesforceFetch tokenUrl
                       [("grant_type", "authorization_code");
                        ("client_id", written (SALESFORCE_CLIENT_ID env));
                        ("client_secret", written (SALESFORCE_CLIENT_SECRET env));
                        ("redirect_uri", callbackUrl);
                        ("code", code);
                        ("code_verifier", codeVerifier)]) ;;
               match token with
               | SalesforceClient.Rejects e => throw e
               | SalesforceClient.NotOk errorText =>
                   ret (redirect
                          (Relative "/listings?error=token_exchange_failed") [])
               | SalesforceClient.NoJson e => throw e
               | SalesforceClient.Json tokenData =>
                   log_token tokenData ;;
                   let tokenCookie name value age :=
                     SetCookie {| cookie_name := name; cookie_value := value;
                                  httpOnly := true; secure := true;
                                  sameSite := None; maxAge := age;
                                  path := Some "/" |} in
                   ret (redirect
                          (Relative "/listings?salesforce_connected=true")
                          ([tokenCookie "sf_access_token"
                              (access_token tokenData) 7200%Z;
                            tokenCookie "sf_instance_url"
                              (instance_url tokenData) 7200%Z]
                           ++ if opt_truthy (refresh_token tokenData)
                              then [tokenCookie "sf_refresh_token"
                                      (refresh_token tokenData) 2592000%Z]
                              else []))
               end
           end)
          (fun error =>
             ret (redirect (Relative "/listings?error=auth_server_error") []))
    end.

(** The callback of the earlier draft: [GET]. *)
Definition callback_plain (env : Env)
    (token : SalesforceClient.Fetched TokenData) (request : Callback)
  : M (Response Answer) :=
  if opt_truthy (error request) then
    ret (redirect (Relative "/listings?error=salesforce_auth_failed") [])
  else
    match str_or_undefined (code request) with
    | None => ret (redirect (Relative "/listings?error=no_auth_code") [])
    | Some code =>
        try_catch
          (let tokenUrl := "https://login.salesforce.com/services/oauth2/token" in
           let callbackUrl :=
             (written (NEXT_PUBLIC_APP_URL env) ++ "/api/salesforce/auth")%string in
           call (SalesforceFetch tokenUrl
                   [("grant_type", "authorization_code");
                    ("client_id", written (SALESFORCE_CLIENT_ID env));
                    ("client_secret", written (SALESFORCE_CLIENT_SECRET env));
                    ("redirect_uri", callbackUrl);
                    ("code", code)]) ;;
           match token with
           | SalesforceClient.Rejects e => throw e
           | SalesforceClient.NotOk errorText =>
               ret (redirect
                      (Relative "/listings?error=token_exchange_failed") [])
           | SalesforceClient.NoJson e => throw e
           | SalesforceClient.Json tokenData =>
               log_token tokenData ;;
               ret (redirect
                      (Relative "/listings?salesforce_connected=true") [])
           end)
          (fun error =>
             ret (redirect (Relative "/listings?error=auth_server_error") []))
    end.

End SalesforceOAuth.

(** ** The explorers of the Salesforce schema, and the two static [GET]s *)

Module SalesforceExplorer.

(** The cookies [sf_access_token] and [sf_instance_url], and
    [searchParams.get('object')]. *)
Record Request : Type := {
  sf_access_token : option string;
  sf_instance_url : option string;
  object_param : option string
}.

(** An entry of [sobjects], the fields the handler reads. *)
Record Sobject : Type := {
  name : string;
  label : string;
  custom : bool;
  createable : bool;
  queryable : bool
}.

Record ObjectsData : Type := {
  sobjects : option (list Sobject)
}.

(** An entry of [fields] of a describe. *)
Record Field : Type := {
  field_name : string;
  field_label : string;
  field_type : string;
  length : JsNumber;
  nillable : bool;
  field_custom : bool;
  picklistValues : option (list string)
}.

Record DescribeData : Type := {
  describe_name : string;
  describe_label : string;
  fields : option (list Field)
}.

(** A field as the handler reports it. *)
Record FieldInfo : Type := {
  info_name : string;
  info_label : string;
  info_type : string;
  info_length : JsNumber;
  required : bool;
  info_custom : bool;
  info_picklistValues : option (list string)
}.

Inductive Answer : Type :=
| NoTokens
| QueryFailed (error : string)
| Objects (totalObjects : nat) (relevantObjects : list Sobject)
| Fields (objectName objectLabel : string) (totalFields : nat)
    (relevantFields : list FieldInfo)
| Failed (error message : string).

Definition relevant (obj : Sobject) : bool :=
  let lower := toLowerCase (name obj) in
  includes lower "transaction" || includes lower "property"
  || includes lower "deal" || includes lower "listing"
  || includes lower "opportunity" || includes lower "account"
  || includes lower "contact" || includes lower "lead"
  || custom obj.

(** [api/salesforce/objects/route.ts]: [GET]. *)
Definition objects (answer : SalesforceClient.Fetched ObjectsData)
    (request : Request) : M (Response Answer) :=
  try_catch
    (match str_or_undefined (sf_access_token request),
           str_or_undefined (sf_instance_url request) with
     | Some accessToken, Some instanceUrl =>
         call (SalesforceFetch (instanceUrl ++ "/services/data/v58.0/sobjects/") []) ;;
         match answer with
         | SalesforceClient.Rejects e => throw e
         | SalesforceClient.NotOk errorText =>
             ret (json (QueryFailed ("Salesforce query failed: " ++ errorText)) 200)
         | SalesforceClient.NoJson e => throw e
         | SalesforceClient.Json objectsData =>
             match sobjects objectsData with
             | None =>
                 throw (JsError "Cannot read properties of undefined (reading 'filter')")
             | Some all =>
                 ret (json (Objects (List.length all) (filter relevant all)) 200)
             end
         end
     | _, _ => ret (json NoTokens 200)
     end)
    (fun error =>
       ret (json (Failed "Failed to query Salesforce objects" (message_of error))
              500)).

Definition relevant_field (field : Field) : bool :=
  negb (field_type field =? "reference")
  || includes (toLowerCase (field_name field)) "owner"
  || includes (toLowerCase (field_name field)) "account"
  || includes (toLowerCase (field_name field)) "contact".

Definition field_info (field : Field) : FieldInfo :=
  {| info_name := field_name field;
     info_label := field_label field;
     info_type := field_type field;
     info_length := length field;
     required := negb (nillable field);
     info_custom := field_custom field;
     info_picklistValues := picklistValues field |}.

(** The explorer of the fields of an object: [GET]. *)
Definition describe (answer : SalesforceClient.Fetched DescribeData)
    (request : Request) : M (Response Answer) :=
  try_catch
    (let objectName := str_or (object_param request) "Left_Main__Property__c" in
     match str_or_undefined (sf_access_token request),
           str_or_undefined (sf_instance_url request) with
     | Some accessToken, Some instanceUrl =>
         call (SalesforceFetch
                 (instanceUrl ++ "/services/data/v58.0/sobjects/" ++ objectName
                  ++ "/describe/") []) ;;
         match answer with
         | SalesforceClient.Rejects e => throw e
         | SalesforceClient.NotOk errorText =>
             ret (json (QueryFailed ("Salesforce query failed: " ++ errorText)) 200)
         | SalesforceClient.NoJson e => throw e
         | SalesforceClient.Json fieldsData =>
             match fields fieldsData with
             | None =>
                 throw (JsError "Cannot read properties of undefined (reading 'filter')")
             | Some all =>
                 ret (json (Fields (describe_name fieldsData)
                              (describe_label fieldsData) (List.length all)
                              (map field_info (filter relevant_field all)))
                        200)
             end
         end
     | _, _ => ret (json NoTokens 200)
     end)
    (fun error =>
       ret (json (Failed "Failed to query Salesforce fields" (message_of error))
              500)).

End SalesforceExplorer.

Module StaticRoutes.

(** The body of [GET] of [api/properties-db/upsert]. *)
Record ApiInfo : Type := {
  endpoint : string;
  method : string;
  description : string;
  authentication : string;
  single_property : list (string * string);
  multiple_properties : string
}.

(** [api/properties-db/upsert/route.ts]: [GET]. *)
Definition upsert_info : M (Response ApiInfo) :=
  ret (json {| endpoint := "/api/properties-db/upsert";
               method := "POST";
               description := "Upsert properties from external systems like n8n";
               authentication := "Bearer token required (SYNC_API_KEY)";
               single_property :=
                 [("salesforce_id", "string (required)");
                  ("name", "string"); ("address", "string");
                  ("city", "string"); ("state", "string");
                  ("zip_code", "string"); ("price", "number");
                  ("bedrooms", "number"); ("bathrooms", "number");
                  ("square_footage", "number"); ("lot_size", "number");
                  ("year_built", "number"); ("property_type", "string");
                  ("description", "string"); ("status", "string");
                  ("images", "array or comma-separated string");
                  ("tier", "public|registered|vip (optional, auto-assigned by price)")];
               multiple_properties := "Array of property objects" |}
         200).

(** [api/webhooks/clerk/route.ts]: [GET], which answers
    [{ error: 'Method not allowed' }]. *)
Definition webhook_get : M (Response string) :=
  ret (json "Method not allowed" 405).

End StaticRoutes.

(** ** The draft of the listing endpoint: [GET]

    It asks the client of [lib/salesforce.ts] first, serves demo
    properties to a request without the Salesforce cookies, and queries
    Salesforce itself otherwise.  The properties are objects of
    [interface Property]; a decimal literal stands for the decimal it
    spells.  [getMarketFromCity] and [getParishFromCity] are those of
    [api/properties/route.ts], word for word. *)

Module PropertiesDraftRoute.

Record Request : Type := {
  (** [searchParams.get] of [dealTypes], [markets], [limit], [offset] *)
  dealTypes_param : option string;
  markets_param : option string;
  limit_param : option string;
  offset_param : option string;
  (** the cookies *)
  sf_access_token : option string;
  sf_refresh_token : option string;
  sf_instance_url : option string
}.

(** The four bodies with [success: true] differ in their note: [Live] says
    ['Live data from Salesforce'], [Demo] says ['Demo properties - Connect
    Salesforce for live data'], [Queried] carries the cursor, and
    [Unavailable] is the empty listing with the error ['Unable to fetch
    properties from Salesforce']. *)
Inductive Answer : Type :=
| Live (properties : list Types.Property) (totalCount : nat) (hasMore : bool)
| Demo (properties : list Types.Property) (totalCount : nat) (hasMore : bool)
| Queried (properties : list Types.Property) (totalCount : nat)
    (hasMore : bool) (nextCursor : option string)
| Unavailable
| Failure (message : string).

(** [d ? new Date(d).toISOString().split('T')[0]
       : new Date().toISOString().split('T')[0]]; [None] when it throws. *)
Definition date_of (B : Builtins) (now : string) (d : option string)
  : option string :=
  match d with
  | Some s =>
      if str_truthy s
      then option_map PropertiesRoute.day_of (dateToISOString B s)
      else Some (PropertiesRoute.day_of now)
  | None => Some (PropertiesRoute.day_of now)
  end.

Definition photo (id url : string) : Types.PropertyImage :=
  {| Types.img_id := id; Types.url := url;
     Types.altText := Some "Property photo"; Types.order := 1 |}.

Definition status_note (record : Crm.TransactionRecord) : string :=
  if opt_truthy (Crm.Left_Main__Dispo_Status__c record)
  then ("Status: " ++ str_or (Crm.Left_Main__Dispo_Status__c record) "")%string
  else "".

(** [transformSalesforceRecord(record)]. *)
Definition transformSalesforceRecord (B : Builtins) (now : string)
    (record : Crm.TransactionRecord) : Result Types.Property :=
  let dealType := "Wholesale" in
  let street := str_or (Crm.Left_Main__Street_Address__c record) "Address Not Available" in
  let city := str_or (Crm.Left_Main__City__c record) "City Not Available" in
  let state := str_or (Crm.Left_Main__State__c record) "LA" in
  let zipCode := str_or (Crm.Left_Main__Zipcode__c record) "" in
  match date_of B now (Crm.tr_CreatedDate record),
        date_of B now (Crm.tr_LastModifiedDate record) with
  | Some created, Some updated =>
      Ok {| Types.id := Crm.tr_Id record;
            Types.title := str_or (Crm.tr_Name record) (street ++ ", " ++ city);
            Types.description :=
              "Investment property in " ++ city ++ ". " ++ status_note record;
            Types.address :=
              {| Types.street := street; Types.city := city;
                 Types.state := state; Types.zipCode := zipCode;
                 Types.parish := PropertiesRoute.getParishFromCity city |};
            Types.bedrooms := of_Z 3;
            Types.bathrooms := of_Z 2;
            Types.squareFeet := of_Z 1200;
            Types.lotSize := Some (JsFin (1 # 4));
            Types.yearBuilt := Some (of_Z 1990);
            Types.propertyType := "Single Family";
            Types.dealType := dealType;
            Types.market := PropertiesRoute.getMarketFromCity city;
            Types.listPrice := of_Z 0;
            Types.purchasePrice := None;
            Types.status := "Available";
            Types.accessTier := "registered";
            Types.isOffMarket :=
              match Crm.Left_Main__Dispo_Status__c record with
              | Some s => s =? "Closed/Won"
              | None => false
              end;
            Types.images :=
              [photo (Crm.tr_Id record ++ "-1")
                 "https://images.unsplash.com/photo-1568605114967-8130f3a36994?w=800"];
            Types.thumbnailUrl :=
              "https://images.unsplash.com/photo-1568605114967-8130f3a36994?w=400";
            Types.flipMetrics :=
              if dealType =? "Fix & Flip" then
                Some {| Types.arv := of_Z 95000;
                        Types.rehabEstimate := of_Z 15000;
                        Types.spread := of_Z 5000;
                        Types.roi := JsFin (77 # 5) |}
              else None;
            Types.rentalMetrics :=
              if dealType =? "Rental" then
                Some {| Types.grossYield := JsFin (17 # 2);
                        Types.capRate := JsFin (36 # 5);
                        Types.monthlyRent := Some (of_Z 1200) |}
              else None;
            Types.createdDate := created;
            Types.updatedDate := updated;
            Types.ownerId := str_or (Crm.tr_OwnerId record) "unknown";
            Types.tags := None;
            Types.notes := None;
            Types.showingInstructions := None |}
  | _, _ => Throw (JsError "Invalid time value")
  end.

(** The object the handler builds of a record the client answered. *)
Definition liveProperty (B : Builtins) (now : string)
    (record : Crm.TransactionRecord) : Result Types.Property :=
  match date_of B now (Crm.tr_CreatedDate record),
        date_of B now (Crm.tr_LastModifiedDate record) with
  | Some created, Some updated =>
      Ok {| Types.id := Crm.tr_Id record;
            Types.title :=
              str_or (Crm.tr_Name record) ("Property " ++ Crm.tr_Id record);
            Types.description :=
              "Real estate investment opportunity. " ++ status_note record;
            Types.address :=
              {| Types.street :=
                   str_or (Crm.Left_Main__Street_Address__c record)
                     "Address Not Available";
                 Types.city := str_or (Crm.Left_Main__City__c record) "Lafayette";
                 Types.state := str_or (Crm.Left_Main__State__c record) "LA";
                 Types.zipCode := str_or (Crm.Left_Main__Zipcode__c record) "";
                 Types.parish := "Lafayette" |};
            Types.bedrooms := of_Z 3;
            Types.bathrooms := of_Z 2;
            Types.squareFeet := of_Z 1200;
            Types.lotSize := Some (JsFin (1 # 4));
            Types.yearBuilt := Some (of_Z 1990);
            Types.propertyType := "Single Family";
            Types.dealType := "Wholesale";
            Types.market := "lafayette";
            Types.listPrice := of_Z 75000;
            Types.purchasePrice := None;
            Types.status := "Available";
            Types.accessTier := "public";
            Types.isOffMarket := false;
            Types.images :=
              [photo (Crm.tr_Id record ++ "-1")
                 "https://images.unsplash.com/photo-1568605114967-8130f3a36994?w=800"];
            Types.thumbnailUrl :=
              "https://images.unsplash.com/photo-1568605114967-8130f3a36994?w=400";
            Types.flipMetrics := None;
            Types.rentalMetrics := None;
            Types.createdDate := created;
            Types.updatedDate := updated;
            Types.ownerId := str_or (Crm.tr_OwnerId record) "cedar-sells";
            Types.tags := None;
            Types.notes := None;
            Types.showingInstructions := None |}
  | _, _ => Throw (JsError "Invalid time value")
  end.

(** [records.map(f)]: the first throw aborts. *)
Fixpoint mapAll {A B} (f : A -> Result B) (records : list A)
  : Result (list B) :=
  match records with
  | [] => Ok []
  | r :: rest =>
      match f r with
      | Throw e => Throw e
      | Ok p =>
          match mapAll f rest with
          | Throw e => Throw e
          | Ok ps => Ok (p :: ps)
          end
      end
  end.

(** A demo property: what the three literals share is filled in. *)
Definition sampleProperty (today id title dealType market : string)
    (listPrice : Z) (street city zipCode parish : string)
    (bedrooms bathrooms squareFeet : Z) (lotSize : Q) (yearBuilt : Z)
    (description image : string)
    (flipMetrics : option Types.FlipMetrics)
    (rentalMetrics : option Types.RentalMetrics) : Types.Property :=
  {| Types.id := id; Types.title := title;
     Types.description := description;
     Types.address :=
       {| Types.street := street; Types.city := city; Types.state := "LA";
          Types.zipCode := zipCode; Types.parish := parish |};
     Types.bedrooms := of_Z bedrooms;
     Types.bathrooms := of_Z bathrooms;
     Types.squareFeet := of_Z squareFeet;
     Types.lotSize := Some (JsFin lotSize);
     Types.yearBuilt := Some (of_Z yearBuilt);
     Types.propertyType := "Single Family";
     Types.dealType := dealType;
     Types.market := market;
     Types.listPrice := of_Z listPrice;
     Types.purchasePrice := None;
     Types.status := "Available";
     Types.accessTier := "public";
     Types.isOffMarket := false;
     Types.images :=
       [photo (id ++ "-1")
          ("https://images.unsplash.com/photo-" ++ image ++ "?w=800")];
     Types.thumbnailUrl :=
       ("https://images.unsplash.com/photo-" ++ image ++ "?w=400")%string;
     Types.flipMetrics := flipMetrics;
     Types.rentalMetrics := rentalMetrics;
     Types.createdDate := today;
     Types.updatedDate := today;
     Types.ownerId := "cedar-sells";
     Types.tags := None;
     Types.notes := None;
     Types.showingInstructions := None |}.

Definition sampleProperties (now : string) : list Types.Property :=
  let today := PropertiesRoute.day_of now in
  [sampleProperty today "sample-1" "123 Oak Street, Lafayette" "Fix & Flip"
     "lafayette" 75000 "123 Oak Street" "Lafayette" "70501" "Lafayette"
     3 2 1200 (1 # 4) 1990
     "Great investment property in desirable Lafayette neighborhood. Perfect for fix and flip opportunity."
     "1568605114967-8130f3a36994"
     (Some {| Types.arv := of_Z 95000; Types.rehabEstimate := of_Z 15000;
              Types.spread := of_Z 5000; Types.roi := JsFin (77 # 5) |})
     None;
   sampleProperty today "sample-2" "456 Pine Avenue, Baton Rouge" "Rental"
     "baton-rouge" 120000 "456 Pine Avenue" "Baton Rouge" "70802"
     "East Baton Rouge" 3 2 1400 (3 # 10) 2005
     "Excellent rental property in growing Baton Rouge area. Currently rented at market rate."
     "1570129477492-45c003edd2be"
     None
     (Some {| Types.grossYield := JsFin (17 # 2);
              Types.capRate := JsFin (36 # 5);
              Types.monthlyRent := Some (of_Z 1200) |});
   sampleProperty today "sample-3" "789 Cypress Lane, Lafayette" "Wholesale"
     "lafayette" 65000 "789 Cypress Lane" "Lafayette" "70503" "Lafayette"
     2 1 900 (1 # 5) 1985
     "Wholesale opportunity in Lafayette. Quick close available for cash buyers."
     "1560518883-ce09059eeffa"
     None None].

(** The demo properties a request is served. *)
Definition demo (now : string) (dealTypes markets : list string)
    (limit offset : JsNumber) : Response Answer :=
  let filteredProperties := sampleProperties now in
  let filteredProperties :=
    if Nat.ltb 0 (List.length dealTypes)
    then filter (fun prop => Schema.mem_string (Types.dealType prop) dealTypes)
           filteredProperties
    else filteredProperties in
  let filteredProperties :=
    if Nat.ltb 0 (List.length markets)
    then filter (fun prop => Schema.mem_string (Types.market prop) markets)
           filteredProperties
    else filteredProperties in
  json (Demo (slice offset (num_add offset limit) filteredProperties)
          (List.length filteredProperties)
          (num_lt (num_add offset limit)
             (of_Z (Z.of_nat (List.length filteredProperties)))))
    200.

(** [params?.split(',') || []]. *)
Definition list_param (v : option string) : list string :=
  match v with
  | Some s => split_comma s
  | None => []
  end.

(** The first [try] of the handler, through the client: the response it
    returns, or [None] when it falls through, with or without an error.
    [live] is what the call of [queryTransactions] yields. *)
Definition throughClient (live : Result Crm.QueryData) (B : Builtins)
    (now : string) (dealTypes markets : list string) (limit offset : JsNumber)
    (request : Request) : M (option (Response Answer)) :=
  try_catch
    ((if opt_truthy (sf_access_token request)
         && opt_truthy (sf_refresh_token request)
         && opt_truthy (sf_instance_url request)
      then client_call "salesforceClient" "setTokensFromCookies" (ret tt)
      else ret tt) ;;
     salesforceData <-
       client_call "salesforceClient" "queryTransactions"
         (call (SalesforceQueryTransactions dealTypes markets limit offset) ;;
          lift_result live) ;;
     match Crm.qd_records salesforceData with
     | Some (record :: rest) =>
         properties <- lift_result (mapAll (liveProperty B now)
                                      (record :: rest)) ;;
         ret (Some (json (Live properties (Crm.qd_totalSize salesforceData)
                            (negb (Crm.done salesforceData))) 200))
     | _ => ret None
     end)
    (fun salesforceError => ret None).

(** The second [try] of the handler: the query it sends itself. *)
Definition queried (B : Builtins) (now : string) (dealTypes : list string)
  : M (Response Answer) :=
  try_catch
    (salesforceData <- PropertiesRoute.querySalesforce ;;
     match Crm.qd_records salesforceData with
     | None =>
         throw (JsError "Cannot read properties of undefined (reading 'map')")
     | Some records =>
         properties <- lift_result
                         (mapAll (transformSalesforceRecord B now) records) ;;
         let properties :=
           if Nat.ltb 0 (List.length dealTypes)
           then filter (fun property =>
                          Schema.mem_string (Types.dealType property) dealTypes)
                  properties
           else properties in
         ret (json (Queried properties (List.length properties)
                      (negb (Crm.done salesforceData))
                      (option_map (fun url => last (split "/"%char url) "")
                         (Crm.nextRecordsUrl salesforceData)))
                200)
     end)
    (fun salesforceError => ret (json Unavailable 200)).

(** [export async function GET(request)]. *)
Definition GET (live : Result Crm.QueryData) (request : Request)
  : M (Response Answer) :=
  try_catch
    (B <- ask builtins ;;
     now <- ask js_now ;;
     let dealTypes := list_param (dealTypes_param request) in
     let markets := list_param (markets_param request) in
     let limit := parseInt B (JsStr (str_or (limit_param request) "20")) in
     let offset := parseInt B (JsStr (str_or (offset_param request) "0")) in
     served <- throughClient live B now dealTypes markets limit offset request ;;
     match served with
     | Some response => ret response
     | None =>
         if negb (opt_truthy (sf_access_token request))
            || negb (opt_truthy (sf_instance_url request))
         then ret (demo now dealTypes markets limit offset)
         else queried B now dealTypes
     end)
    (fun error => ret (json (Failure (message_of error)) 500)).

End PropertiesDraftRoute.

(** ** [lib/utils.ts]: the slug and the age of a property card

    [PropertyCard] links a listed property under the slug of its title and
    id, and tells how long ago it was listed.  Strings are sequences of
    code units below 256, as above. *)

Module Utils.

Definition is_hyphen (c : ascii) : bool := Ascii.eqb c "-"%char.

(** [[a-z0-9\s-]]. *)
Definition slug_char (c : ascii) : bool :=
  let n := nat_of_ascii c in
  (Nat.leb 97 n && Nat.leb n 122) || (Nat.leb 48 n && Nat.leb n 57)
  || is_space c || is_hyphen c.

(** [s.replace(/[^...]/g, '')]: the characters of the class are kept. *)
Fixpoint keep_chars (keep : ascii -> bool) (s : string) : string :=
  match s with
  | EmptyString => EmptyString
  | String c r => if keep c then String c (keep_chars keep r)
                  else keep_chars keep r
  end.

(** [s.replace(/p+/g, '-')]: every maximal run of characters of the class
    [p] becomes one hyphen; [in_run] tells that the run has begun. *)
Fixpoint runs_to_hyphen (p : ascii -> bool) (in_run : bool) (s : string)
  : string :=
  match s with
  | EmptyString => EmptyString
  | String c r =>
      if p c then
        if in_run then runs_to_hyphen p true r
        else String "-"%char (runs_to_hyphen p true r)
      else String c (runs_to_hyphen p false r)
  end.

(** The [slug] of [generatePropertySlug]. *)
Definition slug (title : string) : string :=
  trim (runs_to_hyphen is_hyphen false
          (runs_to_hyphen is_space false
             (keep_chars slug_char (toLowerCase title)))).

(** [export function generatePropertySlug(title, id)]. *)
Definition generatePropertySlug (title id : string) : string :=
  (slug title ++ "-" ++ id)%string.

(** [export function extractPropertyId(slug)]. *)
Definition extractPropertyId (slug : string) : string :=
  let parts := split "-"%char slug in
  List.last parts "".

(** [export function formatRelativeTime(dateString)], given the [days] that
    [daysSinceDate(dateString)] yields: a whole number, as the ceiling of
    an absolute value, or [NaN] ([None]) for a date that is none. *)
Definition formatRelativeTime (days : option nat) : string :=
  match days with
  | None => "NaN months ago"
  | Some days =>
      if Nat.eqb days 0 then "Today"
      else if Nat.eqb days 1 then "1 day ago"
      else if Nat.ltb days 7 then (show_nat days ++ " days ago")%string
      else if Nat.ltb days 14 then "1 week ago"
      else if Nat.ltb days 30 then (show_nat (days / 7) ++ " weeks ago")%string
      else if Nat.ltb days 60 then "1 month ago"
      else (show_nat (days / 30) ++ " months ago")%string
  end.

End Utils.

(** ** Vocabulary of the further statements *)


(** The columns of type [TEXT] and the list of images: what the database
    stores exactly as it is given. *)
Definition texts (c : Schema.Columns) :=
  (Schema.salesforce_id c, Schema.name c, Schema.address c, Schema.city c,
   Schema.state c, Schema.zip_code c, Schema.property_type c,
   Schema.description c, Schema.status c, Schema.images c, Schema.tier c,
   Schema.lead_source c, Schema.investment_path c, Schema.salesforce_status c).

(** A row holds the texts of a payload row. *)
Definition same_texts (c : Schema.Columns) (r : Schema.Row) : Prop :=
  texts (Schema.cols r) = texts c.


(** The value a computation returns, when it does not throw. *)
Definition value {A} (m : M A) (w : World) : option A :=
  match outcome m w with
  | Ok a => Some a
  | Throw _ => None
  end.

(** An entry of an image list read from a comma-separated text: not empty,
    without white space around it, without a comma. *)
Definition clean_entry (u : string) : Prop :=
  u <> "" /\ trim u = u /\ ~ In ","%char (list_ascii_of_string u).

(** The properties a request to the upsert endpoint posts: those of the
    array, or the one object. *)
Definition request_posted (request : UpsertRoute.Request)
  : option (list UpsertRoute.Input) :=
  match UpsertRoute.request_json request with
  | Some (UpsertRoute.Many props) => Some props
  | Some (UpsertRoute.Single prop) => Some [prop]
  | None => None
  end.

(** The world in which [auth()] answers [a], all else alike. *)
Definition with_clerk_auth (a : Result (option string)) (w : World) : World :=
  {| builtins := builtins w; SYNC_API_KEY := SYNC_API_KEY w;
     CLERK_WEBHOOK_SECRET := CLERK_WEBHOOK_SECRET w;
     SALESFORCE_USERNAME := SALESFORCE_USERNAME w;
     SALESFORCE_PASSWORD := SALESFORCE_PASSWORD w;
     SALESFORCE_SECURITY_TOKEN := SALESFORCE_SECURITY_TOKEN w;
     supabase_configured := supabase_configured w;
     supabase_admin_configured := supabase_admin_configured w;
     js_now := js_now w; clerk_auth := a;
     svix_verify := svix_verify w;
     sf_getTransaction := sf_getTransaction w;
     sf_createLead := sf_createLead w;
     sf_authenticateWithCredentials := sf_authenticateWithCredentials w;
     sf_query := sf_query w; sf_fetch := sf_fetch w;
     cloudinary_images := cloudinary_images w;
     db_failure := db_failure w;
     sync_status_failure := sync_status_failure w;
     db_now := db_now w; db_uuid := db_uuid w;
     properties_table := properties_table w; sync_status := sync_status w;
     trace := trace w |}.

(** The world in which the client of Salesforce answers [getTransaction]
    and [createLead] as given, all else alike. *)
Definition with_salesforce
    (getTransaction : string -> Result Types.SalesforceTransaction)
    (createLead : Crm.SalesforceLeadPayload -> Result Crm.LeadResponse)
    (w : World) : World :=
  {| builtins := builtins w; SYNC_API_KEY := SYNC_API_KEY w;
     CLERK_WEBHOOK_SECRET := CLERK_WEBHOOK_SECRET w;
     SALESFORCE_USERNAME := SALESFORCE_USERNAME w;
     SALESFORCE_PASSWORD := SALESFORCE_PASSWORD w;
     SALESFORCE_SECURITY_TOKEN := SALESFORCE_SECURITY_TOKEN w;
     supabase_configured := supabase_configured w;
     supabase_admin_configured := supabase_admin_configured w;
     js_now := js_now w; clerk_auth := clerk_auth w;
     svix_verify := svix_verify w;
     sf_getTransaction := getTransaction;
     sf_createLead := createLead;
     sf_authenticateWithCredentials := sf_authenticateWithCredentials w;
     sf_query := sf_query w; sf_fetch := sf_fetch w;
     cloudinary_images := cloudinary_images w;
     db_failure := db_failure w;
     sync_status_failure := sync_status_failure w;
     db_now := db_now w; db_uuid := db_uuid w;
     properties_table := properties_table w; sync_status := sync_status w;
     trace := trace w |}.

(** The world served by the client of [lib/salesforce.ts] in the state
    [st] over the network [net]: [getTransaction] and [createLead] answer
    what the client returns. *)
Definition on_client (net : SalesforceClient.Net)
    (st : SalesforceClient.State) (w : World) : World :=
  with_salesforce
    (fun id => fst (SalesforceClient.getTransaction net id st))
    (fun lead => fst (SalesforceClient.createLead net lead st))
    w.

(** ** The HTTP requests of a handler *)

(** A request that leaves the process: one the client of
    [lib/salesforce.ts] sends, or the one request of a call that is no
    method of this client (a statement sent to the database, the image list
    asked of Cloudinary, a [fetch] of the handler's own). *)
Inductive HttpRequest : Type :=
| OfClient (r : SalesforceClient.Request)
| OfCall (c : Call).

(** What a call does to the client of [lib/salesforce.ts], when it is a
    call of one of its methods. *)
Definition client_step (net : SalesforceClient.Net) (B : Builtins) (c : Call)
  : option (SalesforceClient.State -> SalesforceClient.State) :=
  match c with
  | SalesforceGetTransaction id =>
      Some (fun st => snd (SalesforceClient.getTransaction net id st))
  | SalesforceCreateLead lead =>
      Some (fun st => snd (SalesforceClient.createLead net lead st))
  | SalesforceQueryTransactions dealTypes markets limit offset =>
      Some (fun st =>
              snd (SalesforceClient.queryTransactions net B
                     {| SalesforceClient.dealTypes := Some dealTypes;
                        SalesforceClient.markets := Some markets;
                        SalesforceClient.accessTier := None;
                        SalesforceClient.isOffMarket := None;
                        SalesforceClient.limit := Some limit;
                        SalesforceClient.offset := Some offset |}
                     st))
  | _ => None
  end.

(** The HTTP requests of a list of calls, in order, over the network [net]
    and from the state [st] of the client: a method of the client sends
    what the client sends for it, which may be nothing, and leaves the
    client in a new state; any other call is one request. *)
Fixpoint http_requests (net : SalesforceClient.Net) (B : Builtins)
    (st : SalesforceClient.State) (calls : list Call) : list HttpRequest :=
  match calls with
  | [] => []
  | c :: rest =>
      match client_step net B c with
      | Some step =>
          map OfClient
            (skipn (List.length (SalesforceClient.sent st))
               (SalesforceClient.sent (step st)))
          ++ http_requests net B (step st) rest
      | None => OfCall c :: http_requests net B st rest
      end
  end.

(** The HTTP requests a computation sends from a world. *)
Definition requests_of {A} (net : SalesforceClient.Net)
    (st : SalesforceClient.State) (m : M A) (w : World) : list HttpRequest :=
  http_requests net (builtins w) st (calls_of m w).

(** A method of the client sends at most [n] requests. *)
Definition client_sends {A} (m : SalesforceClient.C A) (n : nat) : Prop :=
  forall st, exists l,
    SalesforceClient.sent (snd (m st)) = SalesforceClient.sent st ++ l /\
    List.length l <= n.

(** The cities the listing endpoint knows, with their market and parish. *)
Definition louisiana : list (string * (string * string)) :=
  [("lafayette", ("lafayette", "Lafayette"));
   ("baton rouge", ("baton-rouge", "East Baton Rouge"));
   ("new orleans", ("new-orleans", "Orleans"));
   ("shreveport", ("shreveport", "Caddo"));
   ("lake charles", ("lake-charles", "Calcasieu"));
   ("monroe", ("monroe", "Ouachita"));
   ("alexandria", ("alexandria", "Rapides"))].

(** A key that an object literal does not inherit: of the properties of
    [Object.prototype], the only names in lower case. *)
Definition own_key (k : string) : Prop :=
  k <> "constructor" /\ k <> "__proto__".

(** The tier and the limit the database-backed listing asks
    [getProperties] for. *)
Definition db_listing_tier (w : World) (request : PropertiesDbRoute.Request)
  : string :=
  PropertiesDbRoute.effectiveTier (PropertiesDbRoute.userTier_of w)
    (str_or (PropertiesDbRoute.tier_param request) "public").

Definition db_listing_limit (w : World) (request : PropertiesDbRoute.Request)
  : Schema.Limit :=
  limit_of_number
    (parseInt (builtins w)
       (JsStr (str_or (PropertiesDbRoute.limit_param request) "20"))).

(** The four credentials of a client are all there. *)
Definition configured (c : SalesforceClient.Client) : bool :=
  str_truthy (SalesforceClient.clientId c)
  && str_truthy (SalesforceClient.clientSecret c)
  && str_truthy (SalesforceClient.username c)
  && str_truthy (SalesforceClient.password c).

(** The form a client posts to the token endpoint. *)
Definition login_of (c : SalesforceClient.Client) : SalesforceClient.Request :=
  SalesforceClient.PostToken (SalesforceClient.clientId c)
    (SalesforceClient.clientSecret c) (SalesforceClient.username c)
    (SalesforceClient.password c ++ SalesforceClient.securityToken c).

(** A call of the REST API at an instance with a token. *)
Definition api_call (method : SalesforceClient.Method)
    (instance token endpoint : string)
    (body : option Crm.SalesforceLeadPayload) : SalesforceClient.Request :=
  SalesforceClient.Api method
    (instance ++ "/services/data/v58.0" ++ endpoint) ("Bearer " ++ token) body.

(** What a method of the client returns for an answer of the network. *)
Definition api_result {T} (answer : SalesforceClient.Fetched T) : Result T :=
  match answer with
  | SalesforceClient.Rejects e => Throw e
  | SalesforceClient.NotOk error =>
      Throw (JsError ("Salesforce API error: " ++ error))
  | SalesforceClient.NoJson e => Throw e
  | SalesforceClient.Json a => Ok a
  end.

(** The client holds a token that the next clock reading finds unexpired. *)
Definition token_fresh (net : SalesforceClient.Net)
    (s : SalesforceClient.State) (token : string) : Prop :=
  SalesforceClient.accessToken (SalesforceClient.client s) = Some token /\
  token <> "" /\
  (SalesforceClient.date_now net (SalesforceClient.clock_reads s)
   < SalesforceClient.tokenExpiry (SalesforceClient.client s))%Z.

(** The client holds no token, or one that the next clock reading finds
    expired. *)
Definition token_stale (net : SalesforceClient.Net)
    (s : SalesforceClient.State) : Prop :=
  opt_truthy (SalesforceClient.accessToken (SalesforceClient.client s)) = false \/
  (SalesforceClient.tokenExpiry (SalesforceClient.client s)
   <= SalesforceClient.date_now net (SalesforceClient.clock_reads s))%Z.

(** Sample network: the token endpoint accepts the password [pw-tok], and
    the API knows the transaction [a01]. *)
Definition sample_net : SalesforceClient.Net :=
  {| SalesforceClient.date_now := fun n => (1000 * Z.of_nat n)%Z;
     SalesforceClient.token_answer :=
       fun r =>
         match r with
         | SalesforceClient.PostToken _ _ _ pw =>
             if pw =? "pw-tok" then
               SalesforceClient.Json
                 {| SalesforceClient.access_token := "00D-token";
                    SalesforceClient.instance_url := "https://cedar.my.salesforce.com" |}
             else SalesforceClient.NotOk "invalid_grant"
         | _ => SalesforceClient.NotOk "not the token endpoint"
         end;
     SalesforceClient.transaction_answer :=
       fun r =>
         match r with
         | SalesforceClient.Api SalesforceClient.GET url _ _ =>
             if url =? "https://cedar.my.salesforce.com/services/data/v58.0/sobjects/Transaction__c/a01"
             then SalesforceClient.Json
                    (sample_transaction "Rental" "public" None)
             else SalesforceClient.NotOk "NOT_FOUND"
         | _ => SalesforceClient.NotOk "METHOD_NOT_ALLOWED"
         end;
     SalesforceClient.lead_answer :=
       fun _ => SalesforceClient.Json
                  {| Crm.lead_id := "00Q1"; Crm.success := true;
                     Crm.errors := [] |};
     SalesforceClient.query_answer :=
       fun _ => SalesforceClient.NotOk "INVALID_TYPE" |}.

Definition sample_env (secret : option string) : SalesforceClient.Env :=
  {| SalesforceClient.SALESFORCE_CLIENT_ID := Some "3MVG9";
     SalesforceClient.SALESFORCE_CLIENT_SECRET := secret;
     SalesforceClient.SALESFORCE_USERNAME := Some "sync@cedar";
     SalesforceClient.SALESFORCE_PASSWORD := Some "pw-";
     SalesforceClient.SALESFORCE_SECURITY_TOKEN := Some "tok" |}.

(** The state of a client just constructed. *)
Definition fresh (env : SalesforceClient.Env) : SalesforceClient.State :=
  {| SalesforceClient.client := SalesforceClient.new env;
     SalesforceClient.clock_reads := 0;
     SalesforceClient.sent := [] |}.


(** A text of lower-case letters, digits and hyphens. *)
Definition url_safe (s : string) : Prop :=
  forall c, In c (list_ascii_of_string s) ->
    let n := nat_of_ascii c in
    (97 <= n <= 122) \/ (48 <= n <= 57) \/ c = "-"%char.

(** No two hyphens in a row. *)
Fixpoint single_hyphens (s : string) : bool :=
  match s with
  | String a (String b _ as rest) =>
      negb (Utils.is_hyphen a && Utils.is_hyphen b) && single_hyphens rest
  | _ => true
  end.

Definition has_hyphen (s : string) : Prop :=
  In "-"%char (list_ascii_of_string s).

(** [n] of a unit of time ago, in words: the unit takes an [s] unless
    [n] is 1. *)
Definition ago (n : nat) (unit : string) : string :=
  if Nat.eqb n 1 then ("1 " ++ unit ++ " ago")%string
  else (show_nat n ++ " " ++ unit ++ "s ago")%string.

(* ================================================================== *)
(** * Properties *)
(* ================================================================== *)

(** ** The trace *)

Lemma skipn_prefix {A} (l r : list A) : skipn (List.length l) (l ++ r) = r.
Proof. induction l; simpl; auto. Qed.

Lemma skipn_self {A} (l : list A) : skipn (List.length l) l = [].
Proof. induction l; simpl; auto. Qed.

(** Unfold the monad and the database layer, then compute. *)
Ltac run :=
  unfold calls_of, response, returned, after, outcome,
    PropertyDatabase.getProperties, PropertyDatabase.getLastSyncTime,
    PropertyDatabase.syncProperties, PropertyDatabase.updateSyncStatus,
    PropertyDatabase.getSupabase, PropertyDatabase.getSupabaseAdmin,
    PropertyDatabase.run_select,
    try_catch, bind, ask, ret, throw, call, lift_result, json in *;
  cbn in *.

Ltac trace_done :=
  rewrite <- ?app_assoc; rewrite ?skipn_prefix, ?skipn_self; cbn.

(** ** Builtins on sample texts *)

Example toLowerCase_sample : toLowerCase "VIP Tier" = "vip tier".
Proof. reflexivity. Qed.

Example trim_sample : trim "  off market  " = "off market".
Proof. reflexivity. Qed.

Example split_sample : split_comma "a, b,,c" = ["a"; " b"; ""; "c"].
Proof. reflexivity. Qed.

Example split_empty_sample : split_comma "" = [""].
Proof. reflexivity. Qed.

Example limit_of_number_samples :
  map limit_of_number [of_Z 20; of_Z 0; of_Z (-5); JsFin (5 # 2); JsNaN]
  = [Schema.Count 20; Schema.Count 0; Schema.NotACount; Schema.NotACount;
     Schema.NotACount].
Proof. reflexivity. Qed.

(** ** Lists and selects *)

Section ListFacts.

Context {A : Type}.

Lemma In_firstn (n : nat) (l : list A) (x : A) :
  In x (firstn n l) -> In x l.
Proof.
  revert l; induction n as [|n IH]; intros [|y l] H; simpl in *;
    try contradiction.
  destruct H as [H|H]; [left|right]; auto.
Qed.

End ListFacts.

Lemma In_insert_desc (r x : Schema.Row) (l : list Schema.Row) :
  In x (Schema.insert_desc r l) -> x = r \/ In x l.
Proof.
  induction l as [|y l IH]; simpl.
  - intros [H|[]]; auto.
  - destruct (String.leb _ _); simpl.
    + intros [H|[H|H]]; auto.
    + intros [H|H]; auto. destruct (IH H); auto.
Qed.

Lemma In_order_desc (x : Schema.Row) (l : list Schema.Row) :
  In x (Schema.order_desc l) -> In x l.
Proof.
  induction l as [|y l IH]; simpl; auto.
  intros H. destruct (In_insert_desc _ _ _ H); auto.
Qed.

Lemma mem_string_In (s : string) (l : list string) :
  Schema.mem_string s l = true <-> In s l.
Proof.
  unfold Schema.mem_string. rewrite existsb_exists. split.
  - intros (x & Hx & E). apply String.eqb_eq in E. now subst.
  - intros H. exists s. split; auto. apply String.eqb_refl.
Qed.

(** Every row a select returns is a listed row of the table that passes the
    tier filter. *)
Lemma select_properties_sound f limit t rows :
  Schema.data (Schema.select_properties f limit t) = Some rows ->
  forall r, In r rows ->
    In r t /\ Schema.listed r = true /\ Schema.tier_matches f r = true.
Proof.
  destruct limit as [n|]; simpl; [|discriminate].
  intros [= <-] r Hr.
  apply In_firstn, In_order_desc, filter_In in Hr.
  destruct Hr as [Hin Hb]. apply andb_true_iff in Hb. tauto.
Qed.

(** The tiers a filter lets through. *)
Lemma tier_matches_In f r :
  Schema.tier_matches f r = true ->
  In (Schema.tier (Schema.cols r))
     (match f with Schema.TierEq t => [t] | Schema.TierIn ts => ts end).
Proof.
  destruct f as [t|ts]; unfold Schema.tier_matches; intros H.
  - apply String.eqb_eq in H. rewrite H. now left.
  - now apply mem_string_In.
Qed.

(** The filter is one of three; the widest only for the tier ['vip']. *)
Lemma tier_filter_cases tier :
  PropertyDatabase.tier_filter tier = Schema.TierEq "public" \/
  PropertyDatabase.tier_filter tier = Schema.TierIn ["public"; "registered"] \/
  (tier = Some "vip" /\
   PropertyDatabase.tier_filter tier =
     Schema.TierIn ["public"; "registered"; "vip"]).
Proof.
  unfold PropertyDatabase.tier_filter.
  destruct tier as [t|]; [|now left].
  destruct (str_truthy t && negb (t =? "public")); [|now left].
  destruct (String.eqb_spec t "vip") as [->|Hv]; [right; right|right; left]; auto.
Qed.

(** What [getProperties] hands back comes from the select of its filter. *)
Lemma getProperties_returned tier limit w p :
  In p (returned (PropertyDatabase.getProperties tier limit) w) ->
  exists row,
    In row (properties_table w) /\ p = PropertyDatabase.row_to_property row /\
    Schema.listed row = true /\
    Schema.tier_matches (PropertyDatabase.tier_filter tier) row = true.
Proof.
  unfold returned, outcome, PropertyDatabase.getProperties, bind,
    PropertyDatabase.getSupabase, PropertyDatabase.run_select, call, ask, ret.
  destruct (supabase_configured w); [|intros []].
  cbn.
  destruct (db_failure w) as [e|]; cbn; [intros []|].
  set (lim := match limit with Some l => l | None => Schema.Count 50 end).
  destruct (Schema.select_properties _ lim (properties_table w)) as [d e] eqn:E.
  cbn. destruct e as [e|]; cbn; [intros []|].
  destruct d as [rows|]; cbn; [|intros []].
  intros H. apply in_map_iff in H. destruct H as (row & <- & Hrow).
  exists row.
  assert (Hd : Schema.data (Schema.select_properties
                 (PropertyDatabase.tier_filter tier) lim (properties_table w))
               = Some rows) by now rewrite E.
  destruct (select_properties_sound _ _ _ _ Hd row Hrow) as (H1 & H2 & H3).
  auto.
Qed.

Lemma insert_desc_In (r x : Schema.Row) (l : list Schema.Row) :
  x = r \/ In x l -> In x (Schema.insert_desc r l).
Proof.
  induction l as [|y l IH]; simpl.
  - intros [->|[]]. now left.
  - destruct (String.leb _ _); simpl.
    + intros [->|[->|H]]; auto.
    + intros [->|[->|H]]; auto.
Qed.

Lemma order_desc_In (x : Schema.Row) (l : list Schema.Row) :
  In x l -> In x (Schema.order_desc l).
Proof.
  induction l as [|y l IH]; simpl; [auto|].
  intros [->|H]; apply insert_desc_In; auto.
Qed.

(** Nothing visible is withheld: with a limit that covers the table, every
    listed row whose tier passes the filter is returned. *)
Lemma getProperties_complete tier n w row :
  supabase_configured w = true -> db_failure w = None ->
  List.length (properties_table w) <= n ->
  In row (properties_table w) -> Schema.listed row = true ->
  Schema.tier_matches (PropertyDatabase.tier_filter tier) row = true ->
  In (PropertyDatabase.row_to_property row)
    (returned (PropertyDatabase.getProperties tier (Some (Schema.Count n))) w).
Proof.
  intros Hc Hf Hn Hin Hl Hm. run. rewrite Hc. cbn. rewrite Hf. cbn.
  apply in_map. rewrite firstn_all2.
  - apply order_desc_In, filter_In. split; [exact Hin|].
    now rewrite Hl, Hm.
  - clear - Hn.
    assert (L : forall l, List.length (Schema.order_desc l) = List.length l).
    { induction l as [|y l IH]; simpl; [reflexivity|]. rewrite <- IH.
      generalize (Schema.order_desc l). intros l'.
      induction l' as [|z l' IH']; simpl; [reflexivity|].
      destruct (String.leb _ _); simpl; [reflexivity|]. now rewrite IH'. }
    rewrite L. etransitivity; [apply filter_length_le|exact Hn].
Qed.

Lemma getProperties_covered tier limit w row :
  supabase_configured w = true -> db_failure w = None ->
  covers limit (properties_table w) ->
  In row (properties_table w) -> Schema.listed row = true ->
  Schema.tier_matches (PropertyDatabase.tier_filter tier) row = true ->
  In (PropertyDatabase.row_to_property row)
    (returned (PropertyDatabase.getProperties tier limit) w).
Proof.
  intros Hc Hf Hn. destruct limit as [[n|]|]; cbn in Hn; [| contradiction |];
    now apply getProperties_complete.
Qed.

(** C1 — tier filtering of [PropertyDatabase.getProperties]: whatever the
    stored rows and the limit, every property returned is one of the stored
    rows, and its tier is ['public'] for an absent or ['public'] viewer
    tier, ['public'] or ['registered'] for a ['registered'] viewer, and one
    of the three tiers' names for a ['vip'] viewer.  Nothing the viewer may
    see is withheld either: when the database answers and the limit covers
    the table, every listed row of a tier visible to the viewer is
    returned, so that a ['vip'] viewer is served the rows of all three
    tiers. *)
Theorem getProperties_tier_filtering (w : World) (limit : option Schema.Limit) :
  (Forall (served_from w ["public"])
     (returned (PropertyDatabase.getProperties None limit) w) /\
   Forall (served_from w ["public"])
     (returned (PropertyDatabase.getProperties (Some "public") limit) w) /\
   Forall (served_from w ["public"; "registered"])
     (returned (PropertyDatabase.getProperties (Some "registered") limit) w) /\
   Forall (served_from w ["public"; "registered"; "vip"])
     (returned (PropertyDatabase.getProperties (Some "vip") limit) w)) /\
  (supabase_configured w = true -> db_failure w = None ->
   covers limit (properties_table w) ->
   forall row, In row (properties_table w) -> Schema.listed row = true ->
     let p := PropertyDatabase.row_to_property row in
     (Database.tier p = "public" ->
        In p (returned (PropertyDatabase.getProperties None limit) w) /\
        In p (returned (PropertyDatabase.getProperties (Some "public") limit) w)) /\
     (In (Database.tier p) ["public"; "registered"] ->
        In p (returned (PropertyDatabase.getProperties (Some "registered") limit) w)) /\
     (In (Database.tier p) ["public"; "registered"; "vip"] ->
        In p (returned (PropertyDatabase.getProperties (Some "vip") limit) w))).
Proof.
  split.
  - repeat split; apply Forall_forall; intros p Hp;
      apply getProperties_returned in Hp;
      destruct Hp as (row & Hin & -> & _ & Hm);
      apply tier_matches_In in Hm;
      (split; [exact Hm | exists row; auto]).
  - intros Hc Hf Hn row Hin Hl p. subst p. cbn.
    split; [|split].
    + intros Ht.
      split; apply getProperties_covered; auto; cbn; now rewrite Ht.
    + intros Ht. apply getProperties_covered; auto.
      now apply mem_string_In.
    + intros Ht. apply getProperties_covered; auto.
      now apply mem_string_In.
Qed.

(** On the sample table, which holds one listed row of each tier: each
    viewer is served exactly the rows of the tiers visible to them. *)
Example getProperties_sample_tiers :
  covers None (properties_table sample_world) /\
  map Database.tier
    (returned (PropertyDatabase.getProperties None None) sample_world)
  = ["public"] /\
  map Database.tier
    (returned (PropertyDatabase.getProperties (Some "public") None) sample_world)
  = ["public"] /\
  map Database.tier
    (returned (PropertyDatabase.getProperties (Some "registered") None)
       sample_world)
  = ["registered"; "public"] /\
  map Database.tier
    (returned (PropertyDatabase.getProperties (Some "vip") None) sample_world)
  = ["registered"; "vip"; "public"].
Proof. repeat split. cbn. lia. Qed.

Example getProperties_vip_sample :
  map Database.salesforceId
    (returned (PropertyDatabase.getProperties (Some "vip") None) sample_world)
  = [Some "a02"; Some "a03"; Some "a01"].
Proof. reflexivity. Qed.

Example getProperties_public_sample :
  map Database.salesforceId
    (returned (PropertyDatabase.getProperties None (Some (Schema.Count 5))) sample_world)
  = [Some "a01"].
Proof. reflexivity. Qed.

Example getProperties_registered_limit_sample :
  map Database.salesforceId
    (returned (PropertyDatabase.getProperties (Some "registered")
                 (Some (Schema.Count 1))) sample_world)
  = [Some "a02"].
Proof. reflexivity. Qed.

(** ** The database-backed listing *)

Lemma userTier_signed_in w :
  signed_in w -> PropertiesDbRoute.userTier_of w = "registered".
Proof.
  intros (u & Hu & Hne). unfold PropertiesDbRoute.userTier_of. rewrite Hu.
  unfold str_truthy. destruct (String.eqb_spec u ""); [contradiction|reflexivity].
Qed.

Lemma userTier_signed_out w :
  ~ signed_in w -> PropertiesDbRoute.userTier_of w = "public".
Proof.
  intros H. unfold PropertiesDbRoute.userTier_of.
  destruct (clerk_auth w) as [[u|]|e] eqn:E; auto.
  unfold str_truthy. destruct (String.eqb_spec u ""); auto.
  exfalso. apply H. exists u. auto.
Qed.

(** The handler reads the [tier] parameter through [effectiveTier] only. *)
Lemma GET_db_effective_tier w (r1 r2 : PropertiesDbRoute.Request) :
  PropertiesDbRoute.limit_param r1 = PropertiesDbRoute.limit_param r2 ->
  PropertiesDbRoute.effectiveTier (PropertiesDbRoute.userTier_of w)
    (str_or (PropertiesDbRoute.tier_param r1) "public") =
  PropertiesDbRoute.effectiveTier (PropertiesDbRoute.userTier_of w)
    (str_or (PropertiesDbRoute.tier_param r2) "public") ->
  PropertiesDbRoute.GET r1 w = PropertiesDbRoute.GET r2 w.
Proof.
  intros Hl Ht. unfold PropertiesDbRoute.GET, try_catch, bind, ask.
  rewrite Hl, Ht. reflexivity.
Qed.

(** Every select the handler issues carries the filter of its effective
    tier. *)
Lemma GET_db_select_filters w (r : PropertiesDbRoute.Request) :
  forall f, In f (select_filters (calls_of (PropertiesDbRoute.GET r) w)) ->
    f = PropertyDatabase.tier_filter
          (Some (PropertiesDbRoute.effectiveTier (PropertiesDbRoute.userTier_of w)
                   (str_or (PropertiesDbRoute.tier_param r) "public"))).
Proof.
  intros f. unfold PropertiesDbRoute.GET. run.
  destruct (supabase_configured w) eqn:Hc; cbn; rewrite ?Hc; cbn;
    trace_done; [|intros []].
  destruct (db_failure w) eqn:Hf; cbn; rewrite ?Hc, ?Hf; cbn; trace_done.
  - intros [<-|[]]. reflexivity.
  - destruct (Schema.select_properties _ _ _) as [d [e|]]; cbn;
      rewrite ?Hc, ?Hf; cbn; trace_done; intros [<-|[]]; reflexivity.
Qed.

(** The user tier the handler derives is never ['vip'], so no select of the
    handler lets the ['vip'] tier through. *)
Lemma GET_db_never_selects_vip w (r : PropertiesDbRoute.Request) :
  forall f, In f (select_filters (calls_of (PropertiesDbRoute.GET r) w)) ->
    f = Schema.TierEq "public" \/ f = Schema.TierIn ["public"; "registered"].
Proof.
  intros f Hf. apply GET_db_select_filters in Hf. subst f.
  destruct (tier_filter_cases
              (Some (PropertiesDbRoute.effectiveTier
                       (PropertiesDbRoute.userTier_of w)
                       (str_or (PropertiesDbRoute.tier_param r) "public"))))
    as [H|[H|[H1 H2]]]; auto.
  exfalso. injection H1 as H1. revert H1.
  unfold PropertiesDbRoute.effectiveTier, PropertiesDbRoute.userTier_of.
  destruct (clerk_auth w) as [[u|]|e]; cbn; try discriminate.
  destruct (str_truthy u); cbn; try discriminate.
  destruct (String.eqb_spec (str_or (PropertiesDbRoute.tier_param r) "public") "vip");
    cbn; [discriminate|congruence].
Qed.

(** C10 — the requested tier cannot exceed the authenticated one in the
    database-backed listing.  Without a signed-in user every select the
    handler issues filters on the tier ['public'], and the handler answers
    and leaves the world exactly as for any other value of the [tier]
    parameter; for a signed-in user a requested tier ['vip'] is served as
    ['public']: the select filters on ['public'] and the handler behaves as
    for the request that asks for ['public']. *)
Theorem requested_tier_capped (w : World) (r : PropertiesDbRoute.Request) :
  (~ signed_in w ->
     Forall (eq (PropertyDatabase.tier_filter (Some "public")))
       (select_filters (calls_of (PropertiesDbRoute.GET r) w)) /\
     forall tier',
       PropertiesDbRoute.GET r w =
       PropertiesDbRoute.GET
         {| PropertiesDbRoute.limit_param := PropertiesDbRoute.limit_param r;
            PropertiesDbRoute.tier_param := tier' |} w) /\
  (signed_in w -> PropertiesDbRoute.tier_param r = Some "vip" ->
     Forall (eq (PropertyDatabase.tier_filter (Some "public")))
       (select_filters (calls_of (PropertiesDbRoute.GET r) w)) /\
     PropertiesDbRoute.GET r w =
     PropertiesDbRoute.GET
       {| PropertiesDbRoute.limit_param := PropertiesDbRoute.limit_param r;
          PropertiesDbRoute.tier_param := Some "public" |} w).
Proof.
  split.
  - intros Hout. apply userTier_signed_out in Hout. split.
    + apply Forall_forall. intros f Hf. apply GET_db_select_filters in Hf.
      rewrite Hout in Hf. subst f. reflexivity.
    + intros tier'. apply GET_db_effective_tier; [reflexivity|].
      rewrite Hout. reflexivity.
  - intros Hin Hvip. apply userTier_signed_in in Hin. split.
    + apply Forall_forall. intros f Hf. apply GET_db_select_filters in Hf.
      rewrite Hin, Hvip in Hf. subst f. reflexivity.
    + apply GET_db_effective_tier; [reflexivity|].
      rewrite Hin, Hvip. reflexivity.
Qed.

Lemma sample_world_signed_out : ~ signed_in sample_world.
Proof. intros (u & H & _). discriminate H. Defined.

Lemma signed_in_world :
  signed_in (world_of (Ok (Some "user_1")) None sample_table
               (FetchNotOk "INVALID_SESSION_ID") None).
Proof. exists "user_1". split; [reflexivity|discriminate]. Defined.

Lemma requested_tier_capped_witness :
  (let r := {| PropertiesDbRoute.limit_param := None;
               PropertiesDbRoute.tier_param := Some "vip" |} in
   select_filters (calls_of (PropertiesDbRoute.GET r) sample_world)
     = [Schema.TierEq "public"] /\
   PropertiesDbRoute.GET r sample_world =
   PropertiesDbRoute.GET
     {| PropertiesDbRoute.limit_param := None;
        PropertiesDbRoute.tier_param := Some "registered" |} sample_world) /\
  (let w := world_of (Ok (Some "user_1")) None sample_table
              (FetchNotOk "INVALID_SESSION_ID") None in
   let r := {| PropertiesDbRoute.limit_param := None;
               PropertiesDbRoute.tier_param := Some "vip" |} in
   PropertiesDbRoute.GET r w =
   PropertiesDbRoute.GET
     {| PropertiesDbRoute.limit_param := None;
        PropertiesDbRoute.tier_param := Some "public" |} w).
Proof.
  split.
  - split; [reflexivity|].
    exact (proj2 (proj1 (requested_tier_capped sample_world
                           {| PropertiesDbRoute.limit_param := None;
                              PropertiesDbRoute.tier_param := Some "vip" |})
                    sample_world_signed_out) (Some "registered")).
  - exact (proj2 (proj2 (requested_tier_capped _
                           {| PropertiesDbRoute.limit_param := None;
                              PropertiesDbRoute.tier_param := Some "vip" |})
                    signed_in_world eq_refl)).
Defined.

Example GET_db_signed_in_registered :
  option_map status
    (response (PropertiesDbRoute.GET
                 {| PropertiesDbRoute.limit_param := None;
                    PropertiesDbRoute.tier_param := Some "registered" |})
       (world_of (Ok (Some "user_1")) None sample_table
          (FetchNotOk "INVALID_SESSION_ID") None)) = Some 200 /\
  select_filters
    (calls_of (PropertiesDbRoute.GET
                 {| PropertiesDbRoute.limit_param := None;
                    PropertiesDbRoute.tier_param := Some "registered" |})
       (world_of (Ok (Some "user_1")) None sample_table
          (FetchNotOk "INVALID_SESSION_ID") None))
  = [Schema.TierIn ["public"; "registered"]].
Proof. split; reflexivity. Qed.

Example GET_db_signed_out_serves_public :
  option_map body
    (response (PropertiesDbRoute.GET
                 {| PropertiesDbRoute.limit_param := Some "10";
                    PropertiesDbRoute.tier_param := Some "vip" |})
       sample_world)
  = Some (PropertiesDbRoute.Listing
            [PropertyDatabase.row_to_property
               (sample_row "u1" "a01" "public" "2024-01-01T00:00:00.000Z" 150000)]
            1 false "public" (Some "2024-02-01T00:00:00.000Z")).
Proof. reflexivity. Qed.

(** ** Failing reads *)

(** C6, as the specification words it, fails: [auth()] is awaited inside
    the outer [try] of the Salesforce-backed listing before the cookies are
    looked at, so when it throws (as Clerk does when its middleware has not
    run for the route) the handler answers 500 with the error, not a
    success with an empty list, although no Salesforce token is present. *)
Lemma listing_fails_when_auth_throws :
  let w := world_of
             (Throw (JsError "Clerk: auth() was called but Clerk can't detect usage of clerkMiddleware()"))
             None sample_table (FetchNotOk "INVALID_SESSION_ID") None in
  let r := {| PropertiesRoute.dealTypes_param := None;
              PropertiesRoute.sf_access_token := None;
              PropertiesRoute.sf_instance_url := None |} in
  has_tokens r = false /\
  response (PropertiesRoute.GET r) w
  = Some (json (PropertiesRoute.Failure
                  "Clerk: auth() was called but Clerk can't detect usage of clerkMiddleware()")
            500) /\
  ~ (forall w r,
       has_tokens r = false ->
       exists note,
         response (PropertiesRoute.GET r) w
         = Some (json (PropertiesRoute.Success [] 0 false note) 200)).
Proof.
  cbv zeta. split; [reflexivity|]. split; [reflexivity|].
  intros H.
  destruct (H (world_of
                 (Throw (JsError "Clerk: auth() was called but Clerk can't detect usage of clerkMiddleware()"))
                 None sample_table (FetchNotOk "INVALID_SESSION_ID") None)
              {| PropertiesRoute.dealTypes_param := None;
                 PropertiesRoute.sf_access_token := None;
                 PropertiesRoute.sf_instance_url := None |} eq_refl)
    as [note Hn].
  discriminate Hn.
Qed.

(** C6 (amended) — best-effort reads.  When the database answers with an
    error, [PropertyDatabase.getProperties] returns the empty list after
    its one select.  Once [auth()] has resolved, the Salesforce-backed
    listing answers 200 with no property and [totalCount] 0 when a
    Salesforce cookie is missing, without calling Salesforce, and when the
    Salesforce query fails, after the one query: nothing is retried.  When
    [auth()] throws, the listing answers 500 with the message of the error,
    whatever the cookies, and calls nothing. *)
Theorem best_effort_reads (w : World) :
  (forall tier limit e,
     supabase_configured w = true -> db_failure w = Some e ->
     outcome (PropertyDatabase.getProperties tier limit) w = Ok [] /\
     List.length (calls_of (PropertyDatabase.getProperties tier limit) w) = 1) /\
  (forall r userId,
     clerk_auth w = Ok userId -> has_tokens r = false ->
     response (PropertiesRoute.GET r) w =
       Some (json (PropertiesRoute.Success [] 0 false
                     (Some "Please authenticate with Salesforce to view properties"))
               200) /\
     calls_of (PropertiesRoute.GET r) w = []) /\
  (forall r userId,
     clerk_auth w = Ok userId -> has_tokens r = true ->
     query_failed (sf_fetch w) ->
     response (PropertiesRoute.GET r) w =
       Some (json (PropertiesRoute.Success [] 0 false
                     (Some "Unable to fetch properties from Salesforce"))
               200) /\
     calls_of (PropertiesRoute.GET r) w = [SalesforceFetchQuery]) /\
  (forall r e,
     clerk_auth w = Throw e ->
     response (PropertiesRoute.GET r) w =
       Some (json (PropertiesRoute.Failure (message_of e)) 500) /\
     calls_of (PropertiesRoute.GET r) w = []).
Proof.
  split; [|split; [|split]].
  - intros tier limit e Hc Hf. run. rewrite Hc. cbn. rewrite Hf. cbn.
    trace_done. split; reflexivity.
  - intros r userId Ha Ht. unfold PropertiesRoute.GET. run.
    rewrite Ha. cbn. unfold has_tokens in Ht.
    rewrite <- negb_andb, Ht. cbn. trace_done. split; reflexivity.
  - intros r userId Ha Ht Hq. unfold PropertiesRoute.GET,
      PropertiesRoute.querySalesforce. run.
    rewrite Ha. cbn. unfold has_tokens in Ht.
    rewrite <- negb_andb, Ht. cbn.
    destruct (sf_fetch w); try contradiction; cbn; trace_done;
      split; reflexivity.
  - intros r e Ha. unfold PropertiesRoute.GET. run.
    rewrite Ha. cbn. trace_done. split; reflexivity.
Qed.

Lemma best_effort_reads_witness :
  (let w := world_of (Ok None) (Some Schema.bad_limit) sample_table
              (FetchNotOk "INVALID_SESSION_ID") None in
   outcome (PropertyDatabase.getProperties (Some "vip") None) w = Ok []) /\
  (let r := {| PropertiesRoute.dealTypes_param := None;
               PropertiesRoute.sf_access_token := None;
               PropertiesRoute.sf_instance_url := Some "https://cedar.my.salesforce.com" |} in
   calls_of (PropertiesRoute.GET r) sample_world = []) /\
  (let r := {| PropertiesRoute.dealTypes_param := None;
               PropertiesRoute.sf_access_token := Some "00D";
               PropertiesRoute.sf_instance_url := Some "https://cedar.my.salesforce.com" |} in
   option_map status (response (PropertiesRoute.GET r) sample_world) = Some 200 /\
   calls_of (PropertiesRoute.GET r) sample_world = [SalesforceFetchQuery]).
Proof.
  split; [|split].
  - exact (proj1 (proj1 (best_effort_reads
                           (world_of (Ok None) (Some Schema.bad_limit) sample_table
                              (FetchNotOk "INVALID_SESSION_ID") None))
                    (Some "vip") None Schema.bad_limit eq_refl eq_refl)).
  - exact (proj2 (proj1 (proj2 (best_effort_reads sample_world))
                    {| PropertiesRoute.dealTypes_param := None;
                       PropertiesRoute.sf_access_token := None;
                       PropertiesRoute.sf_instance_url :=
                         Some "https://cedar.my.salesforce.com" |}
                    None eq_refl eq_refl)).
  - pose proof (proj1 (proj2 (proj2 (best_effort_reads sample_world)))
                  {| PropertiesRoute.dealTypes_param := None;
                     PropertiesRoute.sf_access_token := Some "00D";
                     PropertiesRoute.sf_instance_url :=
                       Some "https://cedar.my.salesforce.com" |}
                  None eq_refl eq_refl I) as [H1 H2].
    split; [|exact H2]. cbv zeta. rewrite H1. reflexivity.
Defined.

Example listing_served_from_salesforce :
  let record :=
    {| Crm.tr_Id := "a0X1"; Crm.tr_Name := None;
       Crm.Left_Main__Street_Address__c := Some "12 Oak St";
       Crm.Left_Main__City__c := Some "Baton Rouge";
       Crm.Left_Main__State__c := None;
       Crm.Left_Main__Zipcode__c := None;
       Crm.Left_Main__Dispo_Status__c := Some "Closed/Won";
       Crm.tr_CreatedDate := Some "2024-01-05T10:00:00.000Z";
       Crm.tr_LastModifiedDate := None;
       Crm.tr_OwnerId := None |} in
  let w := world_of (Ok None) None []
             (FetchOk {| Crm.qd_totalSize := 1; Crm.qd_records := Some [record];
                         Crm.done := true; Crm.nextRecordsUrl := None |}) None in
  let r := {| PropertiesRoute.dealTypes_param := Some "Wholesale,Rental";
              PropertiesRoute.sf_access_token := Some "00D";
              PropertiesRoute.sf_instance_url := Some "https://cedar.my.salesforce.com" |} in
  match response (PropertiesRoute.GET r) w with
  | Some {| status := 200;
            body := PropertiesRoute.Success [p] 1 false None |} =>
      PropertiesRoute.title p = "12 Oak St, Baton Rouge" /\
      PropertiesRoute.market p = "baton-rouge" /\
      Types.parish (PropertiesRoute.address p) = "East Baton Rouge" /\
      PropertiesRoute.postedDate p = "2024-01-05" /\
      PropertiesRoute.updatedDate p = "2024-03-01" /\
      PropertiesRoute.isOffMarket p = true
  | _ => False
  end.
Proof. cbv. repeat split. Qed.

(** ** The CRM transaction as a property *)

(** C7, as the specification words it, fails on a rental transaction with
    no monthly rent and an empty tag text: the monthly rent stays undefined
    instead of 0 (and the tags are undefined instead of one empty tag). *)
Lemma field_mapping_as_specified_fails :
  let transaction := sample_transaction "Rental" "public" (Some "") in
  Types.rentalMetrics (Types.transformSalesforceTransaction transaction []) =
    Some {| Types.grossYield := of_Z 9; Types.capRate := zero;
            Types.monthlyRent := None |} /\
  Types.tags (Types.transformSalesforceTransaction transaction []) = None /\
  ~ field_mapping_as_specified transaction []
      (Types.transformSalesforceTransaction transaction []).
Proof.
  cbv zeta. split; [reflexivity|]. split; [reflexivity|].
  unfold field_mapping_as_specified, field_mapping. intros H.
  repeat match type of H with _ /\ _ => destruct H as [? H] end.
  match goal with
  | Hr : forall m, Types.rentalMetrics _ = Some m -> _ |- _ =>
      specialize (Hr _ eq_refl); destruct Hr as (_ & _ & Hr); discriminate Hr
  end.
Qed.

(** C7 (amended) — field mapping of [transformSalesforceTransaction]: every
    field of the property is told by the transaction and the images.  The
    CRM fields are copied to their property fields, the description and
    [isOffMarket] with the defaults [''] and [false]; [flipMetrics] is
    defined exactly for ['Fix & Flip'] and [rentalMetrics] exactly for
    ['Rental'], with missing values 0 except the monthly rent, which is
    copied as it is; the thumbnail is the first image's url or the
    placeholder; the tags are the trimmed pieces of a non-empty [Tags__c],
    undefined otherwise. *)
Theorem transform_field_mapping
    (transaction : Types.SalesforceTransaction)
    (images : list Types.PropertyImage) :
  field_mapping_of_code transaction images
    (Types.transformSalesforceTransaction transaction images) /\
  (forall p, field_mapping_of_code transaction images p ->
             p = Types.transformSalesforceTransaction transaction images).
Proof.
  split.
  - unfold field_mapping_of_code, field_mapping,
      Types.transformSalesforceTransaction; cbn.
    repeat match goal with |- _ /\ _ => split end; try reflexivity.
    + now destruct (Types.Description__c transaction) as [[|c text]|].
    + destruct (Types.Is_Off_Market__c transaction) as [flag|]; [|reflexivity].
      apply orb_false_r.
    + destruct (String.eqb_spec (Types.Deal_Type__c transaction) "Fix & Flip");
        split; intros; congruence.
    + destruct (String.eqb_spec (Types.Deal_Type__c transaction) "Rental");
        split; intros; congruence.
    + intros m. destruct (Types.Deal_Type__c transaction =? "Fix & Flip");
        [|discriminate]. intros [= <-]. cbn. auto.
    + intros m. destruct (Types.Deal_Type__c transaction =? "Rental");
        [|discriminate]. intros [= <-]. cbn. auto.
    + destruct (Types.Tags__c transaction) as [t|]; cbn; [|reflexivity].
      destruct (str_truthy t); reflexivity.
  - intros p H. unfold field_mapping_of_code, field_mapping in H.
    destruct p as [id title description [street city state zipCode parish]
                     bedrooms bathrooms squareFeet lotSize yearBuilt
                     propertyType dealType market listPrice purchasePrice
                     status accessTier isOffMarket imgs thumbnailUrl flip
                     rental createdDate updatedDate ownerId tags notes
                     showingInstructions].
    cbn in H.
    repeat match type of H with _ /\ _ => destruct H as [? H] end.
    match goal with
    | Hi : _ <-> Types.Deal_Type__c transaction = "Fix & Flip",
      Hv : forall m, flip = Some m -> _ |- _ =>
        rename Hi into Hflip; rename Hv into Hflipv
    end.
    match goal with
    | Hi : _ <-> Types.Deal_Type__c transaction = "Rental",
      Hv : forall m, rental = Some m -> _ |- _ =>
        rename Hi into Hrent; rename Hv into Hrentv
    end.
    assert (Ef : flip = Types.flipMetrics
                          (Types.transformSalesforceTransaction transaction images)).
    { cbn.
      destruct (String.eqb_spec (Types.Deal_Type__c transaction) "Fix & Flip")
        as [E|E].
      - destruct flip as [[a r sp ro]|].
        + destruct (Hflipv _ eq_refl) as (? & ? & ? & ?). cbn in *.
          congruence.
        + apply Hflip in E. now elim E.
      - destruct flip as [m|]; [|reflexivity].
        elim E. apply Hflip. discriminate. }
    assert (Er : rental = Types.rentalMetrics
                            (Types.transformSalesforceTransaction transaction images)).
    { cbn.
      destruct (String.eqb_spec (Types.Deal_Type__c transaction) "Rental")
        as [E|E].
      - destruct rental as [[g c m]|].
        + destruct (Hrentv _ eq_refl) as (? & ? & ?). cbn in *.
          congruence.
        + apply Hrent in E. now elim E.
      - destruct rental as [m|]; [|reflexivity].
        elim E. apply Hrent. discriminate. }
    clear Hflip Hflipv Hrent Hrentv.
    unfold Types.transformSalesforceTransaction in *. cbn in Ef, Er. subst.
    f_equal.
    + now destruct (Types.Description__c transaction) as [[|c text]|].
    + destruct (Types.Is_Off_Market__c transaction) as [flag|]; [|reflexivity].
      symmetry. apply orb_false_r.
    + destruct (Types.Tags__c transaction) as [t|]; cbn; [|reflexivity].
      destruct (str_truthy t); reflexivity.
Qed.

Example transform_sample_tags :
  Types.tags (Types.transformSalesforceTransaction
                (sample_transaction "Wholesale" "public" (Some "brick , corner lot,"))
                [sample_image])
  = Some ["brick"; "corner lot"; ""].
Proof. reflexivity. Qed.

Example transform_sample_flip :
  Types.flipMetrics (Types.transformSalesforceTransaction
                       (sample_transaction "Fix & Flip" "public" None) [])
  = Some {| Types.arv := of_Z 210000; Types.rehabEstimate := zero;
            Types.spread := of_Z 25000; Types.roi := zero |}.
Proof. reflexivity. Qed.

(** ** The property detail and its public view *)

Lemma redact_is_redacted_view (q : Types.Property) :
  redacted_view q (PropertyDetailRoute.redact q).
Proof.
  unfold redacted_view, PropertyDetailRoute.redact; cbn.
  repeat (split; [reflexivity|]).
  split; [destruct (Types.flipMetrics q); cbn; auto|].
  split; [destruct (Types.rentalMetrics q); cbn; auto|].
  repeat (split; [reflexivity|]). reflexivity.
Qed.

(** A property is served only after both lookups, filtered for the tier of
    the viewer. *)
Lemma GET_detail_served w propertyId st p :
  response (PropertyDetailRoute.GET propertyId) w =
    Some {| status := st; body := PropertyDetailRoute.Detail p |} ->
  exists userId transaction,
    clerk_auth w = Ok userId /\
    sf_getTransaction w propertyId = Ok transaction /\
    st = 200 /\
    p = PropertyDetailRoute.applyAccessTier
          (PropertyDetailRoute.accessTier_of userId)
          (Types.transformSalesforceTransaction transaction
             (cloudinary_images w propertyId)).
Proof.
  unfold PropertyDetailRoute.GET. run.
  destruct (clerk_auth w) as [userId|e] eqn:Ha; cbn.
  2:{ destruct e; cbn; [destruct (includes _ _)|]; cbn; discriminate. }
  destruct (sf_getTransaction w propertyId) as [t|e] eqn:Ht; cbn.
  2:{ destruct e; cbn; [destruct (includes _ _)|]; cbn; discriminate. }
  destruct ((Types.Access_Tier__c t =? "vip")
            && negb (PropertyDetailRoute.is_vip
                       (PropertyDetailRoute.accessTier_of userId))); cbn;
    [discriminate|].
  destruct ((Types.Access_Tier__c t =? "registered")
            && PropertyDetailRoute.is_public
                 (PropertyDetailRoute.accessTier_of userId)); cbn;
    [discriminate|].
  intros [= <- <-]. exists userId, t. auto.
Qed.

(** C2 — tier-based redaction in the property detail endpoint.  The
    property served to a public viewer is the transformed property with the
    street replaced by 'Address available after registration', the showing
    instructions and notes removed, the spread of the flip metrics 0 and the
    monthly rent of the rental metrics removed, every other field unchanged;
    the property served to a registered or VIP viewer is the transformed
    property itself. *)
Theorem public_tier_redaction :
  (forall q,
     redacted_view q (PropertyDetailRoute.applyAccessTier Types.public q) /\
     PropertyDetailRoute.applyAccessTier Types.registered q = q /\
     PropertyDetailRoute.applyAccessTier Types.vip q = q) /\
  (forall w propertyId st p,
     response (PropertyDetailRoute.GET propertyId) w =
       Some {| status := st; body := PropertyDetailRoute.Detail p |} ->
     exists userId transaction,
       clerk_auth w = Ok userId /\
       sf_getTransaction w propertyId = Ok transaction /\
       let q := Types.transformSalesforceTransaction transaction
                  (cloudinary_images w propertyId) in
       (PropertyDetailRoute.accessTier_of userId = Types.public ->
          redacted_view q p) /\
       (PropertyDetailRoute.accessTier_of userId <> Types.public -> p = q)).
Proof.
  split.
  - intros q. split; [apply redact_is_redacted_view|split; reflexivity].
  - intros w propertyId st p H.
    apply GET_detail_served in H.
    destruct H as (userId & t & Ha & Ht & _ & ->).
    exists userId, t. split; [exact Ha|]. split; [exact Ht|].
    cbv zeta. split.
    + intros ->. apply redact_is_redacted_view.
    + intros Hne. destruct (PropertyDetailRoute.accessTier_of userId);
        [contradiction|reflexivity|reflexivity].
Qed.

Lemma public_tier_redaction_witness :
  (exists p,
     response (PropertyDetailRoute.GET "a01") sample_world =
       Some {| status := 200; body := PropertyDetailRoute.Detail p |} /\
     Types.street (Types.address p) = "Address available after registration" /\
     Types.city (Types.address p) = "Lafayette" /\
     Types.notes p = None /\
     Types.rentalMetrics p =
       Some {| Types.grossYield := of_Z 9; Types.capRate := zero;
               Types.monthlyRent := None |}) /\
  (exists userId transaction,
     clerk_auth sample_world = Ok userId /\
     sf_getTransaction sample_world "a01" = Ok transaction).
Proof.
  split.
  - eexists. split; [reflexivity|]. repeat split.
  - destruct (proj2 public_tier_redaction sample_world "a01" 200 _ eq_refl)
      as (userId & t & Ha & Ht & _).
    exists userId, t. split; assumption.
Defined.

Example detail_registered_viewer_sees_all :
  let w := world_of (Ok (Some "user_1")) None sample_table
             (FetchNotOk "INVALID_SESSION_ID") None in
  option_map body (response (PropertyDetailRoute.GET "a02") w) =
    Some (PropertyDetailRoute.Detail
            (Types.transformSalesforceTransaction
               (sample_transaction "Fix & Flip" "registered" None) [sample_image])).
Proof. reflexivity. Qed.

Example detail_public_viewer_refused :
  option_map status (response (PropertyDetailRoute.GET "a02") sample_world) = Some 401 /\
  option_map status (response (PropertyDetailRoute.GET "a03") sample_world) = Some 403 /\
  option_map status (response (PropertyDetailRoute.GET "zzz") sample_world) = Some 404.
Proof. repeat split. Qed.

(** ** The webhook receiver *)

Lemma find_primary_email emails :
  forall a,
    option_map Clerk.email_address (find Clerk.email_primary emails) = Some a
    <-> primary_email emails a.
Proof.
  induction emails as [|e rest IH]; intros a; cbn.
  - split; [discriminate|inversion 1].
  - destruct (Clerk.email_primary e) eqn:E; cbn.
    + split.
      * intros [= <-]. now constructor.
      * inversion 1; subst; [reflexivity|congruence].
    + rewrite IH. split.
      * intros H. now constructor.
      * inversion 1; subst; [congruence|assumption].
Qed.


(** What the handler does with a request whose signature was checked. *)
Lemma POST_checked w req :
  checkable w req ->
  ClerkWebhook.POST req w =
  match verification w req with
  | Throw _ => (Ok (json (ClerkWebhook.Error "Internal server error") 500), w)
  | Ok None => (Ok (json (ClerkWebhook.Error "Invalid webhook signature") 400), w)
  | Ok (Some evt) =>
      if Clerk.type evt =? "user.created" then
        match ClerkWebhook.primaryEmail_of (Clerk.data evt) with
        | Some email =>
            if str_truthy email then
              let lead := ClerkWebhook.leadData_of (Clerk.data evt) email in
              let w' := with_trace (trace w ++ [SalesforceCreateLead lead]) w in
              match sf_createLead w lead with
              | Ok answer =>
                  if Crm.success answer
                  then (Ok (json (ClerkWebhook.LeadCreated (Crm.lead_id answer)) 200), w')
                  else (Ok (json (ClerkWebhook.LeadFailed (Crm.errors answer)) 500), w')
              | Throw e => (Ok (json (ClerkWebhook.LeadThrew (message_of e)) 500), w')
              end
            else (Ok (json (ClerkWebhook.Error "No primary email found") 400), w)
        | None => (Ok (json (ClerkWebhook.Error "No primary email found") 400), w)
        end
      else if Clerk.type evt =? "user.updated" then
        (Ok (json (ClerkWebhook.Acknowledged "User update processed") 200), w)
      else (Ok (json (ClerkWebhook.Acknowledged "Webhook received") 200), w)
  end.
Proof.
  intros (Hs & H1 & H2 & H3). unfold ClerkWebhook.POST, verification. run.
  rewrite Hs, H1, H2, H3. cbn.
  destruct (svix_verify w _ _ _) as [[evt|]|e]; cbn; try reflexivity.
  destruct (Clerk.type evt =? "user.created"); cbn.
  - destruct (ClerkWebhook.primaryEmail_of (Clerk.data evt)) as [email|]; cbn;
      [|reflexivity].
    destruct (str_truthy email); cbn; [|reflexivity].
    destruct (sf_createLead w _) as [answer|e]; cbn; [|reflexivity].
    destruct (Crm.success answer); reflexivity.
  - destruct (Clerk.type evt =? "user.updated"); reflexivity.
Qed.




Example webhook_no_primary_email :
  let emails :=
    [ {| Clerk.email_address := "old@cedar.test"; Clerk.email_primary := false |} ] in
  let w := world_of (Ok None) None [] (FetchNotOk "") (Some (signup_event emails)) in
  response (ClerkWebhook.POST sample_request) w =
    Some (json (ClerkWebhook.Error "No primary email found") 400) /\
  calls_of (ClerkWebhook.POST sample_request) w = [].
Proof. split; reflexivity. Qed.

Example webhook_bad_signature :
  response (ClerkWebhook.POST sample_request) sample_world =
    Some (json (ClerkWebhook.Error "Invalid webhook signature") 400) /\
  calls_of (ClerkWebhook.POST sample_request) sample_world = [].
Proof. split; reflexivity. Qed.

(** ** Tier assignment *)

Lemma num_lt_not_ge a b : num_lt a b = true -> num_ge a b = false.
Proof.
  destruct a as [|[|]|x], b as [|[|]|y]; cbn; try discriminate; auto.
  intros H. now apply negb_true_iff in H.
Qed.

Lemma num_lt_300000_not_ge_1000000 p :
  num_lt p (of_Z 300000) = true -> num_ge p (of_Z 1000000) = false.
Proof.
  destruct p as [|[|]|x]; cbn; try discriminate; auto.
  intros H. apply negb_true_iff in H.
  destruct (Qle_bool (inject_Z 1000000) x) eqn:E; [|reflexivity].
  apply Qle_bool_iff in E.
  assert (Hle : Qle_bool (inject_Z 300000) x = true).
  { apply Qle_bool_iff. eapply Qle_trans; [|exact E]. now apply Qle_bool_iff. }
  congruence.
Qed.

(** The cascade of the code follows the thresholds. *)
Lemma cascade_tier_by_price price :
  tier_by_price price
    (if num_ge price (of_Z 1000000) then "vip"
     else if num_ge price (of_Z 300000) then "registered"
     else "public").
Proof.
  unfold tier_by_price. repeat split.
  - intros ->. reflexivity.
  - intros H3 H1. apply num_lt_not_ge in H1. rewrite H1, H3. reflexivity.
  - intros H. rewrite (num_lt_300000_not_ge_1000000 _ H).
    rewrite (num_lt_not_ge _ _ H). reflexivity.
Qed.

(** A falsy scalar parses to a number that [|| 0] turns into 0. *)
Lemma falsy_price_is_zero B v :
  truthy v = false -> num_or (parseFloat (strToNumber B) v) zero = zero.
Proof.
  destruct v as [| |b|n|s]; cbn; try reflexivity.
  - intros H. unfold num_or. now rewrite H.
  - intros H. now rewrite H.
Qed.

(** C3 — tier assignment.  In the sync transform a tier supplied by the CRM
    is used lowercased; without one the tier follows the price thresholds,
    and a price that is missing or does not parse gives ['public'].  The
    upsert endpoint follows the same thresholds when no tier is posted. *)
Theorem tier_assignment (B : Builtins) (now : string) :
  (forall record t,
     Crm.Tier__c record = Some t -> t <> "" ->
     Database.tier (SalesforceSync.transformProperty B now record) = toLowerCase t) /\
  (forall record,
     opt_truthy (Crm.Tier__c record) = false ->
     tier_by_price
       (num_or (parseFloat (strToNumber B) (Crm.Price__c record)) zero)
       (Database.tier (SalesforceSync.transformProperty B now record)) /\
     (parseFloat (strToNumber B) (Crm.Price__c record) = JsNaN ->
        Database.tier (SalesforceSync.transformProperty B now record) = "public")) /\
  (forall prop,
     opt_truthy (UpsertRoute.tier prop) = false ->
     tier_by_price
       (num_or (parseFloat (strToNumber B) (UpsertRoute.price prop)) zero)
       (Database.tier (UpsertRoute.transformInput B now prop)) /\
     (parseFloat (strToNumber B) (UpsertRoute.price prop) = JsNaN ->
        Database.tier (UpsertRoute.transformInput B now prop) = "public")).
Proof.
  split; [|split].
  - intros record t Ht Hne. cbn. rewrite Ht. unfold str_truthy.
    destruct (String.eqb_spec t ""); [contradiction|reflexivity].
  - intros record Ht. cbn.
    assert (E : Database.tier (SalesforceSync.transformProperty B now record) =
                let price := num_or (parseFloat (strToNumber B) (Crm.Price__c record)) zero in
                if num_ge price (of_Z 1000000) then "vip"
                else if num_ge price (of_Z 300000) then "registered"
                else "public").
    { cbn. destruct (Crm.Tier__c record) as [t|]; [|reflexivity].
      cbn in Ht. rewrite Ht. reflexivity. }
    cbn in E. rewrite E. split; [apply cascade_tier_by_price|].
    intros ->. reflexivity.
  - intros prop Ht.
    assert (E0 : str_or (UpsertRoute.tier prop) "public" = "public").
    { destruct (UpsertRoute.tier prop) as [t|]; [|reflexivity].
      cbn in Ht |- *. now rewrite Ht. }
    cbn. rewrite Ht, E0. cbn.
    destruct (truthy (UpsertRoute.price prop)) eqn:Hp.
    + split; [apply cascade_tier_by_price|]. intros ->. reflexivity.
    + rewrite (falsy_price_is_zero B _ Hp).
      split; [|reflexivity].
      unfold tier_by_price; repeat split; cbn; discriminate || reflexivity.
Qed.

Lemma tier_assignment_witness :
  Database.tier (SalesforceSync.transformProperty sample_builtins "now"
                   (sample_record "a01" (Some "VIP") (JsNum (of_Z 1000))))
    = "vip" /\
  tier_by_price (of_Z 450000)
    (Database.tier (SalesforceSync.transformProperty sample_builtins "now"
                      (sample_record "a02" None (JsNum (of_Z 450000))))) /\
  Database.tier (SalesforceSync.transformProperty sample_builtins "now"
                   (sample_record "a03" (Some "") (JsStr "n/a")))
    = "public" /\
  tier_by_price (of_Z 1000000)
    (Database.tier (UpsertRoute.transformInput sample_builtins "now"
                      (sample_input (Some "a04") None (JsStr "1000000")))).
Proof.
  pose proof (tier_assignment sample_builtins "now") as (H1 & H2 & H3).
  split; [|split; [|split]].
  - exact (H1 (sample_record "a01" (Some "VIP") (JsNum (of_Z 1000))) "VIP"
             eq_refl ltac:(discriminate)).
  - exact (proj1 (H2 (sample_record "a02" None (JsNum (of_Z 450000))) eq_refl)).
  - exact (proj2 (H2 (sample_record "a03" (Some "") (JsStr "n/a")) eq_refl) eq_refl).
  - exact (proj1 (H3 (sample_input (Some "a04") None (JsStr "1000000")) eq_refl)).
Defined.

Example tiers_by_price_samples :
  map (fun price =>
         Database.tier (SalesforceSync.transformProperty sample_builtins "now"
                          (sample_record "a01" None price)))
    [JsNum (of_Z 1000000); JsNum (of_Z 999999); JsNum (of_Z 300000);
     JsNum (JsFin (599999 # 2)); JsNull; JsStr "2500000"; JsNum (JsInf false);
     JsNum JsNaN]
  = ["vip"; "registered"; "registered"; "public"; "public"; "vip"; "vip"; "public"].
Proof. reflexivity. Qed.

Example upsert_tier_samples :
  map (fun tp =>
         Database.tier (UpsertRoute.transformInput sample_builtins "now"
                          (sample_input (Some "a01") (fst tp) (snd tp))))
    [(None, JsNum (of_Z 1000000)); (None, JsStr "450000"); (None, JsUndefined);
     (Some "registered", JsNum (of_Z 5000000)); (Some "Gold", JsNull)]
  = ["vip"; "registered"; "public"; "registered"; "Gold"].
Proof. reflexivity. Qed.

(** ** The upsert statement *)

Section Upsert.

Variable now : string.
Variable uuid : nat -> string.

Lemma set_updated_at_twice a b c :
  Schema.set_updated_at a (Schema.set_updated_at b c) = Schema.set_updated_at a c.
Proof. reflexivity. Qed.

Lemma same_key_touch c c' r t :
  Schema.same_key c
    {| Schema.id := Schema.id r; Schema.cols := Schema.set_updated_at t c' |}
  = Schema.opt_string_eqb (Schema.salesforce_id c') (Schema.salesforce_id c).
Proof. reflexivity. Qed.

Lemma opt_string_eqb_eq a b :
  Schema.opt_string_eqb a b = true <-> exists k, a = Some k /\ b = Some k.
Proof.
  destruct a as [x|], b as [y|]; cbn; split; try discriminate.
  - intros H. apply String.eqb_eq in H. subst. eauto.
  - intros (k & [= ->] & [= ->]). apply String.eqb_refl.
  - intros (k & _ & H). discriminate H.
  - intros (k & H & _). discriminate H.
  - intros (k & H & _). discriminate H.
Qed.

Lemma opt_string_eqb_trans a b c :
  Schema.opt_string_eqb a b = true ->
  Schema.opt_string_eqb b c = Schema.opt_string_eqb a c.
Proof.
  intros H. apply opt_string_eqb_eq in H. destruct H as (k & -> & ->).
  reflexivity.
Qed.

Lemma opt_string_eqb_sym a b :
  Schema.opt_string_eqb a b = Schema.opt_string_eqb b a.
Proof.
  destruct a, b; cbn; auto. apply String.eqb_sym.
Qed.

(** One proposed row leaves the identifiers under which rows are stored, and
    adds its own when it is new. *)
Lemma upsert_one_keys fresh t c :
  map (fun r => Schema.salesforce_id (Schema.cols r)) (Schema.upsert_one now fresh t c)
  = map (fun r => Schema.salesforce_id (Schema.cols r)) t ++
    (if existsb (Schema.same_key c) t then [] else [Schema.salesforce_id c]).
Proof.
  unfold Schema.upsert_one. destruct (existsb (Schema.same_key c) t).
  - rewrite app_nil_r, map_map. apply map_ext. intros r.
    destruct (Schema.same_key c r) eqn:E; [|reflexivity]. cbn.
    apply opt_string_eqb_eq in E. destruct E as (k & -> & ->). reflexivity.
  - now rewrite map_app.
Qed.

Lemma rows_with_length key t :
  List.length (rows_with key t) =
  List.length (filter (fun k => Schema.opt_string_eqb k (Some key))
                 (map (fun r => Schema.salesforce_id (Schema.cols r)) t)).
Proof.
  unfold rows_with. induction t as [|r t IH]; cbn; [reflexivity|].
  destruct (Schema.opt_string_eqb _ _); cbn; now rewrite IH.
Qed.

Lemma upsert_one_one_row_per_key fresh t c :
  one_row_per_key t -> one_row_per_key (Schema.upsert_one now fresh t c).
Proof.
  intros H key. specialize (H key). rewrite rows_with_length in *.
  rewrite upsert_one_keys, filter_app, length_app.
  destruct (existsb (Schema.same_key c) t) eqn:E; cbn; [lia|].
  destruct (Schema.opt_string_eqb (Schema.salesforce_id c) (Some key)) eqn:K;
    cbn; [|lia].
  assert (Hnone : filter (fun k => Schema.opt_string_eqb k (Some key))
                    (map (fun r => Schema.salesforce_id (Schema.cols r)) t) = []).
  { clear H. apply opt_string_eqb_eq in K. destruct K as (k & Hc & [= <-]).
    induction t as [|r t IH]; [reflexivity|].
    cbn in E |- *. apply orb_false_iff in E. destruct E as [E1 E2].
    unfold Schema.same_key in E1. rewrite Hc in E1. rewrite E1.
    apply IH, E2. }
  rewrite Hnone. cbn. lia.
Qed.

Lemma upsert_rows_one_row_per_key cs : forall i t,
  one_row_per_key t -> one_row_per_key (Schema.upsert_rows now uuid i t cs).
Proof.
  induction cs as [|c cs IH]; intros i t H; cbn; [exact H|].
  apply IH, upsert_one_one_row_per_key, H.
Qed.

(** *** A second run of the same payload *)

Lemma upsert_one_settled fresh t c :
  existsb (Schema.same_key c) t = true ->
  (forall r, In r t -> Schema.same_key c r = true -> agrees c r) ->
  Schema.upsert_one now fresh t c = touched now [c] t.
Proof.
  intros He Ha. unfold Schema.upsert_one, touched. rewrite He.
  apply map_ext_in. intros r Hr. cbn. rewrite orb_false_r.
  destruct (Schema.same_key c r) eqn:E; [|reflexivity].
  unfold Schema.update_updated_at_column. now rewrite (Ha r Hr E).
Qed.

Lemma touched_keys t0 cs t :
  map (fun r => Schema.salesforce_id (Schema.cols r)) (touched t0 cs t)
  = map (fun r => Schema.salesforce_id (Schema.cols r)) t.
Proof.
  unfold touched. rewrite map_map. apply map_ext. intros r.
  destruct (existsb _ cs); reflexivity.
Qed.

Lemma touched_ids t0 cs t : map Schema.id (touched t0 cs t) = map Schema.id t.
Proof.
  unfold touched. rewrite map_map. apply map_ext. intros r.
  destruct (existsb _ cs); reflexivity.
Qed.

Lemma existsb_same_key_keys c t t' :
  map (fun r => Schema.salesforce_id (Schema.cols r)) t
  = map (fun r => Schema.salesforce_id (Schema.cols r)) t' ->
  existsb (Schema.same_key c) t = existsb (Schema.same_key c) t'.
Proof.
  revert t'. induction t as [|r t IH]; intros [|r' t'] H; cbn in *;
    try discriminate; [reflexivity|].
  injection H as H1 H2. unfold Schema.same_key at 1 3. rewrite H1.
  f_equal. now apply IH.
Qed.

Lemma touched_settled t0 c0 t cs :
  settled t cs -> settled (touched t0 [c0] t) cs.
Proof.
  intros H c Hc. destruct (H c Hc) as [He Ha]. split.
  - rewrite <- He. apply existsb_same_key_keys, touched_keys.
  - intros r' Hr' Hk. unfold touched in Hr'. apply in_map_iff in Hr'.
    destruct Hr' as (r & <- & Hr). cbn in *. rewrite orb_false_r in *.
    destruct (Schema.same_key c0 r); [|now apply Ha].
    intros t1. cbn. rewrite set_updated_at_twice. now apply Ha.
Qed.

Lemma touched_cons t0 c cs t :
  touched t0 cs (touched t0 [c] t) = touched t0 (c :: cs) t.
Proof.
  unfold touched. rewrite map_map. apply map_ext. intros r. cbn.
  rewrite orb_false_r.
  destruct (Schema.same_key c r); cbn.
  - destruct (existsb _ cs); reflexivity.
  - reflexivity.
Qed.

(** On a settled table the statement only fires the update trigger. *)
Lemma upsert_rows_settled cs : forall i t,
  settled t cs -> Schema.upsert_rows now uuid i t cs = touched now cs t.
Proof.
  induction cs as [|c cs IH]; intros i t H; cbn.
  - unfold touched. cbn. symmetry. apply map_id.
  - destruct (H c (or_introl eq_refl)) as [He Ha].
    rewrite (upsert_one_settled _ _ _ He Ha).
    rewrite IH; [apply touched_cons|].
    apply touched_settled. intros c' Hc'. apply H. now right.
Qed.

(** *** After a first run the table is settled *)

Lemma upsert_one_keeps fresh t c c' :
  existsb (Schema.same_key c') t = true ->
  existsb (Schema.same_key c') (Schema.upsert_one now fresh t c) = true.
Proof.
  intros H. unfold Schema.upsert_one.
  destruct (existsb (Schema.same_key c) t) eqn:E.
  - rewrite <- H. apply existsb_same_key_keys.
    rewrite map_map. apply map_ext. intros r.
    destruct (Schema.same_key c r) eqn:K; [|reflexivity]. cbn.
    apply opt_string_eqb_eq in K. destruct K as (k & -> & ->). reflexivity.
  - rewrite existsb_app, H. reflexivity.
Qed.

Lemma upsert_rows_keeps cs : forall i t c',
  existsb (Schema.same_key c') t = true ->
  existsb (Schema.same_key c') (Schema.upsert_rows now uuid i t cs) = true.
Proof.
  induction cs as [|c cs IH]; intros i t c' H; cbn; [exact H|].
  apply IH, upsert_one_keeps, H.
Qed.

Lemma upsert_one_stores fresh t c :
  Schema.not_null_ok c = true ->
  existsb (Schema.same_key c) (Schema.upsert_one now fresh t c) = true.
Proof.
  intros Hn. destruct (existsb (Schema.same_key c) t) eqn:E.
  - now apply upsert_one_keeps.
  - unfold Schema.upsert_one. rewrite E, existsb_app. cbn.
    unfold Schema.same_key, Schema.not_null_ok in *. cbn.
    destruct (Schema.salesforce_id c); [|discriminate].
    cbn. rewrite String.eqb_refl. now rewrite orb_true_r.
Qed.

Lemma upsert_one_agrees fresh t c r :
  In r (Schema.upsert_one now fresh t c) ->
  Schema.same_key c r = true -> agrees c r.
Proof.
  unfold Schema.upsert_one. destruct (existsb (Schema.same_key c) t) eqn:E.
  - intros Hr Hk. apply in_map_iff in Hr. destruct Hr as (r0 & <- & Hr0).
    destruct (Schema.same_key c r0) eqn:K.
    + intros t1. reflexivity.
    + congruence.
  - intros Hr Hk. apply in_app_or in Hr. destruct Hr as [Hr|[<-|[]]].
    + exfalso. assert (existsb (Schema.same_key c) t = true)
        by (apply existsb_exists; eauto). congruence.
    + intros t1. reflexivity.
Qed.

(** A proposed row leaves the rows stored under other identifiers. *)
Lemma upsert_one_other fresh t c r :
  Schema.not_null_ok c = true ->
  In r (Schema.upsert_one now fresh t c) ->
  Schema.same_key c r = false -> In r t.
Proof.
  intros Hn. unfold Schema.upsert_one.
  destruct (existsb (Schema.same_key c) t) eqn:E.
  - intros Hr Hk. apply in_map_iff in Hr. destruct Hr as (r0 & <- & Hr0).
    destruct (Schema.same_key c r0) eqn:K; [|exact Hr0].
    exfalso. rewrite same_key_touch in Hk.
    unfold Schema.same_key in K.
    apply opt_string_eqb_eq in K. destruct K as (k & _ & Hc).
    rewrite Hc in Hk. cbn in Hk. now rewrite String.eqb_refl in Hk.
  - intros Hr Hk. apply in_app_or in Hr. destruct Hr as [Hr|[<-|[]]]; [exact Hr|].
    exfalso. unfold Schema.same_key, Schema.not_null_ok in *. cbn in Hk.
    destruct (Schema.salesforce_id c) as [k|]; [|discriminate].
    cbn in Hk. now rewrite String.eqb_refl in Hk.
Qed.

Lemma upsert_rows_other cs : forall i t r,
  forallb Schema.not_null_ok cs = true ->
  In r (Schema.upsert_rows now uuid i t cs) ->
  (forall c, In c cs -> Schema.same_key c r = false) -> In r t.
Proof.
  induction cs as [|c cs IH]; intros i t r Hn Hr Hk; cbn in *; [exact Hr|].
  apply andb_true_iff in Hn. destruct Hn as [Hn1 Hn2].
  apply (upsert_one_other (uuid i) t c r Hn1); [|now apply Hk; left].
  apply (IH (S i)); auto.
Qed.

Lemma In_keys_of c cs k :
  In c cs -> Schema.salesforce_id c = Some k -> In k (Schema.keys_of cs).
Proof.
  intros Hc Hk. unfold Schema.keys_of. apply in_flat_map.
  exists c. split; [exact Hc|]. rewrite Hk. now left.
Qed.

(** After a run of a payload with distinct identifiers, the table is
    settled for it. *)
Lemma upsert_rows_settles cs : forall i t,
  forallb Schema.not_null_ok cs = true ->
  Schema.distinct (Schema.keys_of cs) = true ->
  settled (Schema.upsert_rows now uuid i t cs) cs.
Proof.
  induction cs as [|c cs IH]; intros i t Hn Hd c0 Hc0; [destruct Hc0|].
  cbn in Hn. apply andb_true_iff in Hn. destruct Hn as [Hn1 Hn2].
  assert (Hd' : Schema.distinct (Schema.keys_of cs) = true /\
                forall c', In c' cs ->
                  Schema.opt_string_eqb (Schema.salesforce_id c)
                    (Schema.salesforce_id c') = false).
  { unfold Schema.not_null_ok in Hn1.
    destruct (Schema.salesforce_id c) as [k|] eqn:Hk; [|discriminate].
    assert (E : Schema.keys_of (c :: cs) = k :: Schema.keys_of cs).
    { unfold Schema.keys_of. cbn. now rewrite Hk. }
    rewrite E in Hd.
    change (negb (Schema.mem_string k (Schema.keys_of cs))
            && Schema.distinct (Schema.keys_of cs) = true) in Hd.
    apply andb_true_iff in Hd. destruct Hd as [Hd1 Hd2].
    split; [exact Hd2|]. intros c' Hc'.
    destruct (Schema.salesforce_id c') as [k'|] eqn:Hk'; [|reflexivity].
    cbn. apply String.eqb_neq. intros <-.
    apply negb_true_iff in Hd1.
    assert (Schema.mem_string k (Schema.keys_of cs) = true).
    { apply mem_string_In. eapply In_keys_of; eauto. }
    congruence. }
  destruct Hd' as [Hd2 Hdiff]. cbn.
  destruct Hc0 as [<-|Hc0]; [|now apply IH].
  split.
  - apply upsert_rows_keeps, upsert_one_stores, Hn1.
  - intros r Hr Hk.
    apply (upsert_one_agrees (uuid i) t c r); [|exact Hk].
    apply (upsert_rows_other cs (S i)); auto.
    intros c' Hc'. unfold Schema.same_key in *.
    rewrite <- (opt_string_eqb_trans _ _ (Schema.salesforce_id c') Hk).
    apply Hdiff, Hc'.
Qed.

End Upsert.

(** A payload accepted once is accepted again, and the second run only
    resets [updated_at] in the rows of the payload. *)
Lemma upsert_properties_again now uuid now' uuid' t cs t1 :
  Schema.upsert_properties now uuid t cs = inl t1 ->
  Schema.upsert_properties now' uuid' t1 cs = inl (touched now' cs t1).
Proof.
  unfold Schema.upsert_properties.
  destruct (forallb Schema.not_null_ok cs) eqn:Hn; cbn; [|discriminate].
  destruct (forallb Schema.tier_check cs) eqn:Ht; cbn; [|discriminate].
  destruct (Schema.distinct (Schema.keys_of cs)) eqn:Hd; cbn; [|discriminate].
  destruct (Schema.distinct (map Schema.id (Schema.upsert_rows now uuid 0 t cs)))
    eqn:Hi; [|discriminate].
  intros [= <-].
  rewrite (upsert_rows_settled now' uuid' cs 0 _
             (upsert_rows_settles now uuid cs 0 t Hn Hd)).
  now rewrite touched_ids, Hi.
Qed.

(** The statement keeps at most one row per identifier, accepted or not. *)
Lemma upsert_properties_one_row_per_key now uuid t cs :
  one_row_per_key t ->
  one_row_per_key (match Schema.upsert_properties now uuid t cs with
                   | inl t' => t'
                   | inr _ => t
                   end).
Proof.
  intros H. unfold Schema.upsert_properties.
  repeat (match goal with
          | |- context [if ?b then _ else _] => destruct b
          end; cbn; auto).
  now apply upsert_rows_one_row_per_key.
Qed.

(** ** [PropertyDatabase.syncProperties] on the store *)

(** The table a sync leaves: the one the statement produced, or the old one
    when the client is not configured, the database fails or the statement
    is refused. *)
Lemma syncProperties_table props w :
  properties_table (after (PropertyDatabase.syncProperties props) w) =
  if supabase_admin_configured w then
    match db_failure w with
    | Some _ => properties_table w
    | None =>
        match Schema.upsert_properties (db_now w) (db_uuid w) (properties_table w)
                (map PropertyDatabase.property_to_columns props) with
        | inl t => t
        | inr _ => properties_table w
        end
    end
  else properties_table w.
Proof.
  run. destruct (supabase_admin_configured w); cbn; [|reflexivity].
  destruct (db_failure w); cbn; [reflexivity|].
  destruct (Schema.upsert_properties _ _ _ _); reflexivity.
Qed.

(** A sync succeeds exactly when the statement is accepted. *)
Lemma syncProperties_ok props w :
  outcome (PropertyDatabase.syncProperties props) w = Ok tt ->
  supabase_admin_configured w = true /\ db_failure w = None /\
  exists t,
    Schema.upsert_properties (db_now w) (db_uuid w) (properties_table w)
      (map PropertyDatabase.property_to_columns props) = inl t /\
    properties_table (after (PropertyDatabase.syncProperties props) w) = t.
Proof.
  intros H. rewrite syncProperties_table. revert H. run.
  destruct (supabase_admin_configured w); cbn; [|discriminate].
  destruct (db_failure w); cbn; [discriminate|].
  destruct (Schema.upsert_properties _ _ _ _) as [t|e]; cbn; [|discriminate].
  intros _. repeat split. now exists t.
Qed.

Lemma syncProperties_accepted props w t :
  supabase_admin_configured w = true -> db_failure w = None ->
  Schema.upsert_properties (db_now w) (db_uuid w) (properties_table w)
    (map PropertyDatabase.property_to_columns props) = inl t ->
  outcome (PropertyDatabase.syncProperties props) w = Ok tt.
Proof.
  intros Hc Hf Hu. run. rewrite Hc. cbn. rewrite Hf. cbn. rewrite Hu. reflexivity.
Qed.

(** A sync leaves the configuration and the state of the database service. *)
Lemma syncProperties_frame props w :
  supabase_admin_configured (after (PropertyDatabase.syncProperties props) w)
    = supabase_admin_configured w /\
  db_failure (after (PropertyDatabase.syncProperties props) w) = db_failure w.
Proof.
  run. destruct (supabase_admin_configured w) eqn:Hc; cbn; [|auto].
  destruct (db_failure w) eqn:Hf; cbn; [auto|].
  destruct (Schema.upsert_properties _ _ _ _); cbn; auto.
Qed.

(** C4, as the specification words it, fails: a second sync of the same
    list fires the update trigger of the table, which overwrites
    [updated_at] with the time of the statement. *)
Lemma sync_twice_differs :
  let props := [sample_property "a01" "public" "2024-01-05T00:00:00.000Z" 150000] in
  let w0 := world_of (Ok None) None [] (FetchNotOk "") None in
  let once := after (PropertyDatabase.syncProperties props) w0 in
  let twice := after (PropertyDatabase.syncProperties props) once in
  map (fun r => Schema.updated_at (Schema.cols r)) (properties_table once)
    = ["2024-01-05T00:00:00.000Z"] /\
  map (fun r => Schema.updated_at (Schema.cols r)) (properties_table twice)
    = ["2024-03-02T00:00:00.000Z"] /\
  properties_table twice <> properties_table once.
Proof.
  cbv zeta. split; [reflexivity|]. split; [reflexivity|].
  intros H.
  apply (f_equal (map (fun r => Schema.updated_at (Schema.cols r)))) in H.
  discriminate H.
Qed.

(** C4 (amended) — the upsert is keyed by the CRM identifier and idempotent
    but for [updated_at].  Whatever the list, a sync leaves at most one row
    per [salesforce_id] in a table that had at most one; and after a sync
    that succeeded, syncing the same list again succeeds and leaves the
    table of the first sync with only [updated_at] reset, to the time of the
    second statement, in the rows of the list. *)
Theorem sync_idempotent_up_to_updated_at
    (w : World) (props : list Database.Property) :
  (one_row_per_key (properties_table w) ->
   one_row_per_key
     (properties_table (after (PropertyDatabase.syncProperties props) w))) /\
  (outcome (PropertyDatabase.syncProperties props) w = Ok tt ->
   forall now' uuid',
     let w1 := with_db_clock now' uuid'
                 (after (PropertyDatabase.syncProperties props) w) in
     outcome (PropertyDatabase.syncProperties props) w1 = Ok tt /\
     properties_table (after (PropertyDatabase.syncProperties props) w1) =
       touched now' (map PropertyDatabase.property_to_columns props)
         (properties_table w1)).
Proof.
  split.
  - intros H. rewrite syncProperties_table.
    destruct (supabase_admin_configured w); [|exact H].
    destruct (db_failure w); [exact H|].
    now apply upsert_properties_one_row_per_key.
  - intros Hok now' uuid'. cbv zeta.
    destruct (syncProperties_ok _ _ Hok) as (Hc & Hf & t & Hu & Ht).
    set (w1 := with_db_clock now' uuid'
                 (after (PropertyDatabase.syncProperties props) w)).
    destruct (syncProperties_frame props w) as [Fc Ff].
    assert (Hc1 : supabase_admin_configured w1 = true)
      by (subst w1; cbn; now rewrite Fc).
    assert (Hf1 : db_failure w1 = None)
      by (subst w1; cbn; now rewrite Ff).
    assert (Ht1 : properties_table w1 = t) by (subst w1; exact Ht).
    assert (Hu1 : Schema.upsert_properties (db_now w1) (db_uuid w1)
                    (properties_table w1)
                    (map PropertyDatabase.property_to_columns props)
                  = inl (touched now'
                           (map PropertyDatabase.property_to_columns props) t)).
    { rewrite Ht1. exact (upsert_properties_again _ _ _ _ _ _ _ Hu). }
    split.
    + eapply syncProperties_accepted; eauto.
    + rewrite syncProperties_table, Hc1, Hf1, Hu1, Ht1. reflexivity.
Qed.

Lemma sync_idempotent_up_to_updated_at_witness :
  let props := [sample_property "a01" "public" "2024-01-05T00:00:00.000Z" 150000;
                sample_property "a02" "vip" "2024-01-06T00:00:00.000Z" 2000000] in
  let w0 := world_of (Ok None) None [] (FetchNotOk "") None in
  let w1 := with_db_clock "2024-04-01T00:00:00.000Z" (fun _ => "unused")
              (after (PropertyDatabase.syncProperties props) w0) in
  one_row_per_key
    (properties_table (after (PropertyDatabase.syncProperties props) w0)) /\
  outcome (PropertyDatabase.syncProperties props) w1 = Ok tt /\
  properties_table (after (PropertyDatabase.syncProperties props) w1) =
    touched "2024-04-01T00:00:00.000Z"
      (map PropertyDatabase.property_to_columns props) (properties_table w1).
Proof.
  cbv zeta.
  pose proof (sync_idempotent_up_to_updated_at
                (world_of (Ok None) None [] (FetchNotOk "") None)
                [sample_property "a01" "public" "2024-01-05T00:00:00.000Z" 150000;
                 sample_property "a02" "vip" "2024-01-06T00:00:00.000Z" 2000000])
    as [H1 H2].
  split.
  - apply H1. intros key. cbn. lia.
  - exact (H2 eq_refl "2024-04-01T00:00:00.000Z" (fun _ => "unused")).
Defined.

Example sync_updates_in_place :
  let props := [sample_property "a02" "vip" "2024-02-01T00:00:00.000Z" 990000;
                sample_property "a09" "public" "2024-02-02T00:00:00.000Z" 90000] in
  let w := after (PropertyDatabase.syncProperties props) sample_world in
  map (fun r => (Schema.id r, Schema.salesforce_id (Schema.cols r),
                 Schema.tier (Schema.cols r), Schema.updated_at (Schema.cols r)))
    (properties_table w)
  = [("u1", Some "a01", "public", "2024-01-01T00:00:00.000Z");
     ("u2", Some "a02", "vip", "2024-03-02T00:00:00.000Z");
     ("u3", Some "a03", "vip", "2024-01-02T00:00:00.000Z");
     ("uuid-1", Some "a09", "public", "2024-02-02T00:00:00.000Z")].
Proof. reflexivity. Qed.

Example sync_refuses_duplicates :
  let props := [sample_property "a09" "vip" "2024-02-01T00:00:00.000Z" 990000;
                sample_property "a09" "public" "2024-02-02T00:00:00.000Z" 90000] in
  outcome (PropertyDatabase.syncProperties props) sample_world
    = Throw (Thrown Schema.cardinality_violation) /\
  properties_table (after (PropertyDatabase.syncProperties props) sample_world)
    = sample_table.
Proof. split; reflexivity. Qed.

(** ** Computations that keep a property of the table *)

Section KeepsTable.

Variable P : Schema.Table -> Prop.

Lemma keeps_ret {A} (a : A) : keeps_table P (ret a).
Proof. intros w H. exact H. Qed.

Lemma keeps_throw {A} (e : Exn) : keeps_table P (@throw A e).
Proof. intros w H. exact H. Qed.

Lemma keeps_ask {A} (f : World -> A) : keeps_table P (ask f).
Proof. intros w H. exact H. Qed.

Lemma keeps_lift_result {A} (r : Result A) : keeps_table P (lift_result r).
Proof. intros w H. exact H. Qed.

Lemma keeps_call (c : Call) : keeps_table P (call c).
Proof. intros w H. exact H. Qed.

Lemma keeps_bind {A B} (m : M A) (k : A -> M B) :
  keeps_table P m -> (forall a, keeps_table P (k a)) ->
  keeps_table P (bind m k).
Proof.
  intros Hm Hk w H. specialize (Hm w H). unfold after, bind in *.
  destruct (m w) as [[a|e] w']; cbn in *; [|exact Hm].
  exact (Hk a w' Hm).
Qed.

Lemma keeps_try_catch {A} (m : M A) (h : Exn -> M A) :
  keeps_table P m -> (forall e, keeps_table P (h e)) ->
  keeps_table P (try_catch m h).
Proof.
  intros Hm Hh w H. specialize (Hm w H). unfold after, try_catch in *.
  destruct (m w) as [[a|e] w']; cbn in *; [exact Hm|].
  exact (Hh e w' Hm).
Qed.

Lemma keeps_getSupabaseAdmin : keeps_table P PropertyDatabase.getSupabaseAdmin.
Proof.
  intros w H. unfold after, PropertyDatabase.getSupabaseAdmin.
  destruct (supabase_admin_configured w); exact H.
Qed.

Lemma keeps_updateSyncStatus : keeps_table P PropertyDatabase.updateSyncStatus.
Proof.
  intros w H. run. destruct (supabase_admin_configured w); cbn; [|exact H].
  destruct (sync_status_failure w); exact H.
Qed.

Lemma keeps_authenticateService : keeps_table P SalesforceSync.authenticateService.
Proof.
  intros w H. unfold SalesforceSync.authenticateService. run.
  destruct (SALESFORCE_USERNAME w) as [u|]; cbn; [|exact H].
  destruct (SALESFORCE_PASSWORD w) as [p|]; cbn; [|exact H].
  destruct (str_truthy u && str_truthy p); cbn; exact H.
Qed.

Lemma keeps_fetchSalesforceProperties :
  keeps_table P SalesforceSync.fetchSalesforceProperties.
Proof.
  intros w H. unfold SalesforceSync.fetchSalesforceProperties. run.
  exact H.
Qed.

(** The handlers change the table through [PropertyDatabase.syncProperties]
    only. *)
Hypothesis keeps_syncProperties :
  forall props, keeps_table P (PropertyDatabase.syncProperties props).

Lemma keeps_SalesforceSync_syncProperties :
  keeps_table P SalesforceSync.syncProperties.
Proof.
  unfold SalesforceSync.syncProperties.
  apply keeps_try_catch; [|intros; apply keeps_ret].
  apply keeps_bind; [apply keeps_authenticateService|intros _].
  apply keeps_bind; [apply keeps_fetchSalesforceProperties|intros recs].
  destruct (Nat.eqb _ 0); [apply keeps_ret|].
  apply keeps_bind; [apply keeps_ask|intros B].
  apply keeps_bind; [apply keeps_ask|intros t].
  apply keeps_bind; [apply keeps_syncProperties|intros _].
  apply keeps_bind; [apply keeps_updateSyncStatus|intros _].
  apply keeps_ret.
Qed.

Lemma keeps_UpsertRoute_POST request : keeps_table P (UpsertRoute.POST request).
Proof.
  unfold UpsertRoute.POST.
  apply keeps_try_catch; [|intros; apply keeps_ret].
  apply keeps_bind; [apply keeps_ask|intros apiKey].
  destruct (UpsertRoute.refused _ _); [apply keeps_ret|].
  destruct (UpsertRoute.request_json request) as [body|]; [|apply keeps_throw].
  apply keeps_bind; [apply keeps_ask|intros B].
  apply keeps_bind; [apply keeps_ask|intros t].
  apply keeps_bind; [apply keeps_syncProperties|intros _].
  apply keeps_bind; [apply keeps_updateSyncStatus|intros _].
  apply keeps_ret.
Qed.

Lemma keeps_SyncRoute_POST authorization :
  keeps_table P (SyncRoute.POST authorization).
Proof.
  unfold SyncRoute.POST.
  apply keeps_try_catch; [|intros; apply keeps_ret].
  apply keeps_bind; [apply keeps_ask|intros apiKey].
  destruct (UpsertRoute.refused _ _); [apply keeps_ret|].
  apply keeps_bind; [apply keeps_SalesforceSync_syncProperties|intros r].
  apply keeps_bind; [apply keeps_ask|intros t].
  destruct (SalesforceSync.success r); apply keeps_ret.
Qed.

End KeepsTable.

(** ** Tiers of the stored rows *)

Lemma tier_check_In c :
  Schema.tier_check c = true <-> In (Schema.tier c) tier_enum.
Proof. apply mem_string_In. Qed.

Lemma upsert_one_tiers now fresh t c :
  Schema.tier_check c = true ->
  tiers_in_enum t -> tiers_in_enum (Schema.upsert_one now fresh t c).
Proof.
  intros Hc Ht. apply tier_check_In in Hc. unfold Schema.upsert_one.
  destruct (existsb (Schema.same_key c) t).
  - unfold tiers_in_enum in *. rewrite Forall_forall in *.
    intros r Hr. apply in_map_iff in Hr. destruct Hr as (r0 & <- & Hr0).
    destruct (Schema.same_key c r0); [exact Hc|now apply Ht].
  - apply Forall_app. split; [exact Ht|]. constructor; [exact Hc|constructor].
Qed.

Lemma upsert_rows_tiers now uuid cs : forall i t,
  forallb Schema.tier_check cs = true ->
  tiers_in_enum t -> tiers_in_enum (Schema.upsert_rows now uuid i t cs).
Proof.
  induction cs as [|c cs IH]; intros i t Hc Ht; cbn in *; [exact Ht|].
  apply andb_true_iff in Hc. destruct Hc as [Hc1 Hc2].
  apply IH; [exact Hc2|]. now apply upsert_one_tiers.
Qed.

(** The statement is accepted only when every payload row passes the check
    of the [tier] column. *)
Lemma upsert_properties_checked now uuid t cs t' :
  Schema.upsert_properties now uuid t cs = inl t' ->
  forallb Schema.tier_check cs = true /\
  t' = Schema.upsert_rows now uuid 0 t cs.
Proof.
  unfold Schema.upsert_properties.
  destruct (forallb Schema.not_null_ok cs); cbn; [|discriminate].
  destruct (forallb Schema.tier_check cs); cbn; [|discriminate].
  destruct (Schema.distinct (Schema.keys_of cs)); cbn; [|discriminate].
  destruct (Schema.distinct (map Schema.id _)); [|discriminate].
  intros [= <-]. auto.
Qed.

Lemma keeps_tiers_syncProperties props :
  keeps_table tiers_in_enum (PropertyDatabase.syncProperties props).
Proof.
  intros w H. rewrite syncProperties_table.
  destruct (supabase_admin_configured w); [|exact H].
  destruct (db_failure w); [exact H|].
  destruct (Schema.upsert_properties _ _ _ _) as [t'|e] eqn:E; [|exact H].
  apply upsert_properties_checked in E. destruct E as [Hc ->].
  now apply upsert_rows_tiers.
Qed.

(** The properties a successful sync wrote all have a tier of the enum. *)
Lemma written_tiers props w :
  outcome (PropertyDatabase.syncProperties props) w = Ok tt ->
  Forall (fun p => In (Database.tier p) tier_enum) props.
Proof.
  intros H. apply syncProperties_ok in H.
  destruct H as (_ & _ & t & Hu & _).
  apply upsert_properties_checked in Hu. destruct Hu as [Hc _].
  rewrite forallb_forall in Hc. apply Forall_forall. intros p Hp.
  apply (tier_check_In (PropertyDatabase.property_to_columns p)).
  apply Hc. now apply in_map.
Qed.

(** The transforms themselves pass any tier text on: ['Gold'] from the CRM
    becomes ['gold'], a posted ['Gold'] stays; the table refuses both. *)
Lemma transforms_do_not_check_tier :
  Database.tier (SalesforceSync.transformProperty sample_builtins "now"
                   (sample_record "a01" (Some "Gold") JsNull)) = "gold" /\
  Database.tier (UpsertRoute.transformInput sample_builtins "now"
                   (sample_input (Some "a01") (Some "Gold") JsNull)) = "Gold" /\
  outcome (PropertyDatabase.syncProperties
             (SalesforceSync.transformProperties sample_builtins "now"
                [sample_record "a01" (Some "Gold") JsNull])) sample_world
    = Throw (Thrown Schema.check_violation).
Proof. repeat split. Qed.

(** C5 — enum membership of stored tiers.  Whatever the CRM records or the
    posted properties, arbitrary tier texts included, the properties that
    the sync transform or the upsert endpoint produced and that were written
    all have a tier among ['public'], ['registered'], ['vip'], and the sync,
    the upsert endpoint and the sync endpoint leave a table whose rows all
    have such a tier. *)
Theorem stored_tiers_in_enum (w : World) :
  tiers_in_enum (properties_table w) ->
  (forall B now records,
     let props := SalesforceSync.transformProperties B now records in
     (outcome (PropertyDatabase.syncProperties props) w = Ok tt ->
        Forall (fun p => In (Database.tier p) tier_enum) props) /\
     tiers_in_enum
       (properties_table (after (PropertyDatabase.syncProperties props) w))) /\
  (forall B now inputs,
     let props := map (UpsertRoute.transformInput B now) inputs in
     (outcome (PropertyDatabase.syncProperties props) w = Ok tt ->
        Forall (fun p => In (Database.tier p) tier_enum) props) /\
     tiers_in_enum
       (properties_table (after (PropertyDatabase.syncProperties props) w))) /\
  tiers_in_enum (properties_table (after SalesforceSync.syncProperties w)) /\
  (forall request,
     tiers_in_enum (properties_table (after (UpsertRoute.POST request) w))) /\
  (forall authorization,
     tiers_in_enum (properties_table (after (SyncRoute.POST authorization) w))).
Proof.
  intros H. repeat split.
  - apply written_tiers.
  - now apply keeps_tiers_syncProperties.
  - apply written_tiers.
  - now apply keeps_tiers_syncProperties.
  - apply keeps_SalesforceSync_syncProperties;
      [apply keeps_tiers_syncProperties|exact H].
  - intros request. apply keeps_UpsertRoute_POST;
      [apply keeps_tiers_syncProperties|exact H].
  - intros authorization. apply keeps_SyncRoute_POST;
      [apply keeps_tiers_syncProperties|exact H].
Qed.

Lemma sample_table_tiers : tiers_in_enum sample_table.
Proof.
  unfold tiers_in_enum, sample_table, tier_enum.
  repeat (apply Forall_cons; [cbn; tauto|]). apply Forall_nil.
Defined.

Lemma stored_tiers_in_enum_witness :
  let records := [sample_record "a07" None (JsNum (of_Z 2000000));
                  sample_record "a02" (Some "Registered") JsNull] in
  let props := SalesforceSync.transformProperties sample_builtins "now" records in
  let request :=
    {| UpsertRoute.authorization := None;
       UpsertRoute.request_json :=
         Some (UpsertRoute.Many
                 [sample_input (Some "a08") (Some "Gold") JsNull]) |} in
  Forall (fun p => In (Database.tier p) tier_enum) props /\
  tiers_in_enum
    (properties_table (after (PropertyDatabase.syncProperties props) sample_world)) /\
  tiers_in_enum
    (properties_table (after (UpsertRoute.POST request) sample_world)).
Proof.
  cbv zeta.
  pose proof (stored_tiers_in_enum sample_world sample_table_tiers)
    as (H1 & _ & _ & H4 & _).
  destruct (H1 sample_builtins "now"
              [sample_record "a07" None (JsNum (of_Z 2000000));
               sample_record "a02" (Some "Registered") JsNull]) as [Ha Hb].
  split; [exact (Ha eq_refl)|]. split; [exact Hb|]. apply H4.
Defined.

Example sync_pipeline_sample :
  let records := [sample_record "a07" None (JsNum (of_Z 2000000));
                  sample_record "a02" (Some "Registered") JsNull] in
  let props := SalesforceSync.transformProperties sample_builtins "now" records in
  map (fun r => (Schema.salesforce_id (Schema.cols r), Schema.tier (Schema.cols r)))
    (properties_table (after (PropertyDatabase.syncProperties props) sample_world))
  = [(Some "a01", "public"); (Some "a02", "registered"); (Some "a03", "vip");
     (Some "a07", "vip")].
Proof. reflexivity. Qed.

Example upsert_route_rejected_tier :
  let request :=
    {| UpsertRoute.authorization := None;
       UpsertRoute.request_json :=
         Some (UpsertRoute.Single (sample_input (Some "a08") (Some "Gold") JsNull)) |} in
  option_map status (response (UpsertRoute.POST request) sample_world) = Some 500 /\
  properties_table (after (UpsertRoute.POST request) sample_world) = sample_table.
Proof. split; reflexivity. Qed.

(** ** Counting external calls and HTTP requests *)

Lemma total_cost_app (a b : list Call) :
  total_cost (a ++ b) = total_cost a + total_cost b.
Proof. unfold total_cost. now rewrite map_app, list_sum_app. Qed.

Lemma emits_calls {A} (m : M A) (n : nat) (w : World) :
  emits m n -> total_cost (calls_of m w) <= n.
Proof.
  intros H. destruct (H w) as (cs & E & L). unfold calls_of.
  rewrite E, skipn_prefix. exact L.
Qed.

Lemma emits_weaken {A} (m : M A) (a b : nat) :
  emits m a -> a <= b -> emits m b.
Proof.
  intros H L w. destruct (H w) as (cs & E & L'). exists cs. split; [exact E|lia].
Qed.

Lemma emits_ret {A} (a : A) : emits (ret a) 0.
Proof. intros w. exists []. cbn. now rewrite app_nil_r. Qed.

Lemma emits_throw {A} (e : Exn) : emits (@throw A e) 0.
Proof. intros w. exists []. cbn. now rewrite app_nil_r. Qed.

Lemma emits_ask {A} (f : World -> A) : emits (ask f) 0.
Proof. intros w. exists []. cbn. now rewrite app_nil_r. Qed.

Lemma emits_lift_result {A} (r : Result A) : emits (lift_result r) 0.
Proof. intros w. exists []. cbn. now rewrite app_nil_r. Qed.

Lemma emits_call (c : Call) : emits (call c) (cost c).
Proof. intros w. exists [c]. cbn. split; [reflexivity|lia]. Qed.

Lemma emits_bind {A B} (m : M A) (k : A -> M B) (a b : nat) :
  emits m a -> (forall x, emits (k x) b) -> emits (bind m k) (a + b).
Proof.
  intros Hm Hk w. destruct (Hm w) as (cs & E & L).
  unfold after, bind in *. destruct (m w) as [[x|e] w']; cbn in *.
  - destruct (Hk x w') as (cs' & E' & L'). unfold after in E'.
    exists (cs ++ cs'). rewrite E', E, app_assoc, total_cost_app.
    split; [reflexivity|lia].
  - exists cs. split; [exact E|lia].
Qed.

Lemma emits_try_catch {A} (m : M A) (h : Exn -> M A) (a b : nat) :
  emits m a -> (forall e, emits (h e) b) -> emits (try_catch m h) (a + b).
Proof.
  intros Hm Hh w. destruct (Hm w) as (cs & E & L).
  unfold after, try_catch in *. destruct (m w) as [[x|e] w']; cbn in *.
  - exists cs. split; [exact E|lia].
  - destruct (Hh e w') as (cs' & E' & L'). unfold after in E'.
    exists (cs ++ cs'). rewrite E', E, app_assoc, total_cost_app.
    split; [reflexivity|lia].
Qed.

(** A bind within a budget: what the first part may use is taken off. *)
Lemma emits_bind_within {A B} (m : M A) (k : A -> M B) (a n : nat) :
  emits m a -> a <= n -> (forall x, emits (k x) (n - a)) -> emits (bind m k) n.
Proof.
  intros Hm L Hk. apply (emits_weaken _ (a + (n - a))); [|lia].
  now apply emits_bind.
Qed.

(** A handler that catches without calling. *)
Lemma emits_try_within {A} (m : M A) (h : Exn -> M A) (n : nat) :
  emits m n -> (forall e, emits (h e) 0) -> emits (try_catch m h) n.
Proof.
  intros Hm Hh. apply (emits_weaken _ (n + 0)); [|lia].
  now apply emits_try_catch.
Qed.

(** A call of a method of the client costs what the method costs, or
    nothing when the class does not declare it. *)
Lemma emits_client_call {A} (receiver name : string) (m : M A) (n : nat) :
  emits m n -> emits (client_call receiver name m) n.
Proof.
  intros H. unfold client_call.
  destruct (existsb _ _); [exact H|].
  apply (emits_weaken _ 0); [apply emits_throw|lia].
Qed.

Lemma emits_getSupabase : emits PropertyDatabase.getSupabase 0.
Proof.
  intros w. exists []. unfold after, PropertyDatabase.getSupabase.
  destruct (supabase_configured w); cbn; now rewrite app_nil_r.
Qed.

Lemma emits_getSupabaseAdmin : emits PropertyDatabase.getSupabaseAdmin 0.
Proof.
  intros w. exists []. unfold after, PropertyDatabase.getSupabaseAdmin.
  destruct (supabase_admin_configured w); cbn; now rewrite app_nil_r.
Qed.

Create HintDb emits discriminated.
#[local] Hint Resolve emits_getSupabase emits_getSupabaseAdmin : emits.

(** A straight line of steps: the bounds add up.  The steps of the monad
    are told by their head, a named computation by its lemma. *)
Ltac emits_line :=
  lazymatch goal with
  | |- emits (ret _) _ => apply emits_ret
  | |- emits (throw _) _ => apply emits_throw
  | |- emits (ask _) _ => apply emits_ask
  | |- emits (lift_result _) _ => apply emits_lift_result
  | |- emits (call _) _ => apply emits_call
  | |- emits (bind _ _) _ =>
      eapply emits_bind; [emits_line | intros; emits_line]
  | |- emits (client_call _ _ _) _ => apply emits_client_call; emits_line
  | |- emits (if ?b then _ else _) _ => destruct b; emits_line
  | |- _ => solve [eauto 1 with emits nocore]
  end.

(** A computation within a budget: branches are followed, each bind takes
    the bound of its first part off the budget. *)
Ltac emits_within :=
  cbv zeta;
  lazymatch goal with
  | |- emits (bind _ _) _ =>
      eapply emits_bind_within;
        [emits_line | cbn; lia | intros; cbn [Nat.sub cost]; emits_within]
  | |- emits (try_catch _ _) _ =>
      apply emits_try_within; [emits_within | intros; emits_within]
  | |- emits (client_call _ _ _) _ => apply emits_client_call; emits_within
  | |- emits (if ?b then _ else _) _ => destruct b; emits_within
  | |- emits (match ?x with _ => _ end) _ => destruct x; emits_within
  | |- _ => eapply emits_weaken; [emits_line | cbn; lia]
  end.

Lemma emits_getProperties tier limit :
  emits (PropertyDatabase.getProperties tier limit) 1.
Proof.
  unfold PropertyDatabase.getProperties, PropertyDatabase.run_select.
  emits_within.
Qed.

Lemma emits_getLastSyncTime : emits PropertyDatabase.getLastSyncTime 1.
Proof. unfold PropertyDatabase.getLastSyncTime. emits_within. Qed.

Lemma emits_updateSyncStatus : emits PropertyDatabase.updateSyncStatus 1.
Proof.
  unfold PropertyDatabase.updateSyncStatus.
  eapply emits_bind_within; [emits_line|cbn; lia|intros _; cbn [Nat.sub]].
  eapply emits_bind_within; [emits_line|cbn; lia|intros _; cbn [Nat.sub cost]].
  eapply emits_bind_within; [emits_line|cbn; lia|intros f; cbn [Nat.sub]].
  destruct f; [apply emits_ret|].
  intros w. exists []. cbn. now rewrite app_nil_r.
Qed.

Lemma emits_syncProperties props :
  emits (PropertyDatabase.syncProperties props) 1.
Proof.
  unfold PropertyDatabase.syncProperties.
  eapply emits_bind_within; [emits_line|cbn; lia|intros _; cbn [Nat.sub]].
  eapply emits_bind_within; [emits_line|cbn; lia|intros _; cbn [Nat.sub cost]].
  eapply emits_bind_within; [emits_line|cbn; lia|intros f; cbn [Nat.sub]].
  destruct f; [apply emits_throw|].
  intros w. exists []. unfold after.
  destruct (Schema.upsert_properties _ _ _ _); cbn; now rewrite app_nil_r.
Qed.

#[local] Hint Resolve emits_getProperties emits_getLastSyncTime
  emits_updateSyncStatus emits_syncProperties : emits.

(** The sync utility stops at the first call of its client: the class does
    not declare [authenticateWithCredentials]. *)
Lemma SalesforceSync_syncProperties_run w :
  SalesforceSync.syncProperties w
  = (Ok {| SalesforceSync.success := false; SalesforceSync.count := 0;
           SalesforceSync.errors :=
             [if opt_truthy (SALESFORCE_USERNAME w)
                 && opt_truthy (SALESFORCE_PASSWORD w)
              then not_a_function "this.salesforceClient.authenticateWithCredentials"
              else "SALESFORCE_USERNAME and SALESFORCE_PASSWORD must be set for sync operations"] |},
     w).
Proof.
  unfold SalesforceSync.syncProperties, SalesforceSync.authenticateService,
    client_call.
  unfold try_catch, bind, ask, throw, ret. cbn.
  destruct (SALESFORCE_USERNAME w) as [u|]; cbn; [|reflexivity].
  destruct (SALESFORCE_PASSWORD w) as [p|]; cbn;
    [|now rewrite andb_false_r].
  destruct (str_truthy u), (str_truthy p); reflexivity.
Qed.

Lemma emits_SalesforceSync_syncProperties : emits SalesforceSync.syncProperties 0.
Proof.
  intros w. exists []. unfold after.
  rewrite SalesforceSync_syncProperties_run. cbn. now rewrite app_nil_r.
Qed.

#[local] Hint Resolve emits_SalesforceSync_syncProperties : emits.

Lemma emits_querySalesforce : emits PropertiesRoute.querySalesforce 1.
Proof. unfold PropertiesRoute.querySalesforce. emits_within. Qed.

#[local] Hint Resolve emits_querySalesforce : emits.

(** *** The handlers of the application's data *)

Lemma emits_detail propertyId : emits (PropertyDetailRoute.GET propertyId) 3.
Proof. unfold PropertyDetailRoute.GET. emits_within. Qed.

Lemma emits_listing request : emits (PropertiesRoute.GET request) 1.
Proof. unfold PropertiesRoute.GET. emits_within. Qed.

Lemma emits_db_listing request : emits (PropertiesDbRoute.GET request) 2.
Proof. unfold PropertiesDbRoute.GET. emits_within. Qed.

Lemma emits_upsert request : emits (UpsertRoute.POST request) 2.
Proof. unfold UpsertRoute.POST. emits_within. Qed.

Lemma emits_sync authorization : emits (SyncRoute.POST authorization) 0.
Proof. unfold SyncRoute.POST. emits_within. Qed.

Lemma emits_webhook req : emits (ClerkWebhook.POST req) 2.
Proof. unfold ClerkWebhook.POST. emits_within. Qed.

(** Whether the class declares the method of a [client_call] is told by
    computing. *)
Ltac decide_declared :=
  unfold client_call;
  repeat match goal with
         | |- context [existsb (String.eqb ?n) SalesforceClient_methods] =>
             let b := eval vm_compute in
                        (existsb (String.eqb n) SalesforceClient_methods) in
             change (existsb (String.eqb n) SalesforceClient_methods) with b
         end;
  cbv iota.

Lemma emits_authenticateService : emits SalesforceSync.authenticateService 0.
Proof.
  unfold SalesforceSync.authenticateService. decide_declared. emits_within.
Qed.

Lemma emits_probe answer : emits (SyncProbe.GET answer) 0.
Proof.
  unfold SyncProbe.GET.
  apply emits_try_within; [|intros; emits_within].
  eapply emits_bind_within; [|reflexivity|intros; emits_within].
  unfold SyncProbe.testConnection.
  apply emits_try_within; [|intros; emits_within].
  eapply emits_bind_within;
    [apply emits_authenticateService|reflexivity|intros; cbn [Nat.sub]].
  decide_declared. emits_within.
Qed.

Lemma emits_upsert_info : emits StaticRoutes.upsert_info 0.
Proof. unfold StaticRoutes.upsert_info. emits_within. Qed.

Lemma emits_webhook_get : emits StaticRoutes.webhook_get 0.
Proof. unfold StaticRoutes.webhook_get. emits_within. Qed.

(** *** The handlers of the OAuth flow and the explorers *)

Lemma emits_authorize env P redirect_param :
  emits (SalesforceOAuth.authorize env P redirect_param) 0.
Proof. unfold SalesforceOAuth.authorize. emits_within. Qed.

Lemma emits_authorize_pkce env P redirect_param :
  emits (SalesforceOAuth.authorize_pkce env P redirect_param) 0.
Proof. unfold SalesforceOAuth.authorize_pkce. emits_within. Qed.

Lemma emits_initiate env P : emits (SalesforceOAuth.initiate env P) 0.
Proof. unfold SalesforceOAuth.initiate. emits_within. Qed.

Lemma emits_exchangeCodeForToken env token code codeVerifier :
  emits (SalesforceOAuth.exchangeCodeForToken env token code codeVerifier) 1.
Proof. unfold SalesforceOAuth.exchangeCodeForToken. emits_within. Qed.

Lemma emits_log_token tokenData : emits (SalesforceOAuth.log_token tokenData) 0.
Proof. unfold SalesforceOAuth.log_token. emits_within. Qed.

#[local] Hint Resolve emits_exchangeCodeForToken emits_log_token : emits.

Lemma emits_callback env P token request :
  emits (SalesforceOAuth.callback env P token request) 1.
Proof. unfold SalesforceOAuth.callback. emits_within. Qed.

Lemma emits_callback_pkce env token request :
  emits (SalesforceOAuth.callback_pkce env token request) 1.
Proof. unfold SalesforceOAuth.callback_pkce. emits_within. Qed.

Lemma emits_callback_plain env token request :
  emits (SalesforceOAuth.callback_plain env token request) 1.
Proof. unfold SalesforceOAuth.callback_plain. emits_within. Qed.

Lemma emits_objects answer request :
  emits (SalesforceExplorer.objects answer request) 1.
Proof. unfold SalesforceExplorer.objects. emits_within. Qed.

Lemma emits_describe answer request :
  emits (SalesforceExplorer.describe answer request) 1.
Proof. unfold SalesforceExplorer.describe. emits_within. Qed.

(** *** The draft of the listing *)

Lemma emits_throughClient live B now dealTypes markets limit offset request :
  emits (PropertiesDraftRoute.throughClient live B now dealTypes markets
           limit offset request) 2.
Proof. unfold PropertiesDraftRoute.throughClient. emits_within. Qed.

Lemma emits_queried B now dealTypes :
  emits (PropertiesDraftRoute.queried B now dealTypes) 1.
Proof. unfold PropertiesDraftRoute.queried. emits_within. Qed.

#[local] Hint Resolve emits_throughClient emits_queried : emits.

Lemma emits_draft live request : emits (PropertiesDraftRoute.GET live request) 3.
Proof. unfold PropertiesDraftRoute.GET. emits_within. Qed.

(** *** From calls to requests *)

Lemma sends_makeRequest (net : SalesforceClient.Net) {T}
    (answer : SalesforceClient.Request -> SalesforceClient.Fetched T)
    (endpoint : string) (method : SalesforceClient.Method)
    (body : option Crm.SalesforceLeadPayload) :
  client_sends (SalesforceClient.makeRequest net answer endpoint method body) 2.
Proof.
  intros st.
  unfold SalesforceClient.makeRequest, SalesforceClient.ensureAuthenticated,
    SalesforceClient.authenticate, SalesforceClient.now,
    SalesforceClient.store, SalesforceClient.send, SalesforceClient.this,
    SalesforceClient.try_catch, SalesforceClient.bind, SalesforceClient.ret,
    SalesforceClient.throw.
  cbn -[String.append].
  repeat match goal with
         | |- context [if ?b then _ else _] =>
             destruct b; cbn -[String.append]
         | |- context [match SalesforceClient.token_answer net ?r with _ => _ end] =>
             destruct (SalesforceClient.token_answer net r); cbn -[String.append]
         | |- context [match answer ?r with _ => _ end] =>
             destruct (answer r); cbn -[String.append]
         end;
    first [ exists []; split; [symmetry; apply app_nil_r | cbn; lia]
          | eexists; split; [rewrite <- ?app_assoc; reflexivity | cbn; lia] ].
Qed.

Lemma client_step_sends net B c step :
  client_step net B c = Some step ->
  forall st, exists l,
    SalesforceClient.sent (step st) = SalesforceClient.sent st ++ l /\
    List.length l <= cost c.
Proof.
  destruct c; cbn; try discriminate; intros [= <-] st;
    apply sends_makeRequest.
Qed.

(** The requests of a list of calls are at most what the calls cost. *)
Lemma http_requests_bound net B (cs : list Call) :
  forall st, List.length (http_requests net B st cs) <= total_cost cs.
Proof.
  induction cs as [|c cs IH]; intros st; [cbn; lia|].
  change (total_cost (c :: cs)) with (cost c + total_cost cs).
  cbn [http_requests].
  destruct (client_step net B c) as [step|] eqn:E.
  - destruct (client_step_sends _ _ _ _ E st) as (l & Hl & Hn).
    rewrite Hl, skipn_prefix, length_app, length_map.
    specialize (IH (step st)). lia.
  - cbn [List.length]. specialize (IH st).
    assert (1 <= cost c) by (destruct c; cbn; lia). lia.
Qed.

Lemma emits_requests {A} (m : M A) (n : nat) net st w :
  emits m n -> List.length (requests_of net st m w) <= n.
Proof.
  intros H. unfold requests_of.
  etransitivity; [apply http_requests_bound|]. now apply emits_calls.
Qed.

Lemma emits_no_request {A} (m : M A) net st w :
  emits m 0 -> requests_of net st m w = [].
Proof.
  intros H. apply length_zero_iff_nil.
  pose proof (emits_requests m 0 net st w H). lia.
Qed.

(** The detail handler calls Salesforce, and Cloudinary only after it. *)
Lemma detail_calls_in_order w propertyId :
  calls_of (PropertyDetailRoute.GET propertyId) w = [] \/
  calls_of (PropertyDetailRoute.GET propertyId) w
    = [SalesforceGetTransaction propertyId] \/
  calls_of (PropertyDetailRoute.GET propertyId) w
    = [SalesforceGetTransaction propertyId;
       CloudinaryGetPropertyImages propertyId].
Proof.
  unfold PropertyDetailRoute.GET. run.
  destruct (clerk_auth w) as [userId|e]; cbn.
  2:{ left. destruct e; cbn; [destruct (includes _ _)|]; cbn; now trace_done. }
  destruct (sf_getTransaction w propertyId) as [t|e]; cbn.
  2:{ right; left.
      destruct e; cbn; [destruct (includes _ _)|]; cbn; now trace_done. }
  destruct ((Types.Access_Tier__c t =? "vip") && _); cbn;
    [right; left; now trace_done|].
  destruct ((Types.Access_Tier__c t =? "registered") && _); cbn;
    [right; left; now trace_done|].
  right; right. now trace_done.
Qed.

(** C9, as the specification words it, fails: the property detail handler
    calls Salesforce and then Cloudinary before it answers, the upsert
    handler writes the rows and then the sync status, and the listing
    without Salesforce cookies answers without any call. *)
Lemma detail_route_calls_twice :
  calls_of (PropertyDetailRoute.GET "a01") sample_world
    = [SalesforceGetTransaction "a01"; CloudinaryGetPropertyImages "a01"] /\
  List.length
    (calls_of (UpsertRoute.POST
                 {| UpsertRoute.authorization := None;
                    UpsertRoute.request_json :=
                      Some (UpsertRoute.Single
                              (sample_input (Some "a08") None JsNull)) |})
       sample_world) = 2 /\
  calls_of (PropertiesRoute.GET
              {| PropertiesRoute.dealTypes_param := None;
                 PropertiesRoute.sf_access_token := None;
                 PropertiesRoute.sf_instance_url := None |})
    sample_world = [] /\
  ~ (forall propertyId w,
       List.length (calls_of (PropertyDetailRoute.GET propertyId) w) = 1).
Proof.
  split; [reflexivity|]. split; [reflexivity|]. split; [reflexivity|].
  intros H. specialize (H "a01" sample_world). discriminate H.
Qed.

(** C9 (amended) — every route handler answers after a bounded, straight
    sequence of HTTP requests to services outside the process, with no
    retry, whatever the network answers and whatever token the client of
    Salesforce holds.  No request at all: the three handlers that start the
    OAuth flow, the two static [GET]s, and the two handlers of the sync
    endpoint, whose calls of the client throw before anything is sent.  At
    most one: the Salesforce-backed listing, the three OAuth callbacks and
    the two explorers.  At most two: the database-backed listing (select,
    then sync status), the upsert endpoint (upsert, then sync status) and
    the webhook receiver (token, then lead).  At most three: the property
    detail (token, transaction, then images, in this order of calls) and
    the draft of the listing (token and query of the client, then its own
    query).  The session read by [auth()] and the signature checked by
    svix stay within the process. *)
Theorem handlers_call_bounds
    (w : World) (net : SalesforceClient.Net) (st : SalesforceClient.State) :
  ((forall env P redirect_param,
      requests_of net st (SalesforceOAuth.authorize env P redirect_param) w = []) /\
   (forall env P redirect_param,
      requests_of net st (SalesforceOAuth.authorize_pkce env P redirect_param) w
      = []) /\
   (forall env P,
      requests_of net st (SalesforceOAuth.initiate env P) w = []) /\
   requests_of net st StaticRoutes.upsert_info w = [] /\
   requests_of net st StaticRoutes.webhook_get w = [] /\
   (forall authorization,
      requests_of net st (SyncRoute.POST authorization) w = []) /\
   (forall answer,
      requests_of net st (SyncProbe.GET answer) w = [])) /\
  ((forall request,
      List.length (requests_of net st (PropertiesRoute.GET request) w) <= 1) /\
   (forall env P token request,
      List.length
        (requests_of net st (SalesforceOAuth.callback env P token request) w)
      <= 1) /\
   (forall env token request,
      List.length
        (requests_of net st (SalesforceOAuth.callback_pkce env token request) w)
      <= 1) /\
   (forall env token request,
      List.length
        (requests_of net st (SalesforceOAuth.callback_plain env token request) w)
      <= 1) /\
   (forall answer request,
      List.length
        (requests_of net st (SalesforceExplorer.objects answer request) w)
      <= 1) /\
   (forall answer request,
      List.length
        (requests_of net st (SalesforceExplorer.describe answer request) w)
      <= 1)) /\
  ((forall request,
      List.length (requests_of net st (PropertiesDbRoute.GET request) w) <= 2) /\
   (forall request,
      List.length (requests_of net st (UpsertRoute.POST request) w) <= 2) /\
   (forall req,
      List.length (requests_of net st (ClerkWebhook.POST req) w) <= 2)) /\
  ((forall propertyId,
      List.length (requests_of net st (PropertyDetailRoute.GET propertyId) w)
      <= 3) /\
   (forall live request,
      List.length (requests_of net st (PropertiesDraftRoute.GET live request) w)
      <= 3)) /\
  (forall propertyId,
     calls_of (PropertyDetailRoute.GET propertyId) w = [] \/
     calls_of (PropertyDetailRoute.GET propertyId) w
       = [SalesforceGetTransaction propertyId] \/
     calls_of (PropertyDetailRoute.GET propertyId) w
       = [SalesforceGetTransaction propertyId;
          CloudinaryGetPropertyImages propertyId]).
Proof.
  split; [|split; [|split; [|split]]].
  - repeat split; intros; apply emits_no_request.
    + apply emits_authorize.
    + apply emits_authorize_pkce.
    + apply emits_initiate.
    + apply emits_upsert_info.
    + apply emits_webhook_get.
    + apply emits_sync.
    + apply emits_probe.
  - repeat split; intros; apply emits_requests.
    + apply emits_listing.
    + apply emits_callback.
    + apply emits_callback_pkce.
    + apply emits_callback_plain.
    + apply emits_objects.
    + apply emits_describe.
  - repeat split; intros; apply emits_requests.
    + apply emits_db_listing.
    + apply emits_upsert.
    + apply emits_webhook.
  - split; intros; apply emits_requests.
    + apply emits_detail.
    + apply emits_draft.
  - intros. apply detail_calls_in_order.
Qed.

(** The bounds are met.  On a client just constructed the property detail
    sends three requests, the token request, the transaction and the image
    list; the webhook receiver sends two for a signup; the draft of the
    listing sends three when the client finds no record and the request
    carries the two cookies the handler's own query needs. *)
Example requests_on_a_cold_client :
  let st := fresh (sample_env (Some "s3cret")) in
  let login := login_of (SalesforceClient.client st) in
  let api method endpoint body :=
    api_call method "https://cedar.my.salesforce.com" "00D-token" endpoint body in
  let emails :=
    [ {| Clerk.email_address := "ada@cedar.test"; Clerk.email_primary := true |} ] in
  let signup :=
    on_client sample_net st
      (world_of (Ok None) None [] (FetchNotOk "") (Some (signup_event emails))) in
  let lead := ClerkWebhook.leadData_of (sample_user emails) "ada@cedar.test" in
  let cookies :=
    {| PropertiesDraftRoute.dealTypes_param := None;
       PropertiesDraftRoute.markets_param := None;
       PropertiesDraftRoute.limit_param := None;
       PropertiesDraftRoute.offset_param := None;
       PropertiesDraftRoute.sf_access_token := Some "00D";
       PropertiesDraftRoute.sf_refresh_token := None;
       PropertiesDraftRoute.sf_instance_url :=
         Some "https://cedar.my.salesforce.com" |} in
  requests_of sample_net st (PropertyDetailRoute.GET "a01")
    (on_client sample_net st sample_world)
  = [OfClient login;
     OfClient (api SalesforceClient.GET "/sobjects/Transaction__c/a01" None);
     OfCall (CloudinaryGetPropertyImages "a01")] /\
  requests_of sample_net st (ClerkWebhook.POST sample_request) signup
  = [OfClient login;
     OfClient (api SalesforceClient.POST "/sobjects/Lead/" (Some lead))] /\
  List.length
    (requests_of sample_net st
       (PropertiesDraftRoute.GET
          (Throw (JsError "Salesforce API error: INVALID_TYPE")) cookies)
       sample_world) = 3.
Proof. cbv zeta. split; [|split]; vm_compute; reflexivity. Qed.

Example sync_route_calls :
  let records := [sample_record "a07" None (JsNum (of_Z 2000000))] in
  let w := with_crm_records records sample_world in
  calls_of (SyncRoute.POST None) w = [] /\
  response (SyncRoute.POST None) w
    = Some (json (SyncRoute.SyncFailed
                    ["this.salesforceClient.authenticateWithCredentials is not a function"])
              500) /\
  properties_table (after (SyncRoute.POST None) w) = sample_table.
Proof. repeat split. Qed.

(* ================================================================== *)
(** * Further properties *)
(* ================================================================== *)

(** ** The listing read from the table *)






(** X2 — nothing visible is withheld.  With a working database and a limit
    that covers the table, the listing of [getProperties] is exactly the
    stored rows that are ['Active'], not cancelled, and of a tier the viewer
    tier may see. *)
Theorem getProperties_lists_exactly
    (tier : option string) (n : nat) (w : World) (p : Database.Property) :
  supabase_configured w = true -> db_failure w = None ->
  List.length (properties_table w) <= n ->
  In p (returned (PropertyDatabase.getProperties tier (Some (Schema.Count n))) w)
  <->
  exists row,
    In row (properties_table w) /\ p = PropertyDatabase.row_to_property row /\
    Schema.listed row = true /\
    Schema.tier_matches (PropertyDatabase.tier_filter tier) row = true.
Proof.
  intros Hc Hf Hn. split.
  - apply getProperties_returned.
  - intros (row & Hin & -> & Hl & Hm).
    now apply getProperties_complete.
Qed.

Lemma getProperties_lists_exactly_witness :
  let w := sample_world in
  let p := PropertyDatabase.row_to_property
             (sample_row "u2" "a02" "registered" "2024-01-03T00:00:00.000Z" 450000) in
  In p (returned (PropertyDatabase.getProperties (Some "registered")
                    (Some (Schema.Count 3))) w)
  <->
  exists row,
    In row (properties_table w) /\ p = PropertyDatabase.row_to_property row /\
    Schema.listed row = true /\
    Schema.tier_matches (PropertyDatabase.tier_filter (Some "registered")) row
    = true.
Proof.
  apply (getProperties_lists_exactly (Some "registered") 3 sample_world);
    [reflexivity | reflexivity | cbn; lia].
Defined.

(** ** One property by its identifier *)

Lemma filter_id_unique (r : Schema.Row) : forall t,
  NoDup (map Schema.id t) -> In r t ->
  filter (fun x => Schema.id x =? Schema.id r) t = [r].
Proof.
  induction t as [|x t IH]; intros Hd Hin; [destruct Hin|].
  simpl in Hd. inversion Hd as [|? ? Hx Hd']; subst. simpl.
  destruct Hin as [->|Hin].
  - rewrite String.eqb_refl. f_equal.
    clear - Hx. induction t as [|y t IH]; simpl; [reflexivity|].
    destruct (Schema.id y =? Schema.id r) eqn:E.
    + apply String.eqb_eq in E. exfalso. apply Hx. left. exact E.
    + apply IH. intros H. apply Hx. right. exact H.
  - destruct (Schema.id x =? Schema.id r) eqn:E.
    + apply String.eqb_eq in E. exfalso. apply Hx. rewrite E.
      now apply in_map.
    + now apply IH.
Qed.

Lemma filter_id_absent (id : string) : forall t,
  ~ In id (map Schema.id t) -> filter (fun x => Schema.id x =? id) t = [].
Proof.
  induction t as [|x t IH]; intros H; simpl; [reflexivity|].
  destruct (Schema.id x =? id) eqn:E.
  - apply String.eqb_eq in E. exfalso. apply H. left. exact E.
  - apply IH. intros H'. apply H. right. exact H'.
Qed.


(** X3 — lookup by identifier.  With a working database whose rows have
    distinct identifiers, [getProperty] returns a stored row when asked for
    its identifier, and [null] when asked for an identifier no row has; it
    changes nothing. *)
Theorem getProperty_finds_by_id (w : World) :
  supabase_configured w = true -> db_failure w = None ->
  NoDup (map Schema.id (properties_table w)) ->
  (forall row, In row (properties_table w) ->
     value (PropertyLookup.getProperty (Schema.id row)) w = Some (Some row)) /\
  (forall id, ~ In id (map Schema.id (properties_table w)) ->
     value (PropertyLookup.getProperty id) w = Some None) /\
  (forall id, after (PropertyLookup.getProperty id) w = w).
Proof.
  intros Hc Hf Hd. unfold value, PropertyLookup.getProperty,
    PropertyLookup.select_single. run. rewrite Hc. cbn. rewrite Hf. cbn.
  split; [|split].
  - intros row Hin. rewrite (filter_id_unique row _ Hd Hin). reflexivity.
  - intros id Hid. rewrite (filter_id_absent id _ Hid). reflexivity.
  - intros id.
    destruct (filter _ (properties_table w)) as [|r [|r' l]]; reflexivity.
Qed.

Lemma getProperty_finds_by_id_witness :
  (forall row, In row (properties_table sample_world) ->
     value (PropertyLookup.getProperty (Schema.id row)) sample_world
     = Some (Some row)) /\
  (forall id, ~ In id (map Schema.id (properties_table sample_world)) ->
     value (PropertyLookup.getProperty id) sample_world = Some None) /\
  (forall id, after (PropertyLookup.getProperty id) sample_world = sample_world).
Proof.
  apply (getProperty_finds_by_id sample_world); [reflexivity | reflexivity |].
  cbn. repeat constructor; cbn; intuition discriminate.
Defined.

(** ** What a sync leaves in the table *)


Lemma upsert_properties_accepts now uuid t cs t' :
  Schema.upsert_properties now uuid t cs = inl t' ->
  forallb Schema.not_null_ok cs = true /\
  forallb Schema.tier_check cs = true /\
  Schema.distinct (Schema.keys_of cs) = true /\
  t' = Schema.upsert_rows now uuid 0 t cs /\
  Schema.distinct (map Schema.id t') = true.
Proof.
  unfold Schema.upsert_properties.
  destruct (forallb Schema.not_null_ok cs); cbn; [|discriminate].
  destruct (forallb Schema.tier_check cs); cbn; [|discriminate].
  destruct (Schema.distinct (Schema.keys_of cs)); cbn; [|discriminate].
  destruct (Schema.distinct (map Schema.id _)) eqn:E; [|discriminate].
  intros [= <-]. auto.
Qed.

Lemma upsert_one_ids now fresh t c :
  map Schema.id (Schema.upsert_one now fresh t c)
  = map Schema.id t ++ (if existsb (Schema.same_key c) t then [] else [fresh]).
Proof.
  unfold Schema.upsert_one. destruct (existsb (Schema.same_key c) t).
  - rewrite app_nil_r, map_map. apply map_ext. intros r.
    now destruct (Schema.same_key c r).
  - now rewrite map_app.
Qed.

Lemma upsert_rows_ids now uuid cs : forall i t,
  exists fresh,
    map Schema.id (Schema.upsert_rows now uuid i t cs) = map Schema.id t ++ fresh.
Proof.
  induction cs as [|c cs IH]; intros i t; cbn.
  - exists []. now rewrite app_nil_r.
  - destruct (IH (S i) (Schema.upsert_one now (uuid i) t c)) as [fresh E].
    rewrite E, upsert_one_ids, <- app_assoc. eauto.
Qed.

Lemma upsert_one_untouched now fresh t c r :
  In r t -> Schema.same_key c r = false ->
  In r (Schema.upsert_one now fresh t c).
Proof.
  intros Hin Hk. unfold Schema.upsert_one.
  destruct (existsb (Schema.same_key c) t).
  - apply in_map_iff. exists r. now rewrite Hk.
  - apply in_or_app. now left.
Qed.

Lemma upsert_rows_untouched now uuid cs : forall i t r,
  In r t -> (forall c, In c cs -> Schema.same_key c r = false) ->
  In r (Schema.upsert_rows now uuid i t cs).
Proof.
  induction cs as [|c cs IH]; intros i t r Hin Hk; cbn; [exact Hin|].
  apply IH.
  - apply upsert_one_untouched; [exact Hin|]. apply Hk. now left.
  - intros c' Hc'. apply Hk. now right.
Qed.

Lemma other_key (p : Database.Property) (r : Schema.Row) :
  Database.salesforceId p <> Schema.salesforce_id (Schema.cols r) ->
  Schema.same_key (PropertyDatabase.property_to_columns p) r = false.
Proof.
  intros H. unfold Schema.same_key.
  destruct (Schema.opt_string_eqb _ _) eqn:E; [|reflexivity].
  apply opt_string_eqb_eq in E. destruct E as (k & E1 & E2).
  cbn in E2. congruence.
Qed.

(** X4 — a sync is all or nothing.  When [PropertyDatabase.syncProperties]
    throws, the [properties] table is as it was; and it throws whenever one
    property of the list has no [salesforceId] or a tier outside the three
    of the schema, so that the other properties of that list are not stored
    either. *)
Theorem syncProperties_all_or_nothing
    (props : list Database.Property) (w : World) :
  (forall e, outcome (PropertyDatabase.syncProperties props) w = Throw e ->
     properties_table (after (PropertyDatabase.syncProperties props) w)
     = properties_table w) /\
  (forall p, In p props ->
     Database.salesforceId p = None \/ ~ In (Database.tier p) tier_enum ->
     exists e, outcome (PropertyDatabase.syncProperties props) w = Throw e).
Proof.
  split.
  - intros e. rewrite syncProperties_table. run.
    destruct (supabase_admin_configured w); cbn; [|reflexivity].
    destruct (db_failure w); cbn; [reflexivity|].
    destruct (Schema.upsert_properties _ _ _ _); cbn;
      [discriminate|reflexivity].
  - intros p Hin Hbad.
    destruct (outcome (PropertyDatabase.syncProperties props) w) as [[]|e] eqn:E;
      [|now exists e].
    exfalso. apply syncProperties_ok in E.
    destruct E as (_ & _ & t & Hu & _).
    apply upsert_properties_accepts in Hu.
    destruct Hu as (Hn & Hc & _).
    rewrite forallb_forall in Hn, Hc.
    assert (Hp : In (PropertyDatabase.property_to_columns p)
                   (map PropertyDatabase.property_to_columns props))
      by now apply in_map.
    destruct Hbad as [Hk|Ht].
    + specialize (Hn _ Hp). unfold Schema.not_null_ok in Hn. cbn in Hn.
      rewrite Hk in Hn. discriminate.
    + apply Ht. apply (tier_check_In (PropertyDatabase.property_to_columns p)).
      now apply Hc.
Qed.

(** X5 — a sync touches only the rows of its list.  After a successful
    [PropertyDatabase.syncProperties] every row that was there keeps its
    [id] and its place, new rows come after them, and the rows stored under
    a [salesforce_id] that no property of the list has are the same before
    and after. *)
Theorem syncProperties_keeps_other_rows
    (props : list Database.Property) (w : World) :
  outcome (PropertyDatabase.syncProperties props) w = Ok tt ->
  let t := properties_table w in
  let t' := properties_table (after (PropertyDatabase.syncProperties props) w) in
  (exists fresh, map Schema.id t' = map Schema.id t ++ fresh) /\
  (forall r,
     (forall p, In p props ->
        Database.salesforceId p <> Schema.salesforce_id (Schema.cols r)) ->
     (In r t' <-> In r t)).
Proof.
  intros H. cbv zeta. apply syncProperties_ok in H.
  destruct H as (_ & _ & t1 & Hu & ->).
  apply upsert_properties_accepts in Hu.
  destruct Hu as (Hn & _ & _ & -> & _).
  split; [apply upsert_rows_ids|].
  intros r Hr.
  assert (Hk : forall c, In c (map PropertyDatabase.property_to_columns props) ->
                 Schema.same_key c r = false).
  { intros c Hc. apply in_map_iff in Hc. destruct Hc as (p & <- & Hp).
    apply other_key. now apply Hr. }
  split.
  - intros Hin. now apply (upsert_rows_other _ _ _ _ _ _ Hn Hin).
  - intros Hin. now apply upsert_rows_untouched.
Qed.

Lemma syncProperties_keeps_other_rows_witness :
  let props := [sample_property "a02" "vip" "2024-02-01T00:00:00.000Z" 1200000;
                sample_property "a09" "public" "2024-02-01T00:00:00.000Z" 90000] in
  let t := properties_table sample_world in
  let t' := properties_table
              (after (PropertyDatabase.syncProperties props) sample_world) in
  (exists fresh, map Schema.id t' = map Schema.id t ++ fresh) /\
  (forall r,
     (forall p, In p props ->
        Database.salesforceId p <> Schema.salesforce_id (Schema.cols r)) ->
     (In r t' <-> In r t)).
Proof.
  apply (syncProperties_keeps_other_rows
           [sample_property "a02" "vip" "2024-02-01T00:00:00.000Z" 1200000;
            sample_property "a09" "public" "2024-02-01T00:00:00.000Z" 90000]
           sample_world).
  reflexivity.
Defined.

Lemma agrees_texts c r : agrees c r -> same_texts c r.
Proof.
  intros H. unfold same_texts.
  change (texts (Schema.set_updated_at "" (Schema.cols r))
          = texts (Schema.set_updated_at "" c)).
  now rewrite (H "").
Qed.






(** ** The sync utility *)

Ltac report_done :=
  eexists; split; [reflexivity|]; cbn; repeat split; intros;
  try discriminate; try reflexivity; try lia.

(** X8 — the report of a sync.  [SalesforceSync.syncProperties] never
    throws and reports a failure whatever the environment and Salesforce
    are: the count is 0 and there is one message, the one on the missing
    user name and password or, with both set, the [TypeError] of the call
    of [authenticateWithCredentials], which the client does not declare.
    It makes no external call and leaves the world as it was, the
    [properties] table and the sync status included. *)
Theorem SalesforceSync_report (w : World) :
  exists r,
    outcome SalesforceSync.syncProperties w = Ok r /\
    SalesforceSync.success r = false /\
    SalesforceSync.count r = 0 /\
    SalesforceSync.errors r
    = [if opt_truthy (SALESFORCE_USERNAME w)
          && opt_truthy (SALESFORCE_PASSWORD w)
       then not_a_function "this.salesforceClient.authenticateWithCredentials"
       else "SALESFORCE_USERNAME and SALESFORCE_PASSWORD must be set for sync operations"] /\
    calls_of SalesforceSync.syncProperties w = [] /\
    after SalesforceSync.syncProperties w = w.
Proof.
  unfold outcome, calls_of, after.
  rewrite SalesforceSync_syncProperties_run. cbn [fst snd].
  eexists. split; [reflexivity|]. cbn.
  rewrite skipn_self. repeat split.
Qed.

Ltac calls_done k :=
  split; [exists k; reflexivity|];
  split; [intros; try reflexivity; try discriminate|];
  intros rows Hrows; cbn in Hrows;
  repeat (destruct Hrows as [Hrows|Hrows]; try discriminate Hrows);
  try contradiction; try discriminate.


(** X10 — from the CRM to the table.  The sync utility hands the
    transform of the CRM records to [PropertyDatabase.syncProperties]; when
    this write succeeds, every one of the records has a row in the
    [properties] table, stored under the record's [Id], that holds the
    texts of its transform: name, address, tier, status, images and the
    other text fields. *)
Theorem SalesforceSync_stores_records
    (w : World) (records : list Crm.PropertyRecord) :
  let write :=
    PropertyDatabase.syncProperties
      (SalesforceSync.transformProperties (builtins w) (js_now w) records) in
  outcome write w = Ok tt ->
  forall record, In record records ->
    exists row,
      In row (properties_table (after write w)) /\
      Schema.salesforce_id (Schema.cols row) = Some (Crm.Id record) /\
      same_texts (PropertyDatabase.property_to_columns
                    (SalesforceSync.transformProperty (builtins w) (js_now w)
                       record))
        row.
Proof.
  cbv zeta. intros Ho record Hin.
  apply syncProperties_ok in Ho. destruct Ho as (_ & _ & t & Hu & ->).
  apply upsert_properties_accepts in Hu.
  destruct Hu as (Hnn & _ & Hd & Hrows & _).
  pose proof (upsert_rows_settles (db_now w) (db_uuid w) _ 0
                (properties_table w) Hnn Hd) as Hset.
  rewrite <- Hrows in Hset.
  set (c := PropertyDatabase.property_to_columns
              (SalesforceSync.transformProperty (builtins w) (js_now w) record)).
  assert (Hc : In c (map PropertyDatabase.property_to_columns
                       (SalesforceSync.transformProperties (builtins w)
                          (js_now w) records))).
  { apply in_map. unfold SalesforceSync.transformProperties. now apply in_map. }
  destruct (Hset c Hc) as [Hex Hag].
  apply existsb_exists in Hex. destruct Hex as (row & Hrow & Hkey).
  exists row. split; [exact Hrow|].
  split; [|now apply agrees_texts, Hag].
  unfold Schema.same_key in Hkey. apply opt_string_eqb_eq in Hkey.
  destruct Hkey as (k & Hk1 & Hk2). cbn in Hk2. congruence.
Qed.

Lemma SalesforceSync_stores_records_witness :
  let w := sample_world in
  let records := [sample_record "a07" None (JsStr "450000")] in
  let write :=
    PropertyDatabase.syncProperties
      (SalesforceSync.transformProperties (builtins w) (js_now w) records) in
  outcome write w = Ok tt /\
  forall record, In record records ->
    exists row,
      In row (properties_table (after write w)) /\
      Schema.salesforce_id (Schema.cols row) = Some (Crm.Id record) /\
      same_texts (PropertyDatabase.property_to_columns
                    (SalesforceSync.transformProperty (builtins w) (js_now w)
                       record))
        row.
Proof.
  split; [reflexivity|].
  apply (SalesforceSync_stores_records sample_world
           [sample_record "a07" None (JsStr "450000")]).
  reflexivity.
Defined.

(** ** Image lists read from a text *)

Lemma split_no_sep (sep : ascii) : forall s x,
  In x (split sep s) -> ~ In sep (list_ascii_of_string x).
Proof.
  induction s as [|c r IH]; intros x Hx; cbn in Hx.
  - destruct Hx as [<-|[]]. intros [].
  - destruct (Ascii.eqb_spec c sep) as [->|Hne].
    + destruct Hx as [<-|Hx]; [intros []|now apply IH].
    + destruct (split sep r) as [|h t] eqn:E.
      * destruct Hx as [<-|[]]. cbn. intros [H|[]]. congruence.
      * destruct Hx as [<-|Hx].
        -- cbn. intros [H|H]; [congruence|]. revert H. apply IH. now left.
        -- apply IH. now right.
Qed.

Lemma trimStart_chars c : forall s,
  In c (list_ascii_of_string (trimStart s)) -> In c (list_ascii_of_string s).
Proof.
  induction s as [|a r IH]; cbn; [auto|].
  destruct (is_space a); cbn; auto.
Qed.

Lemma trimEnd_chars c : forall s,
  In c (list_ascii_of_string (trimEnd s)) -> In c (list_ascii_of_string s).
Proof.
  induction s as [|a r IH]; cbn; [auto|].
  destruct (trimEnd r) as [|b r'] eqn:E.
  - destruct (is_space a); cbn; [intros []|]. intros [H|[]]. now left.
  - cbn. intros [H|H]; [now left|]. right. apply IH. exact H.
Qed.

Lemma trimStart_starts s :
  match trimStart s with
  | EmptyString => True
  | String c _ => is_space c = false
  end.
Proof.
  induction s as [|a r IH]; cbn; [exact I|].
  destruct (is_space a) eqn:E; [exact IH|exact E].
Qed.

Lemma trimEnd_idem : forall s, trimEnd (trimEnd s) = trimEnd s.
Proof.
  induction s as [|a r IH]; cbn; [reflexivity|].
  destruct (trimEnd r) as [|b r'] eqn:E.
  - destruct (is_space a) eqn:Ea; cbn; [reflexivity|]. now rewrite Ea.
  - cbn in *. now rewrite IH.
Qed.

Lemma trim_idem s : trim (trim s) = trim s.
Proof.
  unfold trim. pose proof (trimStart_starts s) as H.
  destruct (trimStart s) as [|a r]; [reflexivity|].
  assert (E : trimStart (trimEnd (String a r)) = trimEnd (String a r)).
  { cbn. destruct (trimEnd r); rewrite ?H; cbn; now rewrite ?H. }
  rewrite E. apply trimEnd_idem.
Qed.

Lemma entries_clean (s : string) :
  Forall clean_entry (filter str_truthy (map trim (split_comma s))).
Proof.
  apply Forall_forall. intros x Hx. apply filter_In in Hx.
  destruct Hx as [Hx Ht]. apply in_map_iff in Hx.
  destruct Hx as (y & <- & Hy). repeat split.
  - intros E. rewrite E in Ht. discriminate Ht.
  - apply trim_idem.
  - intros H. apply trimEnd_chars, trimStart_chars in H.
    exact (split_no_sep _ _ _ Hy H).
Qed.

(** X11 — image lists read from a text.  When the sync reads the images of
    a CRM record from a text that is no JSON, and when the upsert endpoint
    is posted the images as one text, every entry of the list stored is
    clean: not empty, without white space around it and without a comma; a
    text of commas and blanks only gives no image. *)
Theorem images_from_text (B : Builtins) (now : string) (s : string) :
  (forall record,
     Crm.Image_URLs__c record = Some s -> jsonParseStrings B s = None ->
     Forall clean_entry
       (Database.images (SalesforceSync.transformProperty B now record))) /\
  (forall prop,
     UpsertRoute.images prop = UpsertRoute.ImagesString s ->
     Forall clean_entry
       (Database.images (UpsertRoute.transformInput B now prop)) /\
     ((forall c, In c (list_ascii_of_string s) ->
         is_space c = true \/ c = ","%char) ->
      Database.images (UpsertRoute.transformInput B now prop) = [])).
Proof.
  split.
  - intros record Hs Hj. cbn. rewrite Hs, Hj.
    destruct (str_truthy s); [apply entries_clean|constructor].
  - intros prop Hs. cbn. rewrite Hs. split; [apply entries_clean|].
    intros Hblank.
    destruct (filter str_truthy (map trim (split_comma s))) as [|x l] eqn:E;
      [reflexivity|].
    exfalso.
    assert (Hx : In x (filter str_truthy (map trim (split_comma s))))
      by (rewrite E; now left).
    apply filter_In in Hx. destruct Hx as [Hx Ht].
    apply in_map_iff in Hx. destruct Hx as (y & <- & Hy).
    pose proof (trimStart_starts y) as Hst. unfold trim in Ht.
    destruct (trimStart y) as [|a r] eqn:Ey; [discriminate Ht|].
    assert (Ha : In a (list_ascii_of_string y)).
    { apply trimStart_chars. rewrite Ey. now left. }
    assert (Hs' : In a (list_ascii_of_string s)).
    { clear - Ha Hy. revert y Hy Ha. unfold split_comma.
      induction s as [|c r IH]; intros y Hy Ha; cbn in Hy.
      - destruct Hy as [<-|[]]. destruct Ha.
      - destruct (Ascii.eqb c ","%char).
        + destruct Hy as [<-|Hy]; [destruct Ha|]. right. eapply IH; eauto.
        + destruct (split ","%char r) as [|h t] eqn:E.
          * destruct Hy as [<-|[]]. destruct Ha as [<-|[]]. now left.
          * destruct Hy as [<-|Hy].
            -- destruct Ha as [<-|Ha]; [now left|]. right.
               apply (IH h); [now left|exact Ha].
            -- right. apply (IH y); [now right|exact Ha]. }
    destruct (Hblank a Hs') as [Hsp| ->].
    + congruence.
    + apply (split_no_sep ","%char s y Hy). exact Ha.
Qed.

(** ** The write endpoints *)

Ltac route_done :=
  eexists; split; [reflexivity|]; cbn; split;
  [intros H; try discriminate H
  |intros _; repeat split; try reflexivity].

Lemma upsert_properties_stores now uuid t cs t' :
  Schema.upsert_properties now uuid t cs = inl t' ->
  forall c, In c cs ->
    exists row, In row t' /\ Schema.same_key c row = true /\ agrees c row.
Proof.
  intros Hu c Hc. apply upsert_properties_accepts in Hu.
  destruct Hu as (Hnn & _ & Hd & -> & _).
  destruct (upsert_rows_settles now uuid cs 0 t Hnn Hd c Hc) as [Hex Hag].
  apply existsb_exists in Hex. destruct Hex as (row & Hrow & Hkey).
  exists row. auto.
Qed.

(** X12 — the key of the write endpoints.  With a [SYNC_API_KEY] set, a
    request to the upsert or the sync endpoint whose [authorization] header
    is not [Bearer] followed by the key is answered 401 and nothing
    happens: no call, no change.  With no key set (or an empty one) the
    header is not looked at: both endpoints do for any header what they do
    without one. *)
Theorem write_endpoints_key (w : World) :
  (forall key, SYNC_API_KEY w = Some key -> key <> "" ->
     (forall request,
        UpsertRoute.authorization request <> Some ("Bearer " ++ key)%string ->
        response (UpsertRoute.POST request) w
        = Some (json UpsertRoute.Unauthorized 401) /\
        after (UpsertRoute.POST request) w = w) /\
     (forall authorization,
        authorization <> Some ("Bearer " ++ key)%string ->
        response (SyncRoute.POST authorization) w
        = Some (json SyncRoute.Unauthorized 401) /\
        after (SyncRoute.POST authorization) w = w)) /\
  (opt_truthy (SYNC_API_KEY w) = false ->
     (forall authorization body,
        UpsertRoute.POST {| UpsertRoute.authorization := authorization;
                            UpsertRoute.request_json := body |} w
        = UpsertRoute.POST {| UpsertRoute.authorization := None;
                              UpsertRoute.request_json := body |} w) /\
     (forall authorization,
        SyncRoute.POST authorization w = SyncRoute.POST None w)).
Proof.
  split.
  - intros key Hk Hne.
    assert (Hr : forall a, a <> Some ("Bearer " ++ key)%string ->
                   UpsertRoute.refused (Some key) a = true).
    { intros a Ha. unfold UpsertRoute.refused, str_truthy.
      destruct (String.eqb_spec key ""); [contradiction|]. cbn.
      destruct a as [h|]; [|reflexivity].
      destruct (h =? _) eqn:E; [|reflexivity].
      apply String.eqb_eq in E. subst. now elim Ha. }
    split.
    + intros request Ha.
      unfold response, after, outcome, UpsertRoute.POST, try_catch, bind, ask.
      cbv beta iota. rewrite Hk, (Hr _ Ha). split; reflexivity.
    + intros a Ha.
      unfold response, after, outcome, SyncRoute.POST, try_catch, bind, ask.
      cbv beta iota. rewrite Hk, (Hr _ Ha). split; reflexivity.
  - intros Hk.
    assert (Hr : forall a, UpsertRoute.refused (SYNC_API_KEY w) a = false).
    { intros a. unfold UpsertRoute.refused.
      destruct (SYNC_API_KEY w) as [k|]; [|reflexivity].
      cbn in Hk. now rewrite Hk. }
    split.
    + intros a body. unfold UpsertRoute.POST, try_catch, bind, ask.
      cbv beta iota. now rewrite !Hr.
    + intros a. unfold SyncRoute.POST, try_catch, bind, ask.
      cbv beta iota. now rewrite !Hr.
Qed.

(** X13 — the status of the upsert endpoint tells what happened.  The
    handler always answers.  An answer 200 carries the number of properties
    posted, and every posted property has a row in the table that holds the
    texts of its transform; the sync status then holds the time of the
    request when the database accepts its write, and stays as it was when
    the database refuses it, an error the handler only logs.  With any
    other status the [properties] table and the sync status are as
    before. *)
Theorem upsert_route_status (w : World) (request : UpsertRoute.Request) :
  exists r,
    response (UpsertRoute.POST request) w = Some r /\
    let w' := after (UpsertRoute.POST request) w in
    (status r = 200 ->
       exists posted,
         request_posted request = Some posted /\
         body r = UpsertRoute.Upserted (List.length posted) (js_now w) /\
         sync_status w'
         = match sync_status_failure w with
           | None => Some (js_now w)
           | Some _ => sync_status w
           end /\
         forall prop, In prop posted ->
           exists row,
             In row (properties_table w') /\
             same_texts (PropertyDatabase.property_to_columns
                           (UpsertRoute.transformInput (builtins w) (js_now w)
                              prop))
               row) /\
    (status r <> 200 ->
       properties_table w' = properties_table w /\
       sync_status w' = sync_status w).
Proof.
  unfold UpsertRoute.POST, request_posted. run.
  destruct (UpsertRoute.refused _ _); cbn; [route_done|].
  destruct (UpsertRoute.request_json request) as [body|]; cbn; [|route_done].
  destruct (supabase_admin_configured w) eqn:Hc; cbn; [|route_done].
  destruct (db_failure w) eqn:Hf; cbn; [route_done|].
  destruct (Schema.upsert_properties _ _ _ _) as [t|e] eqn:Hu; cbn;
    rewrite ?Hc; cbn; [|route_done].
  assert (Hrow :
            forall prop,
              In prop (match body with
                       | UpsertRoute.Single prop => [prop]
                       | UpsertRoute.Many props => props
                       end) ->
              exists row,
                In row t /\
                same_texts (PropertyDatabase.property_to_columns
                              (UpsertRoute.transformInput (builtins w)
                                 (js_now w) prop))
                  row).
  { intros prop Hin.
    destruct (upsert_properties_stores _ _ _ _ _ Hu
                (PropertyDatabase.property_to_columns
                   (UpsertRoute.transformInput (builtins w) (js_now w) prop)))
      as (row & Hrow & _ & Hag).
    - apply in_map. now apply in_map.
    - exists row. split; [exact Hrow|now apply agrees_texts]. }
  destruct (sync_status_failure w) eqn:Hs; cbn;
    (eexists; split; [reflexivity|]; cbn; split; [|intros H; now elim H];
     intros _;
     exists (match body with
             | UpsertRoute.Single prop => [prop]
             | UpsertRoute.Many props => props
             end);
     split; [now destruct body|]; rewrite length_map;
     split; [reflexivity|]; split; [reflexivity|];
     exact Hrow).
Qed.

Example upsert_route_sync_status_refused :
  let w := with_sync_status_failure
             (Some {| Schema.code := "42501";
                      Schema.message := "permission denied for table sync_status" |})
             sample_world in
  let request :=
    {| UpsertRoute.authorization := None;
       UpsertRoute.request_json :=
         Some (UpsertRoute.Single (sample_input (Some "a08") None JsNull)) |} in
  response (UpsertRoute.POST request) w
    = Some (json (UpsertRoute.Upserted 1 "2024-03-01T00:00:00.000Z") 200) /\
  sync_status (after (UpsertRoute.POST request) w)
    = Some "2024-02-01T00:00:00.000Z" /\
  List.length (properties_table (after (UpsertRoute.POST request) w))
    = S (List.length sample_table).
Proof. repeat split. Qed.

(** ** The property detail *)

Ltac denied_done :=
  eexists; split; [reflexivity|]; cbn; trace_done;
  split; [cbn; tauto|]; cbn; intuition discriminate.

(** X14 — who is shown a property detail.  The handler always answers.
    When it shows a property, the status is 200, the property's access tier
    is not ['vip'] (no viewer is taken for a VIP), it is ['registered']
    only for a signed-in viewer, and Salesforce and then Cloudinary were
    called once each; when it shows none, the status is 401, 403, 404 or
    500 and Cloudinary was not called. *)
Theorem detail_access_control (w : World) (propertyId : string) :
  exists r,
    response (PropertyDetailRoute.GET propertyId) w = Some r /\
    let calls := calls_of (PropertyDetailRoute.GET propertyId) w in
    match body r with
    | PropertyDetailRoute.Detail p =>
        status r = 200 /\
        Types.accessTier p <> "vip" /\
        (Types.accessTier p = "registered" -> signed_in w) /\
        calls = [SalesforceGetTransaction propertyId;
                 CloudinaryGetPropertyImages propertyId]
    | PropertyDetailRoute.Denied _ _ =>
        In (status r) [401; 403; 404; 500] /\
        ~ In (CloudinaryGetPropertyImages propertyId) calls
    end.
Proof.
  unfold PropertyDetailRoute.GET. run.
  destruct (clerk_auth w) as [userId|e] eqn:Ha; cbn.
  2:{ destruct e as [m|e]; [destruct (includes m "NOT_FOUND")|]; denied_done. }
  destruct (sf_getTransaction w propertyId) as [tx|e]; cbn.
  2:{ destruct e as [m|e]; [destruct (includes m "NOT_FOUND")|]; denied_done. }
  destruct (String.eqb_spec (Types.Access_Tier__c tx) "vip") as [Hv|Hv]; cbn.
  { unfold PropertyDetailRoute.accessTier_of.
    destruct (opt_truthy userId); cbn; denied_done. }
  destruct (String.eqb_spec (Types.Access_Tier__c tx) "registered") as [Hr|Hr];
    cbn.
  - unfold PropertyDetailRoute.accessTier_of.
    destruct userId as [u|]; cbn; [|denied_done].
    unfold str_truthy. destruct (String.eqb_spec u "") as [Hu|Hu]; cbn;
      [denied_done|].
    eexists; split; [reflexivity|]. cbn. trace_done.
    repeat split; [exact Hv|]. intros _. exists u. auto.
  - eexists; split; [reflexivity|]. cbn. trace_done.
    assert (E : Types.accessTier
                  (PropertyDetailRoute.applyAccessTier
                     (PropertyDetailRoute.accessTier_of userId)
                     (Types.transformSalesforceTransaction tx
                        (cloudinary_images w propertyId)))
                = Types.Access_Tier__c tx).
    { unfold PropertyDetailRoute.applyAccessTier.
      destruct (PropertyDetailRoute.is_public _); reflexivity. }
    rewrite E. repeat split; [exact Hv|]. intros H. contradiction.
Qed.

(** ** The listing served from Salesforce *)

Ltac listing_done :=
  eexists; split; [reflexivity|]; cbn;
  try (split; [reflexivity|]; split; [reflexivity|];
       split; [constructor|reflexivity]);
  try reflexivity.

Lemma filter_none {A} (f : A -> bool) (l : list A) :
  (forall x, In x l -> f x = false) -> filter f l = [].
Proof.
  induction l as [|x l IH]; intros H; cbn; [reflexivity|].
  rewrite (H x); [|now left]. apply IH. intros y Hy. apply H. now right.
Qed.

Lemma split_not_nil (sep : ascii) (s : string) : split sep s <> [].
Proof.
  destruct s as [|c r]; cbn; [discriminate|].
  destruct (Ascii.eqb c sep); [discriminate|].
  destruct (split sep r); discriminate.
Qed.

Lemma transformAll_Forall (P : PropertiesRoute.Listing -> Prop) B now :
  (forall record l,
     PropertiesRoute.transformSalesforceRecord B now record = Ok l -> P l) ->
  forall records ls,
    PropertiesRoute.transformAll B now records = Ok ls -> Forall P ls.
Proof.
  intros HP. induction records as [|r rest IH]; intros ls; cbn.
  - intros [= <-]. constructor.
  - destruct (PropertiesRoute.transformSalesforceRecord B now r) as [l|e] eqn:E;
      [|discriminate].
    destruct (PropertiesRoute.transformAll B now rest) as [ls'|e];
      [|discriminate].
    intros [= <-]. constructor; [now apply (HP r)|now apply IH].
Qed.

Lemma transformSalesforceRecord_wholesale B now record l :
  PropertiesRoute.transformSalesforceRecord B now record = Ok l ->
  PropertiesRoute.dealType l = "Wholesale" /\
  PropertiesRoute.flipMetrics l = None /\
  PropertiesRoute.rentalMetrics l = None /\
  PropertiesRoute.accessTier l = "registered".
Proof.
  unfold PropertiesRoute.transformSalesforceRecord.
  destruct (match Crm.tr_CreatedDate record with
            | Some s => if str_truthy s
                        then option_map PropertiesRoute.day_of (dateToISOString B s)
                        else Some (PropertiesRoute.day_of now)
            | None => Some (PropertiesRoute.day_of now)
            end); [|discriminate].
  destruct (match Crm.tr_LastModifiedDate record with
            | Some s => if str_truthy s
                        then option_map PropertiesRoute.day_of (dateToISOString B s)
                        else Some (PropertiesRoute.day_of now)
            | None => Some (PropertiesRoute.day_of now)
            end); [|discriminate].
  intros [= <-]. cbn. auto.
Qed.

(** X15 — the listing served from Salesforce holds wholesale deals only.
    The handler always answers, and with a failure (status 500) only when
    [auth()] throws; a listing it serves has status 200 and a
    [totalCount] that is its length, and every property in it has the deal
    type ['Wholesale'], no flip and no rental metrics, and the access tier
    ['registered'].  So a [dealTypes] parameter that does not name
    ['Wholesale'], the empty one included, gives an empty listing. *)
Theorem listing_wholesale_only (w : World) (request : PropertiesRoute.Request) :
  exists r,
    response (PropertiesRoute.GET request) w = Some r /\
    match body r with
    | PropertiesRoute.Success props total _ _ =>
        status r = 200 /\ total = List.length props /\
        Forall (fun l => PropertiesRoute.dealType l = "Wholesale" /\
                         PropertiesRoute.flipMetrics l = None /\
                         PropertiesRoute.rentalMetrics l = None /\
                         PropertiesRoute.accessTier l = "registered") props /\
        (forall s, PropertiesRoute.dealTypes_param request = Some s ->
                   ~ In "Wholesale" (split_comma s) -> props = [])
    | PropertiesRoute.Failure _ =>
        status r = 500 /\ exists e, clerk_auth w = Throw e
    end.
Proof.
  unfold PropertiesRoute.GET, PropertiesRoute.querySalesforce. run.
  destruct (clerk_auth w) as [userId|e]; cbn;
    [|eexists; split; [reflexivity|]; cbn; eauto].
  destruct (negb (opt_truthy (PropertiesRoute.sf_access_token request))
            || negb (opt_truthy (PropertiesRoute.sf_instance_url request)));
    cbn; [listing_done|].
  destruct (sf_fetch w) as [e|t|e|data]; cbn; try listing_done.
  destruct (Crm.qd_records data) as [records|]; cbn; [|listing_done].
  destruct (PropertiesRoute.transformAll (builtins w) (js_now w) records)
    as [ls|e] eqn:E; cbn; [|listing_done].
  pose proof (transformAll_Forall _ _ _
                (transformSalesforceRecord_wholesale (builtins w) (js_now w))
                records ls E) as Hall.
  eexists; split; [reflexivity|]. cbn.
  split; [reflexivity|]. split; [reflexivity|].
  destruct (PropertiesRoute.dealTypes_param request) as [s|]; cbn.
  - destruct (split_comma s) as [|d ds] eqn:Es;
      [now elim (split_not_nil ","%char s)|]. cbn. split.
    + apply Forall_forall. intros l Hl. apply filter_In in Hl.
      rewrite Forall_forall in Hall. apply Hall. tauto.
    + intros s' [= <-] Hno. rewrite Es in Hno.
      apply filter_none. intros l Hl.
      rewrite Forall_forall in Hall. destruct (Hall l Hl) as [Hd _].
      change (Schema.mem_string (PropertiesRoute.dealType l) (d :: ds) = false).
      destruct (Schema.mem_string (PropertiesRoute.dealType l) (d :: ds)) eqn:Hm;
        [|reflexivity].
      rewrite Hd in Hm. apply mem_string_In in Hm. now elim Hno.
  - split; [exact Hall|]. intros s' H. discriminate H.
Qed.

(** X16 — the listing served from Salesforce does not depend on the viewer.
    Whenever [auth()] answers, the handler answers the same to a viewer who
    is signed in and to one who is not: the access tier it computes is not
    used. *)
Theorem listing_same_for_every_viewer
    (w : World) (request : PropertiesRoute.Request)
    (viewer viewer' : option string) :
  response (PropertiesRoute.GET request) (with_clerk_auth (Ok viewer) w)
  = response (PropertiesRoute.GET request) (with_clerk_auth (Ok viewer') w).
Proof.
  unfold PropertiesRoute.GET, PropertiesRoute.querySalesforce. run.
  destruct (negb (opt_truthy (PropertiesRoute.sf_access_token request))
            || negb (opt_truthy (PropertiesRoute.sf_instance_url request)));
    cbn; [reflexivity|].
  destruct (sf_fetch w) as [e|t|e|data]; cbn; try reflexivity.
  destruct (Crm.qd_records data) as [records|]; cbn; [|reflexivity].
  destruct (PropertiesRoute.transformAll (builtins w) (js_now w) records);
    reflexivity.
Qed.

(** X17 — market and parish of a city.  For a city whose name in lower
    case is none of the two names an object literal inherits, the market
    and the parish that [getMarketFromCity] and [getParishFromCity] give
    belong to one row of the table of the seven Louisiana cities: the row
    of the city, whatever its case, and the row of Lafayette for a city the
    table does not know. *)
Theorem market_and_parish_of_city (city : string) :
  own_key (toLowerCase city) ->
  let found := (PropertiesRoute.getMarketFromCity city,
                PropertiesRoute.getParishFromCity city) in
  (forall row, In row louisiana -> toLowerCase city = fst row ->
               found = snd row) /\
  (~ In (toLowerCase city) (map fst louisiana) ->
   found = ("lafayette", "Lafayette")).
Proof.
  intros _. cbv zeta.
  unfold PropertiesRoute.getMarketFromCity, PropertiesRoute.getParishFromCity,
    PropertiesRoute.lookup.
  generalize (toLowerCase city). intros k. split.
  - intros row Hrow Hk. cbn in Hrow.
    repeat (destruct Hrow as [<-|Hrow]; [cbn in Hk; subst k; reflexivity|]).
    destruct Hrow.
  - intros Hno. cbn in Hno. cbn [find fst snd].
    repeat match goal with
           | |- context [?a =? k] =>
               destruct (String.eqb_spec a k);
               [exfalso; apply Hno; subst k; cbn; tauto|]
           end.
    reflexivity.
Qed.

Lemma market_and_parish_of_city_witness :
  let city := "Baton Rouge" in
  let found := (PropertiesRoute.getMarketFromCity city,
                PropertiesRoute.getParishFromCity city) in
  (forall row, In row louisiana -> toLowerCase city = fst row ->
               found = snd row) /\
  (~ In (toLowerCase city) (map fst louisiana) ->
   found = ("lafayette", "Lafayette")).
Proof.
  apply (market_and_parish_of_city "Baton Rouge").
  split; discriminate.
Defined.

(** ** The listing served from the database *)

Lemma GET_db_response w request :
  let props :=
    returned (PropertyDatabase.getProperties
                (Some (db_listing_tier w request))
                (Some (db_listing_limit w request))) w in
  response (PropertiesDbRoute.GET request) w =
  if supabase_configured w then
    Some (json (PropertiesDbRoute.Listing props (List.length props)
                  (match db_listing_limit w request with
                   | Schema.Count n => Nat.eqb (List.length props) n
                   | Schema.NotACount => false
                   end)
                  (db_listing_tier w request)
                  (match sync_status_failure w with
                   | Some _ => None
                   | None => str_or_undefined (sync_status w)
                   end)) 200)
  else
    Some (json (PropertiesDbRoute.Failure
                  "Supabase environment variables not configured") 500).
Proof.
  unfold PropertiesDbRoute.GET, db_listing_tier, db_listing_limit. run.
  destruct (supabase_configured w) eqn:Hc; cbn; rewrite ?Hc; cbn;
    [|reflexivity].
  destruct (db_failure w) eqn:Hf; cbn; rewrite ?Hc; cbn;
    [reflexivity|].
  destruct (Schema.select_properties _ _ _) as [d [e|]]; cbn;
    rewrite ?Hc; reflexivity.
Qed.

Lemma db_listing_filter w request :
  (PropertyDatabase.tier_filter (Some (db_listing_tier w request))
   = Schema.TierEq "public" \/
   PropertyDatabase.tier_filter (Some (db_listing_tier w request))
   = Schema.TierIn ["public"; "registered"]) /\
  (~ signed_in w ->
   PropertyDatabase.tier_filter (Some (db_listing_tier w request))
   = Schema.TierEq "public").
Proof.
  split.
  - destruct (tier_filter_cases (Some (db_listing_tier w request)))
      as [H|[H|[H1 H2]]]; auto.
    exfalso. injection H1 as H1. revert H1.
    unfold db_listing_tier, PropertiesDbRoute.effectiveTier,
      PropertiesDbRoute.userTier_of.
    destruct (clerk_auth w) as [[u|]|e]; cbn; try discriminate.
    destruct (str_truthy u); cbn; try discriminate.
    destruct (String.eqb_spec
                (str_or (PropertiesDbRoute.tier_param request) "public") "vip");
      cbn; [discriminate|congruence].
  - intros Hout. unfold db_listing_tier.
    rewrite (userTier_signed_out w Hout). reflexivity.
Qed.

(** X18 — what the database-backed listing serves.  The handler always
    answers, and fails (status 500) only when the database client is not
    configured.  A listing has status 200 and a [totalCount] that is its
    length; every property in it is a stored row that is ['Active'] and
    whose tier is ['public'] or ['registered'], never ['vip'], and
    ['public'] for a viewer who is not signed in; [hasMore] is set exactly
    when the listing is as long as the limit. *)
Theorem db_listing_content (w : World) (request : PropertiesDbRoute.Request) :
  exists r,
    response (PropertiesDbRoute.GET request) w = Some r /\
    match body r with
    | PropertiesDbRoute.Listing props total hasMore _ _ =>
        status r = 200 /\ total = List.length props /\
        Forall (fun p => served_from w ["public"; "registered"] p /\
                         Database.status p = "Active") props /\
        (~ signed_in w -> Forall (fun p => Database.tier p = "public") props) /\
        (hasMore = true <->
         db_listing_limit w request = Schema.Count (List.length props))
    | PropertiesDbRoute.Failure _ =>
        status r = 500 /\ supabase_configured w = false
    end.
Proof.
  rewrite GET_db_response. cbv zeta.
  destruct (supabase_configured w) eqn:Hc.
  2:{ eexists; split; [reflexivity|]. cbn. auto. }
  eexists; split; [reflexivity|]. cbn.
  split; [reflexivity|]. split; [reflexivity|].
  destruct (db_listing_filter w request) as [Hf Hout].
  split; [|split].
  - apply Forall_forall. intros p Hp. apply getProperties_returned in Hp.
    destruct Hp as (row & Hin & -> & Hl & Hm).
    apply tier_matches_In in Hm. split.
    + split; [|exists row; auto].
      destruct Hf as [E|E]; rewrite E in Hm; cbn in *; tauto.
    + unfold Schema.listed in Hl. apply andb_true_iff in Hl.
      cbn. now apply String.eqb_eq.
  - intros Hno. apply Forall_forall. intros p Hp.
    apply getProperties_returned in Hp.
    destruct Hp as (row & Hin & -> & Hl & Hm).
    apply tier_matches_In in Hm. rewrite (Hout Hno) in Hm.
    destruct Hm as [E|[]]. cbn. now rewrite <- E.
  - destruct (db_listing_limit w request) as [n|].
    + rewrite Nat.eqb_eq. split; [now intros ->|now intros [= <-]].
    + split; discriminate.
Qed.

(** ** The webhook receiver, further *)

(** X19 — requests the webhook receiver turns away.  Without a webhook
    secret in the environment the handler answers 500; with the secret but
    without one of the three svix headers it answers 400; when the
    verification itself throws it answers 500.  In all three cases it calls
    nothing and changes nothing. *)
Theorem webhook_turns_away (w : World) (req : ClerkWebhook.Request) :
  (opt_truthy (CLERK_WEBHOOK_SECRET w) = false ->
     ClerkWebhook.POST req w
     = (Ok (json (ClerkWebhook.Error "Webhook secret not configured") 500), w)) /\
  (opt_truthy (CLERK_WEBHOOK_SECRET w) = true ->
   opt_truthy (Clerk.svix_id (ClerkWebhook.headers req))
   && opt_truthy (Clerk.svix_timestamp (ClerkWebhook.headers req))
   && opt_truthy (Clerk.svix_signature (ClerkWebhook.headers req)) = false ->
     ClerkWebhook.POST req w
     = (Ok (json (ClerkWebhook.Error "Missing required headers") 400), w)) /\
  (checkable w req ->
   forall e, verification w req = Throw e ->
     ClerkWebhook.POST req w
     = (Ok (json (ClerkWebhook.Error "Internal server error") 500), w)).
Proof.
  split; [|split].
  - intros Hs. unfold ClerkWebhook.POST. run. now rewrite Hs.
  - intros Hs Hh. unfold ClerkWebhook.POST. run. rewrite Hs. cbn.
    rewrite <- !negb_andb, Hh. reflexivity.
  - intros Hc e He. rewrite (POST_checked w req Hc), He. reflexivity.
Qed.

(** X20 — the lead of a signup and the answer to it.  For a verified
    ['user.created'] event of a user with a primary email address, the one
    call of the handler asks Salesforce for a lead that carries this
    address, the user's identifier, the source ['Website Registration'] and
    the status ['New'], with ['Unknown'] and ['Investor'] for a missing
    first and last name; the handler answers 200 with the lead's
    identifier when Salesforce reports success, and 500 when it reports
    failure or the call throws. *)
Theorem webhook_lead_and_answer
    (w : World) (req : ClerkWebhook.Request) (evt : Clerk.ClerkWebhookEvent)
    (emails : list Clerk.EmailAddress) (email : string) :
  checkable w req ->
  verification w req = Ok (Some evt) ->
  Clerk.type evt = "user.created" ->
  Clerk.email_addresses (Clerk.data evt) = Some emails ->
  primary_email emails email -> email <> "" ->
  exists lead,
    calls_of (ClerkWebhook.POST req) w = [SalesforceCreateLead lead] /\
    Crm.Email lead = email /\
    Crm.Website_User_ID__c lead = Clerk.id (Clerk.data evt) /\
    Crm.LeadSource lead = "Website Registration" /\
    Crm.Status lead = "New" /\
    Crm.FirstName lead = str_or (Clerk.first_name (Clerk.data evt)) "Unknown" /\
    Crm.LastName lead = str_or (Clerk.last_name (Clerk.data evt)) "Investor" /\
    response (ClerkWebhook.POST req) w =
      Some (match sf_createLead w lead with
            | Ok answer =>
                if Crm.success answer
                then json (ClerkWebhook.LeadCreated (Crm.lead_id answer)) 200
                else json (ClerkWebhook.LeadFailed (Crm.errors answer)) 500
            | Throw e => json (ClerkWebhook.LeadThrew (message_of e)) 500
            end).
Proof.
  intros Hc Hv Ht He Hp Hne.
  exists (ClerkWebhook.leadData_of (Clerk.data evt) email).
  unfold calls_of, response, after, outcome.
  rewrite (POST_checked w req Hc), Hv, Ht. cbn.
  assert (E : ClerkWebhook.primaryEmail_of (Clerk.data evt) = Some email).
  { unfold ClerkWebhook.primaryEmail_of. rewrite He.
    now apply find_primary_email. }
  rewrite E.
  assert (Htr : str_truthy email = true).
  { unfold str_truthy. now destruct (String.eqb_spec email ""). }
  rewrite Htr.
  destruct (sf_createLead w _) as [answer|e];
    [destruct (Crm.success answer)|]; cbn; trace_done; repeat split.
Qed.

Lemma webhook_lead_and_answer_witness :
  let emails :=
    [ {| Clerk.email_address := "old@cedar.test"; Clerk.email_primary := false |};
      {| Clerk.email_address := "ada@cedar.test"; Clerk.email_primary := true |} ] in
  let w := world_of (Ok None) None [] (FetchNotOk "") (Some (signup_event emails)) in
  exists lead,
    calls_of (ClerkWebhook.POST sample_request) w = [SalesforceCreateLead lead] /\
    Crm.Email lead = "ada@cedar.test" /\
    Crm.Website_User_ID__c lead = Clerk.id (Clerk.data (signup_event emails)) /\
    Crm.LeadSource lead = "Website Registration" /\
    Crm.Status lead = "New" /\
    Crm.FirstName lead
    = str_or (Clerk.first_name (Clerk.data (signup_event emails))) "Unknown" /\
    Crm.LastName lead
    = str_or (Clerk.last_name (Clerk.data (signup_event emails))) "Investor" /\
    response (ClerkWebhook.POST sample_request) w =
      Some (match sf_createLead w lead with
            | Ok answer =>
                if Crm.success answer
                then json (ClerkWebhook.LeadCreated (Crm.lead_id answer)) 200
                else json (ClerkWebhook.LeadFailed (Crm.errors answer)) 500
            | Throw e => json (ClerkWebhook.LeadThrew (message_of e)) 500
            end).
Proof.
  apply (webhook_lead_and_answer
           (world_of (Ok None) None [] (FetchNotOk "")
              (Some (signup_event
                 [ {| Clerk.email_address := "old@cedar.test";
                      Clerk.email_primary := false |};
                   {| Clerk.email_address := "ada@cedar.test";
                      Clerk.email_primary := true |} ])))
           sample_request
           (signup_event
              [ {| Clerk.email_address := "old@cedar.test";
                   Clerk.email_primary := false |};
                {| Clerk.email_address := "ada@cedar.test";
                   Clerk.email_primary := true |} ])
           [ {| Clerk.email_address := "old@cedar.test";
                Clerk.email_primary := false |};
             {| Clerk.email_address := "ada@cedar.test";
                Clerk.email_primary := true |} ]
           "ada@cedar.test").
  - repeat split.
  - reflexivity.
  - reflexivity.
  - reflexivity.
  - apply primary_later; [reflexivity|].
    apply (primary_here
             {| Clerk.email_address := "ada@cedar.test";
                Clerk.email_primary := true |} []).
    reflexivity.
  - discriminate.
Defined.

(** ** The Salesforce client *)

Ltac client_run :=
  unfold SalesforceClient.getTransaction, SalesforceClient.createLead,
    SalesforceClient.makeRequest, SalesforceClient.ensureAuthenticated,
    SalesforceClient.authenticate, SalesforceClient.now,
    SalesforceClient.store, SalesforceClient.send, SalesforceClient.this,
    SalesforceClient.try_catch, SalesforceClient.bind, SalesforceClient.ret,
    SalesforceClient.throw in *;
  cbn -[String.append] in *.

Lemma str_truthy_str_or v : str_truthy (str_or v "") = opt_truthy v.
Proof.
  destruct v as [s|]; cbn; [|reflexivity].
  destruct (str_truthy s) eqn:E; [exact E|reflexivity].
Qed.

Lemma not_configured_guard c :
  configured c = false ->
  negb (str_truthy (SalesforceClient.clientId c))
  || negb (str_truthy (SalesforceClient.clientSecret c))
  || negb (str_truthy (SalesforceClient.username c))
  || negb (str_truthy (SalesforceClient.password c)) = true.
Proof.
  unfold configured.
  destruct (str_truthy (SalesforceClient.clientId c)),
    (str_truthy (SalesforceClient.clientSecret c)),
    (str_truthy (SalesforceClient.username c)),
    (str_truthy (SalesforceClient.password c)); cbn; congruence.
Qed.

Lemma configured_guard c :
  configured c = true ->
  negb (str_truthy (SalesforceClient.clientId c))
  || negb (str_truthy (SalesforceClient.clientSecret c))
  || negb (str_truthy (SalesforceClient.username c))
  || negb (str_truthy (SalesforceClient.password c)) = false.
Proof.
  unfold configured.
  destruct (str_truthy (SalesforceClient.clientId c)),
    (str_truthy (SalesforceClient.clientSecret c)),
    (str_truthy (SalesforceClient.username c)),
    (str_truthy (SalesforceClient.password c)); cbn; congruence.
Qed.

(** X21 — a client without credentials sends nothing.  When one of client
    id, client secret, user name and password is missing from the
    environment or empty, [getTransaction] and [createLead] of a client
    constructed from it throw the configuration error, at any time, without
    a request and without a change of the client. *)
Theorem client_without_credentials
    (net : SalesforceClient.Net) (env : SalesforceClient.Env)
    (s : SalesforceClient.State) :
  opt_truthy (SalesforceClient.SALESFORCE_CLIENT_ID env)
  && opt_truthy (SalesforceClient.SALESFORCE_CLIENT_SECRET env)
  && opt_truthy (SalesforceClient.SALESFORCE_USERNAME env)
  && opt_truthy (SalesforceClient.SALESFORCE_PASSWORD env) = false ->
  configured (SalesforceClient.new env) = false /\
  (configured (SalesforceClient.client s) = false ->
   (forall id,
      SalesforceClient.getTransaction net id s
      = (Throw (JsError SalesforceClient.not_configured), s)) /\
   (forall lead,
      SalesforceClient.createLead net lead s
      = (Throw (JsError SalesforceClient.not_configured), s))).
Proof.
  intros Henv. split.
  - unfold configured, SalesforceClient.new. cbn.
    now rewrite !str_truthy_str_or.
  - intros Hc. apply not_configured_guard in Hc.
    split; intros x; client_run; rewrite Hc; reflexivity.
Qed.

Lemma client_without_credentials_witness :
  configured (SalesforceClient.new (sample_env None)) = false /\
  (configured (SalesforceClient.client (fresh (sample_env None))) = false ->
   (forall id,
      SalesforceClient.getTransaction sample_net id (fresh (sample_env None))
      = (Throw (JsError SalesforceClient.not_configured),
         fresh (sample_env None))) /\
   (forall lead,
      SalesforceClient.createLead sample_net lead (fresh (sample_env None))
      = (Throw (JsError SalesforceClient.not_configured),
         fresh (sample_env None)))).
Proof.
  apply (client_without_credentials sample_net (sample_env None)
           (fresh (sample_env None))).
  reflexivity.
Defined.

(** X22 — a client with a fresh token sends one request.  With its
    credentials and a token that the clock finds unexpired, [getTransaction]
    and [createLead] send exactly one request, to the instance of the
    token, with the token as bearer (and the lead as body), without asking
    for a new token; they return the value answered and throw
    ['Salesforce API error: '] followed by the text of an answer that is
    not [ok]; the token stays as it is either way. *)
Theorem client_uses_fresh_token
    (net : SalesforceClient.Net) (s : SalesforceClient.State) (token : string) :
  configured (SalesforceClient.client s) = true ->
  token_fresh net s token ->
  let instance := SalesforceClient.show
                    (SalesforceClient.instanceUrl (SalesforceClient.client s)) in
  (forall id,
     let request := api_call SalesforceClient.GET instance token
                      ("/sobjects/Transaction__c/" ++ id) None in
     let after := snd (SalesforceClient.getTransaction net id s) in
     fst (SalesforceClient.getTransaction net id s)
     = api_result (SalesforceClient.transaction_answer net request) /\
     SalesforceClient.sent after = SalesforceClient.sent s ++ [request] /\
     SalesforceClient.client after = SalesforceClient.client s) /\
  (forall lead,
     let request := api_call SalesforceClient.POST instance token
                      "/sobjects/Lead/" (Some lead) in
     let after := snd (SalesforceClient.createLead net lead s) in
     fst (SalesforceClient.createLead net lead s)
     = api_result (SalesforceClient.lead_answer net request) /\
     SalesforceClient.sent after = SalesforceClient.sent s ++ [request] /\
     SalesforceClient.client after = SalesforceClient.client s).
Proof.
  intros Hc (Ht & Hne & Hx). cbv zeta. apply configured_guard in Hc.
  assert (Htr : str_truthy token = true).
  { unfold str_truthy. now destruct (String.eqb_spec token ""). }
  assert (Hge : Z.geb (SalesforceClient.date_now net
                         (SalesforceClient.clock_reads s))
                  (SalesforceClient.tokenExpiry (SalesforceClient.client s))
                = false).
  { rewrite Z.geb_leb. apply Z.leb_gt. exact Hx. }
  split; intros x; unfold api_call, api_result; client_run;
    repeat (progress (rewrite ?Hc, ?Ht, ?Htr, ?Hge; cbn -[String.append]));
    match goal with
    | |- context [SalesforceClient.transaction_answer net ?r] =>
        destruct (SalesforceClient.transaction_answer net r)
    | |- context [SalesforceClient.lead_answer net ?r] =>
        destruct (SalesforceClient.lead_answer net r)
    end; cbn -[String.append]; repeat split.
Qed.

Lemma client_uses_fresh_token_witness :
  let s := snd (SalesforceClient.getTransaction sample_net "a01"
                  (fresh (sample_env (Some "shh")))) in
  let instance := SalesforceClient.show
                    (SalesforceClient.instanceUrl (SalesforceClient.client s)) in
  (forall id,
     let request := api_call SalesforceClient.GET instance "00D-token"
                      ("/sobjects/Transaction__c/" ++ id) None in
     let after := snd (SalesforceClient.getTransaction sample_net id s) in
     fst (SalesforceClient.getTransaction sample_net id s)
     = api_result (SalesforceClient.transaction_answer sample_net request) /\
     SalesforceClient.sent after = SalesforceClient.sent s ++ [request] /\
     SalesforceClient.client after = SalesforceClient.client s) /\
  (forall lead,
     let request := api_call SalesforceClient.POST instance "00D-token"
                      "/sobjects/Lead/" (Some lead) in
     let after := snd (SalesforceClient.createLead sample_net lead s) in
     fst (SalesforceClient.createLead sample_net lead s)
     = api_result (SalesforceClient.lead_answer sample_net request) /\
     SalesforceClient.sent after = SalesforceClient.sent s ++ [request] /\
     SalesforceClient.client after = SalesforceClient.client s).
Proof.
  apply (client_uses_fresh_token sample_net
           (snd (SalesforceClient.getTransaction sample_net "a01"
                   (fresh (sample_env (Some "shh")))))
           "00D-token").
  - reflexivity.
  - split; [reflexivity|]. split; [discriminate|]. vm_compute. reflexivity.
Defined.

(** X23 — a client without a fresh token asks for one first.  With its
    credentials but no token, or one the clock finds expired,
    [getTransaction] first posts the credentials to the token endpoint, the
    password followed by the security token.  When a token is answered it
    is stored with the instance URL, it expires 5400000 ms (an hour and a
    half) after the clock reading that follows, and the one API request
    that comes next carries it; when none is answered the method throws
    (['Salesforce authentication failed: '] and the text of an answer that
    is not [ok]), sends no API request and leaves the client as it was. *)
Theorem client_authenticates_first
    (net : SalesforceClient.Net) (s : SalesforceClient.State) (id : string) :
  configured (SalesforceClient.client s) = true ->
  token_stale net s ->
  let login := login_of (SalesforceClient.client s) in
  let result := SalesforceClient.getTransaction net id s in
  match SalesforceClient.token_answer net login with
  | SalesforceClient.Json auth =>
      let request :=
        api_call SalesforceClient.GET (SalesforceClient.instance_url auth)
          (SalesforceClient.access_token auth)
          ("/sobjects/Transaction__c/" ++ id) None in
      fst result
      = api_result (SalesforceClient.transaction_answer net request) /\
      SalesforceClient.sent (snd result)
      = SalesforceClient.sent s ++ [login; request] /\
      SalesforceClient.accessToken (SalesforceClient.client (snd result))
      = Some (SalesforceClient.access_token auth) /\
      SalesforceClient.instanceUrl (SalesforceClient.client (snd result))
      = Some (SalesforceClient.instance_url auth) /\
      SalesforceClient.tokenExpiry (SalesforceClient.client (snd result))
      = (SalesforceClient.date_now net
           (Nat.pred (SalesforceClient.clock_reads (snd result)))
         + 5400000)%Z
  | SalesforceClient.NotOk error =>
      fst result
      = Throw (JsError ("Salesforce authentication failed: " ++ error)) /\
      SalesforceClient.sent (snd result) = SalesforceClient.sent s ++ [login] /\
      SalesforceClient.client (snd result) = SalesforceClient.client s
  | SalesforceClient.Rejects e | SalesforceClient.NoJson e =>
      fst result = Throw e /\
      SalesforceClient.sent (snd result) = SalesforceClient.sent s ++ [login] /\
      SalesforceClient.client (snd result) = SalesforceClient.client s
  end.
Proof.
  intros Hc Hstale. cbv zeta. apply configured_guard in Hc.
  assert (Hauth :
    negb (opt_truthy (SalesforceClient.accessToken (SalesforceClient.client s)))
    = true \/
    (negb (opt_truthy (SalesforceClient.accessToken (SalesforceClient.client s)))
     = false /\
     Z.geb (SalesforceClient.date_now net (SalesforceClient.clock_reads s))
       (SalesforceClient.tokenExpiry (SalesforceClient.client s)) = true)).
  { destruct (opt_truthy (SalesforceClient.accessToken
                            (SalesforceClient.client s))) eqn:E;
      [right|left; reflexivity].
    split; [reflexivity|]. rewrite Z.geb_leb. apply Z.leb_le.
    destruct Hstale as [H|H]; [congruence|exact H]. }
  unfold login_of, api_call, api_result. client_run.
  destruct Hauth as [Hno|[Hyes Hge]].
  - rewrite Hc; cbn -[String.append]. rewrite Hno; cbn -[String.append].
    destruct (SalesforceClient.token_answer net _) as [e|error|e|auth];
      cbn -[String.append].
    + repeat split.
    + repeat split.
    + repeat split.
    + rewrite ?Hc; cbn -[String.append].
      destruct (SalesforceClient.transaction_answer net _);
        cbn -[String.append]; repeat split;
        rewrite <- app_assoc; reflexivity.
  - rewrite Hc; cbn -[String.append]. rewrite Hyes; cbn -[String.append].
    rewrite Hge; cbn -[String.append].
    destruct (SalesforceClient.token_answer net _) as [e|error|e|auth];
      cbn -[String.append].
    + repeat split.
    + repeat split.
    + repeat split.
    + rewrite ?Hc; cbn -[String.append].
      destruct (SalesforceClient.transaction_answer net _);
        cbn -[String.append]; repeat split;
        rewrite <- app_assoc; reflexivity.
Qed.

Lemma client_authenticates_first_witness :
  let s := fresh (sample_env (Some "shh")) in
  let result := SalesforceClient.getTransaction sample_net "a01" s in
  let login := SalesforceClient.PostToken "3MVG9" "shh" "sync@cedar" "pw-tok" in
  let request :=
    api_call SalesforceClient.GET "https://cedar.my.salesforce.com" "00D-token"
      "/sobjects/Transaction__c/a01" None in
  fst result = Ok (sample_transaction "Rental" "public" None) /\
  SalesforceClient.sent (snd result) = [login; request] /\
  SalesforceClient.accessToken (SalesforceClient.client (snd result))
  = Some "00D-token" /\
  SalesforceClient.instanceUrl (SalesforceClient.client (snd result))
  = Some "https://cedar.my.salesforce.com" /\
  SalesforceClient.tokenExpiry (SalesforceClient.client (snd result))
  = 5400000%Z.
Proof.
  exact (client_authenticates_first sample_net
           (fresh (sample_env (Some "shh"))) "a01"
           eq_refl (or_introl eq_refl)).
Defined.

(** ** The images of a property *)

Lemma images_from_order cloud propertyId : forall resources index,
  map Types.order (CloudinaryClient.images_from cloud propertyId index resources)
  = seq (index + 1) (List.length resources).
Proof.
  induction resources as [|r rest IH]; intros index; cbn; [reflexivity|].
  rewrite IH. now replace (S index + 1) with (S (index + 1)) by lia.
Qed.

Lemma images_from_ids cloud propertyId : forall resources index,
  map Types.img_id (CloudinaryClient.images_from cloud propertyId index resources)
  = map CloudinaryClient.public_id resources.
Proof.
  induction resources as [|r rest IH]; intros index; cbn; [reflexivity|].
  now rewrite IH.
Qed.

Lemma images_from_urls cloud propertyId : forall resources index,
  Forall (fun image =>
            Types.url image
            = ("https://res.cloudinary.com/" ++ cloud
               ++ "/image/upload/q_auto,f_auto,c_fill,w_800,h_600,g_center/"
               ++ Types.img_id image)%string)
    (CloudinaryClient.images_from cloud propertyId index resources).
Proof.
  induction resources as [|r rest IH]; intros index; cbn -[String.append];
    constructor; [|apply IH].
  reflexivity.
Qed.

(** X24 — the images of a property.  [getPropertyImages] numbers the images
    from 1 in the order of the answer, one for each resource and with the
    resource's public id, and gives each the URL of the 800 by 600 fill
    crop at automatic quality and format.  It returns no image when the
    request fails, the answer is not [ok] or no JSON, or it lists no
    resources; the detail of a property then shows the placeholder as its
    thumbnail, and the URL of the first image otherwise. *)
Theorem getPropertyImages_numbered
    (cloud : string) (answer : CloudinaryClient.ImageList) (propertyId : string)
    (transaction : Types.SalesforceTransaction) :
  let images := CloudinaryClient.getPropertyImages cloud answer propertyId in
  let resources := match answer with
                   | CloudinaryClient.ListJson (Some rs) => rs
                   | _ => []
                   end in
  map Types.order images = seq 1 (List.length resources) /\
  map Types.img_id images = map CloudinaryClient.public_id resources /\
  Forall (fun image =>
            Types.url image
            = ("https://res.cloudinary.com/" ++ cloud
               ++ "/image/upload/q_auto,f_auto,c_fill,w_800,h_600,g_center/"
               ++ Types.img_id image)%string) images /\
  Types.thumbnailUrl (Types.transformSalesforceTransaction transaction images)
  = match resources with
    | [] => "/placeholder-house.jpg"
    | first :: _ =>
        ("https://res.cloudinary.com/" ++ cloud
         ++ "/image/upload/q_auto,f_auto,c_fill,w_800,h_600,g_center/"
         ++ CloudinaryClient.public_id first)%string
    end.
Proof.
  cbv zeta.
  assert (E : CloudinaryClient.getPropertyImages cloud answer propertyId
              = CloudinaryClient.images_from cloud propertyId 0
                  match answer with
                  | CloudinaryClient.ListJson (Some rs) => rs
                  | _ => []
                  end).
  { destruct answer as [| | |[rs|]]; reflexivity. }
  rewrite E. generalize (match answer with
                         | CloudinaryClient.ListJson (Some rs) => rs
                         | _ => []
                         end). intros rs.
  split; [apply (images_from_order cloud propertyId rs 0)|].
  split; [apply images_from_ids|]. split; [apply images_from_urls|].
  destruct rs as [|r rest]; [reflexivity|].
  pose proof (images_from_urls cloud propertyId (r :: rest) 0) as H.
  inversion H as [|? ? Hr _]; subst. exact Hr.
Qed.

(** ** The sync endpoint *)

Ltac probe_done k :=
  eexists; split; [reflexivity|]; trace_done;
  split; [cbn; discriminate|];
  split; [exists k; reflexivity|];
  split; [intros; try reflexivity; try discriminate|];
  split; reflexivity.





(** ** The property detail over the Salesforce client *)

Lemma substring_after_prefix (p s : string) (m n : nat) :
  substring (String.length p + m) n (p ++ s) = substring m n s.
Proof. induction p as [|c p IH]; cbn; [reflexivity|exact IH]. Qed.

Lemma includes_after_prefix (p s sub : string) :
  sub <> "" -> includes s sub = true -> includes (p ++ s) sub = true.
Proof.
  intros Hne. unfold includes.
  destruct (String.index 0 sub s) as [m|] eqn:E; [intros _|discriminate].
  apply String.index_correct1 in E.
  destruct (String.index 0 sub (p ++ s)) as [k|] eqn:E'; [reflexivity|].
  exfalso.
  apply (String.index_correct3 0 (String.length p + m) sub (p ++ s) E' Hne);
    [lia|].
  rewrite substring_after_prefix. exact E.
Qed.

(** X27 — a property Salesforce does not know.  Let the detail endpoint
    get its transaction from a client with credentials and a fresh token.
    When Salesforce answers the request with a status that is not [ok] and
    a text that contains ['NOT_FOUND'], the endpoint answers 404, and
    Cloudinary is not called; when the client has no credentials, the
    endpoint answers 500 with the configuration error as message. *)
Theorem detail_of_unknown_property
    (w : World) (net : SalesforceClient.Net) (s : SalesforceClient.State)
    (propertyId : string) (viewer : option string) :
  clerk_auth w = Ok viewer ->
  sf_getTransaction w propertyId
  = fst (SalesforceClient.getTransaction net propertyId s) ->
  (forall token text,
     configured (SalesforceClient.client s) = true ->
     token_fresh net s token ->
     SalesforceClient.transaction_answer net
       (api_call SalesforceClient.GET
          (SalesforceClient.show
             (SalesforceClient.instanceUrl (SalesforceClient.client s)))
          token ("/sobjects/Transaction__c/" ++ propertyId) None)
     = SalesforceClient.NotOk text ->
     includes text "NOT_FOUND" = true ->
     response (PropertyDetailRoute.GET propertyId) w
     = Some (json (PropertyDetailRoute.Denied "Property not found"
                     "The requested property does not exist or has been removed")
               404) /\
     calls_of (PropertyDetailRoute.GET propertyId) w
     = [SalesforceGetTransaction propertyId]) /\
  (configured (SalesforceClient.client s) = false ->
     response (PropertyDetailRoute.GET propertyId) w
     = Some (json (PropertyDetailRoute.Denied "Failed to fetch property"
                     SalesforceClient.not_configured) 500)).
Proof.
  intros Ha Hsf. split.
  - intros token text Hc Hfresh Hanswer Hnf.
    assert (Hthrow : sf_getTransaction w propertyId
                     = Throw (JsError ("Salesforce API error: " ++ text))).
    { rewrite Hsf.
      assert (Ht : forall (r : Result Types.SalesforceTransaction * SalesforceClient.State) x,
                 r = x -> fst r = fst x) by (intros; now subst).
      revert Hanswer. unfold api_call.
      destruct Hfresh as (Htok & Hne & Hx).
      apply configured_guard in Hc.
      assert (Htr : str_truthy token = true).
      { unfold str_truthy. now destruct (String.eqb_spec token ""). }
      assert (Hge : Z.geb (SalesforceClient.date_now net
                             (SalesforceClient.clock_reads s))
                      (SalesforceClient.tokenExpiry (SalesforceClient.client s))
                    = false).
      { rewrite Z.geb_leb. apply Z.leb_gt. exact Hx. }
      intros Hanswer. client_run.
      repeat (progress (rewrite ?Hc, ?Htok, ?Htr, ?Hge; cbn -[String.append])).
      rewrite Hanswer. reflexivity. }
    pose proof (includes_after_prefix "Salesforce API error: " text
                  "NOT_FOUND" ltac:(discriminate) Hnf) as Hinc.
    unfold includes in Hinc.
    unfold PropertyDetailRoute.GET, includes. run. rewrite Ha. cbn.
    rewrite Hthrow. cbn.
    destruct (String.index 0 "NOT_FOUND" _); [|discriminate Hinc].
    cbn. trace_done. split; reflexivity.
  - intros Hc.
    assert (Hthrow : sf_getTransaction w propertyId
                     = Throw (JsError SalesforceClient.not_configured)).
    { rewrite Hsf. apply not_configured_guard in Hc. client_run.
      rewrite Hc. reflexivity. }
    unfold PropertyDetailRoute.GET. run. rewrite Ha. cbn.
    rewrite Hthrow. reflexivity.
Qed.

Lemma detail_of_unknown_property_witness :
  response (PropertyDetailRoute.GET "a09") sample_world
  = Some (json (PropertyDetailRoute.Denied "Property not found"
                  "The requested property does not exist or has been removed")
            404) /\
  calls_of (PropertyDetailRoute.GET "a09") sample_world
  = [SalesforceGetTransaction "a09"].
Proof.
  apply (proj1 (detail_of_unknown_property sample_world sample_net
                  (snd (SalesforceClient.getTransaction sample_net "a01"
                          (fresh (sample_env (Some "shh")))))
                  "a09" None eq_refl eq_refl)
           "00D-token" "NOT_FOUND").
  - reflexivity.
  - split; [reflexivity|]. split; [discriminate|reflexivity].
  - reflexivity.
  - reflexivity.
Defined.

(** ** A posted property without an identifier *)

(** X28 — the upsert endpoint needs an identifier for every property.  When
    a request that passes the key check posts a property that has neither
    a [salesforce_id] nor an [id], the endpoint answers 500 and stores
    nothing: the other properties of the request are not stored either,
    and the sync status is not written. *)
Theorem upsert_route_needs_identifier
    (w : World) (request : UpsertRoute.Request)
    (posted : list UpsertRoute.Input) (prop : UpsertRoute.Input) :
  UpsertRoute.refused (SYNC_API_KEY w) (UpsertRoute.authorization request)
  = false ->
  request_posted request = Some posted ->
  In prop posted ->
  opt_truthy (UpsertRoute.salesforce_id prop) = false ->
  UpsertRoute.id prop = None ->
  option_map status (response (UpsertRoute.POST request) w) = Some 500 /\
  properties_table (after (UpsertRoute.POST request) w) = properties_table w /\
  sync_status (after (UpsertRoute.POST request) w) = sync_status w.
Proof.
  intros Hr Hp Hin Hk Hid.
  set (props := map (UpsertRoute.transformInput (builtins w) (js_now w)) posted).
  assert (Hbad : forallb Schema.not_null_ok
                   (map PropertyDatabase.property_to_columns props) = false).
  { destruct (forallb Schema.not_null_ok
                (map PropertyDatabase.property_to_columns props)) eqn:E;
      [|reflexivity].
    rewrite forallb_forall in E.
    specialize (E (PropertyDatabase.property_to_columns
                     (UpsertRoute.transformInput (builtins w) (js_now w) prop))).
    unfold Schema.not_null_ok in E. cbn in E. rewrite Hk, Hid in E.
    symmetry. apply E. apply in_map. unfold props. now apply in_map. }
  assert (Hu : exists e,
             Schema.upsert_properties (db_now w) (db_uuid w) (properties_table w)
               (map PropertyDatabase.property_to_columns props) = inr e).
  { unfold Schema.upsert_properties. rewrite Hbad. cbn. eauto. }
  destruct Hu as [e Hu].
  assert (Hjson : exists body,
             UpsertRoute.request_json request = Some body /\
             match body with
             | UpsertRoute.Many ps => ps
             | UpsertRoute.Single p => [p]
             end = posted).
  { unfold request_posted in Hp.
    destruct (UpsertRoute.request_json request) as [[p|ps]|];
      [injection Hp as <-|injection Hp as <-|discriminate]; eauto. }
  destruct Hjson as (body & Hj & Hb).
  unfold UpsertRoute.POST. run. rewrite Hr. cbn. rewrite Hj. cbn.
  rewrite Hb. fold props.
  destruct (supabase_admin_configured w); cbn; [|auto].
  destruct (db_failure w); cbn; [auto|].
  rewrite Hu. cbn. auto.
Qed.

Lemma upsert_route_needs_identifier_witness :
  let request :=
    {| UpsertRoute.authorization := None;
       UpsertRoute.request_json :=
         Some (UpsertRoute.Many
                 [sample_input (Some "a09") None (JsStr "90000");
                  sample_input None None (JsStr "90000")]) |} in
  option_map status (response (UpsertRoute.POST request) sample_world)
  = Some 500 /\
  properties_table (after (UpsertRoute.POST request) sample_world)
  = properties_table sample_world /\
  sync_status (after (UpsertRoute.POST request) sample_world)
  = sync_status sample_world.
Proof.
  apply (upsert_route_needs_identifier sample_world
           {| UpsertRoute.authorization := None;
              UpsertRoute.request_json :=
                Some (UpsertRoute.Many
                        [sample_input (Some "a09") None (JsStr "90000");
                         sample_input None None (JsStr "90000")]) |}
           [sample_input (Some "a09") None (JsStr "90000");
            sample_input None None (JsStr "90000")]
           (sample_input None None (JsStr "90000")));
    [reflexivity | reflexivity | cbn; auto | reflexivity | reflexivity].
Defined.

(** ** The slug of a property *)

Lemma keep_chars_kept keep c : forall s,
  In c (list_ascii_of_string (Utils.keep_chars keep s)) -> keep c = true.
Proof.
  induction s as [|a r IH]; cbn; [intros []|].
  destruct (keep a) eqn:E; cbn; [|exact IH].
  intros [<-|H]; [exact E|now apply IH].
Qed.

Lemma runs_to_hyphen_chars p c : forall s b,
  In c (list_ascii_of_string (Utils.runs_to_hyphen p b s)) ->
  c = "-"%char \/ (In c (list_ascii_of_string s) /\ p c = false).
Proof.
  induction s as [|a r IH]; intros b; cbn; [intros []|].
  destruct (p a) eqn:E.
  - destruct b; cbn.
    + intros H. destruct (IH _ H) as [H1|[H1 H2]]; auto.
    + intros [<-|H]; [now left|].
      destruct (IH _ H) as [H1|[H1 H2]]; auto.
  - cbn. intros [<-|H]; [right; auto|].
    destruct (IH _ H) as [H1|[H1 H2]]; auto.
Qed.

Lemma runs_to_hyphen_single : forall s b,
  single_hyphens (Utils.runs_to_hyphen Utils.is_hyphen b s) = true /\
  (b = true ->
   match Utils.runs_to_hyphen Utils.is_hyphen b s with
   | String c _ => Utils.is_hyphen c = false
   | EmptyString => True
   end).
Proof.
  induction s as [|a r IH]; intros b; cbn; [auto|].
  destruct (Utils.is_hyphen a) eqn:E.
  - destruct b.
    + apply IH.
    + destruct (IH true) as [H1 H2]. specialize (H2 eq_refl). split.
      * cbn. destruct (Utils.runs_to_hyphen Utils.is_hyphen true r) as [|c t];
          [reflexivity|]. rewrite H2. cbn. exact H1.
      * discriminate.
  - destruct (IH false) as [H1 _]. split.
    + cbn. destruct (Utils.runs_to_hyphen Utils.is_hyphen false r) as [|c t];
        [reflexivity|]. rewrite E. cbn. exact H1.
    + intros _. exact E.
Qed.

Lemma trim_without_space s :
  (forall c, In c (list_ascii_of_string s) -> is_space c = false) ->
  trim s = s.
Proof.
  intros H. unfold trim.
  assert (E : trimStart s = s).
  { destruct s as [|a r]; [reflexivity|]. cbn. rewrite (H a); [reflexivity|].
    now left. }
  rewrite E. clear E. induction s as [|a r IH]; [reflexivity|]. cbn.
  rewrite IH; [|intros c Hc; apply H; now right].
  destruct r; [|reflexivity]. rewrite (H a); [reflexivity|now left].
Qed.

Lemma slug_char_not_space c :
  Utils.slug_char c = true -> is_space c = false ->
  let n := nat_of_ascii c in
  (97 <= n <= 122) \/ (48 <= n <= 57) \/ c = "-"%char.
Proof.
  unfold Utils.slug_char, Utils.is_hyphen. intros H Hs. rewrite Hs in H.
  cbn zeta. rewrite orb_false_r in H.
  apply orb_true_iff in H. destruct H as [H|H].
  - apply orb_true_iff in H. destruct H as [H|H];
      apply andb_true_iff in H; destruct H as [H1 H2];
      apply Nat.leb_le in H1, H2; auto.
  - right. right. now apply Ascii.eqb_eq.
Qed.

Lemma hyphen_not_space : is_space "-"%char = false.
Proof. reflexivity. Qed.

Lemma split_app (sep : ascii) (b : string) : forall a,
  split sep (a ++ String sep b) = (split sep a ++ split sep b)%list.
Proof.
  induction a as [|c a IH]; cbn.
  - now rewrite Ascii.eqb_refl.
  - destruct (Ascii.eqb c sep).
    + now rewrite IH.
    + rewrite IH. destruct (split sep a) as [|h t] eqn:E;
        [now elim (split_not_nil sep a)|reflexivity].
Qed.

Lemma last_app_right {A} (l2 : list A) (d : A) : forall l1,
  l2 <> [] -> List.last (l1 ++ l2) d = List.last l2 d.
Proof.
  intros l1 H. induction l1 as [|x l1 IH]; [reflexivity|].
  cbn. destruct (l1 ++ l2) eqn:E; [|exact IH].
  destruct l1; cbn in E; [now elim H|discriminate].
Qed.

Lemma split_without_sep (sep : ascii) : forall s,
  ~ In sep (list_ascii_of_string s) -> split sep s = [s].
Proof.
  induction s as [|c s IH]; cbn; intros H; [reflexivity|].
  destruct (Ascii.eqb_spec c sep) as [->|Hne]; [elim H; now left|].
  rewrite IH; [reflexivity|]. intros Hin. apply H. now right.
Qed.

(** X29 — the slug of a property card and the way back.  The slug that
    [generatePropertySlug] makes of a title holds lower-case letters,
    digits and hyphens only, and no two hyphens in a row.
    [extractPropertyId] gives back, from the slug of a title and an id,
    what it gives for the id alone: the id itself when the id has no
    hyphen, and otherwise only what follows its last hyphen, which is not
    the id. *)
Theorem slug_and_back (title id : string) :
  url_safe (Utils.slug title) /\
  single_hyphens (Utils.slug title) = true /\
  Utils.extractPropertyId (Utils.generatePropertySlug title id)
  = Utils.extractPropertyId id /\
  (~ has_hyphen id -> Utils.extractPropertyId id = id) /\
  (has_hyphen id -> Utils.extractPropertyId id <> id).
Proof.
  set (kept := Utils.keep_chars Utils.slug_char (toLowerCase title)).
  set (spaced := Utils.runs_to_hyphen is_space false kept).
  set (hyphened := Utils.runs_to_hyphen Utils.is_hyphen false spaced).
  assert (Hsp : forall c, In c (list_ascii_of_string spaced) ->
                  is_space c = false /\
                  let n := nat_of_ascii c in
                  (97 <= n <= 122) \/ (48 <= n <= 57) \/ c = "-"%char).
  { intros c Hc. apply runs_to_hyphen_chars in Hc.
    destruct Hc as [->|[Hin Hs]]; [split; [reflexivity|cbn; auto]|].
    split; [exact Hs|]. apply slug_char_not_space; [|exact Hs].
    exact (keep_chars_kept _ _ _ Hin). }
  assert (Hhy : forall c, In c (list_ascii_of_string hyphened) ->
                  is_space c = false /\
                  let n := nat_of_ascii c in
                  (97 <= n <= 122) \/ (48 <= n <= 57) \/ c = "-"%char).
  { intros c Hc. apply runs_to_hyphen_chars in Hc.
    destruct Hc as [->|[Hin _]]; [split; [reflexivity|cbn; auto]|].
    now apply Hsp. }
  assert (E : Utils.slug title = hyphened).
  { unfold Utils.slug. fold kept. fold spaced. fold hyphened.
    apply trim_without_space. intros c Hc. now apply Hhy. }
  rewrite E. split; [|split; [|split; [|split]]].
  - intros c Hc. now apply Hhy.
  - apply (runs_to_hyphen_single spaced false).
  - unfold Utils.extractPropertyId, Utils.generatePropertySlug. cbv zeta.
    rewrite E.
    change (hyphened ++ "-" ++ id)%string
      with (hyphened ++ String "-"%char id)%string.
    rewrite split_app. apply last_app_right. apply split_not_nil.
  - intros Hno. unfold Utils.extractPropertyId. cbv zeta.
    now rewrite (split_without_sep _ _ Hno).
  - intros Hyes Heq. unfold Utils.extractPropertyId in Heq. cbv zeta in Heq.
    assert (Hin : In (List.last (split "-"%char id) "") (split "-"%char id)).
    { destruct (split "-"%char id) as [|h t] eqn:Es;
        [now elim (split_not_nil "-"%char id)|].
      clear. revert h. induction t as [|x t IH]; intros h; cbn; [now left|].
      right. apply IH. }
    rewrite Heq in Hin. exact (split_no_sep _ _ _ Hin Hyes).
Qed.

(** ** The age of a listing *)

(** X30 — the age of a listing, in words.  For a number of days,
    [formatRelativeTime] says ['Today'] for 0, the days up to 6, the whole
    weeks from 7 to 29 days and the whole months of 30 days from 30 days
    on, each count at least 1 and its unit in the plural exactly when the
    count is not 1; for a date that is none it says ['NaN months ago']. *)
Theorem formatRelativeTime_in_words (days : nat) :
  Utils.formatRelativeTime (Some days) =
    (if Nat.eqb days 0 then "Today"
     else if Nat.ltb days 7 then ago days "day"
     else if Nat.ltb days 30 then ago (days / 7) "week"
     else ago (days / 30) "month") /\
  (7 <= days -> 1 <= days / 7) /\ (30 <= days -> 1 <= days / 30) /\
  Utils.formatRelativeTime None = "NaN months ago".
Proof.
  split; [|split; [|split]].
  - unfold Utils.formatRelativeTime, ago.
    destruct (Nat.eqb_spec days 0) as [E0|E0]; [reflexivity|].
    destruct (Nat.eqb_spec days 1) as [E1|E1].
    + subst. reflexivity.
    + destruct (Nat.ltb_spec days 7) as [L7|L7]; [reflexivity|].
      destruct (Nat.ltb_spec days 14) as [L14|L14].
      * assert (E : days / 7 = 1).
        { symmetry. apply (Nat.div_unique days 7 1 (days - 7)); lia. }
        rewrite E. destruct (Nat.ltb_spec days 30); [reflexivity|lia].
      * destruct (Nat.ltb_spec days 30) as [L30|L30].
        -- assert (H : 2 <= days / 7)
             by (apply Nat.div_le_lower_bound; lia).
           destruct (Nat.eqb_spec (days / 7) 1); [lia|reflexivity].
        -- destruct (Nat.ltb_spec days 60) as [L60|L60].
           ++ assert (E : days / 30 = 1).
              { symmetry. apply (Nat.div_unique days 30 1 (days - 30)); lia. }
              rewrite E. reflexivity.
           ++ assert (H : 2 <= days / 30)
                by (apply Nat.div_le_lower_bound; lia).
              destruct (Nat.eqb_spec (days / 30) 1); [lia|reflexivity].
  - intros H. apply Nat.div_le_lower_bound; lia.
  - intros H. apply Nat.div_le_lower_bound; lia.
  - reflexivity.
Qed.
